(** * ODR-DabMod SDR output core: a shallow embedding of
      [src/output/Dexter.cpp], [src/output/SDR.cpp] and
      [src/FrequencyInterleaver.cpp]

    The C++ objects become records, member functions become functions in a
    state-and-exception monad, integers are [Z] with their wrap-around
    written out, and [double] is the primitive binary64 float of the
    kernel.  The hardware (IIO attributes, DMA pushes, sysfs sensors, the
    clocks) is an explicit environment: every access is answered by an
    oracle that sees the whole history, and is recorded in a trace. *)

From Stdlib Require Import ZArith Uint63 PrimFloat SpecFloat FloatOps.
From Stdlib Require Import String Ascii List Bool Lia Setoid Morphisms.
From stdpp Require Import base option list gmap strings.
Import ListNotations.

#[local] Open Scope string_scope.
#[local] Open Scope Z_scope.
#[local] Open Scope float_scope.
#[local] Open Scope Z_scope.

(* Decimal constants of the sources denote the nearest double, here as in C++. *)
#[local] Set Warnings "-inexact-float".

(** ** Machine integers *)

Module Int.

Definition u16 (x : Z) : Z := x mod 2 ^ 16.
Definition u32 (x : Z) : Z := x mod 2 ^ 32.
Definition u64 (x : Z) : Z := x mod 2 ^ 64.

(** Conversion to [int64_t], [long long], [ssize_t] or [time_t]
    (two's complement, 64 bits). *)
Definition s64 (x : Z) : Z := (x + 2 ^ 63) mod 2 ^ 64 - 2 ^ 63.

Definition UINT32_MAX : Z := 2 ^ 32 - 1.
Definition UINT64_MAX : Z := 2 ^ 64 - 1.
Definition INT64_MIN : Z := - 2 ^ 63.

Definition is_u32 (x : Z) : Prop := 0 <= x < 2 ^ 32.
Definition is_u64 (x : Z) : Prop := 0 <= x < 2 ^ 64.
Definition is_s64 (x : Z) : Prop := - 2 ^ 63 <= x < 2 ^ 63.

(** Equal as 64-bit patterns. *)
Inductive cong64 (a b : Z) : Prop :=
| cong64_intro (H : a mod 2 ^ 64 = b mod 2 ^ 64).

End Int.

(** ** Doubles *)

Module Double.

Abbreviation double := PrimFloat.float.

(** [(double)x] for an unsigned 64-bit [x].  The primitive conversion
    takes 63 bits; the top half of the range goes through the usual
    halving with a sticky low bit, which rounds the same way. *)
Definition of_u64 (x : Z) : double :=
  let x := Int.u64 x in
  if x <? 2 ^ 63 then PrimFloat.of_uint63 (Uint63.of_Z x)
  else
    let h := Z.lor (Z.shiftr x 1) (Z.land x 1) in
    PrimFloat.mul (PrimFloat.of_uint63 (Uint63.of_Z h)) 2%float.

(** [(double)x] for a signed 64-bit [x].  The magnitude of the most
    negative value does not fit the 63 bits of the primitive conversion. *)
Definition of_s64 (x : Z) : double :=
  let x := Int.s64 x in
  if x =? Int.INT64_MIN then (-0x1p63)%float
  else if x <? 0 then PrimFloat.opp (PrimFloat.of_uint63 (Uint63.of_Z (- x)))
  else PrimFloat.of_uint63 (Uint63.of_Z x).

(** [(long long)d]: truncation towards zero.  Outside the range of
    [long long] (and for NaN and the infinities) C++ leaves the conversion
    undefined; the model answers [INT64_MIN], as x86-64 does. *)
Definition to_s64 (d : double) : Z :=
  match Prim2SF d with
  | S754_zero _ => 0
  | S754_finite s m e =>
      let a := if 0 <=? e then Z.pos m * 2 ^ e else Z.pos m / 2 ^ (- e) in
      let v := if s then - a else a in
      if (Int.INT64_MIN <=? v) && (v <? 2 ^ 63) then v else Int.INT64_MIN
  | S754_infinity _ | S754_nan => Int.INT64_MIN
  end.

(** The C++ comparison operators on [double]: false on NaN. *)
Definition lt (a b : double) : bool := PrimFloat.ltb a b.
Definition le (a b : double) : bool := PrimFloat.leb a b.
Definition gt (a b : double) : bool := PrimFloat.ltb b a.

End Double.

Export Double(double).

(** ** Results and the state-and-exception monad *)

(** The exceptions the sources throw and catch, and one marker for
    executions C++ leaves undefined (a division by zero, a null device). *)
Inductive exn : Type :=
| runtime_error (what : string)
| logic_error (what : string)
| ThreadsafeQueueWakeup
| ParameterError (what : string)
| ios_base_failure
| undefined_behaviour (what : string).

Inductive result (A : Type) : Type :=
| Val (a : A)
| Exc (e : exn).
Arguments Val {A} a.
Arguments Exc {A} e.

(** A computation over a state [S]: it returns a value or throws, and in
    both cases leaves a state behind (what was written before a [throw]
    stays written). *)
Definition M (S A : Type) : Type := S -> result A * S.

Definition ret {S A} (a : A) : M S A := fun s => (Val a, s).

Definition bind {S A B} (m : M S A) (k : A -> M S B) : M S B :=
  fun s =>
    match m s with
    | (Val a, s') => k a s'
    | (Exc e, s') => (Exc e, s')
    end.

Definition throw {S A} (e : exn) : M S A := fun s => (Exc e, s).
Definition get {S} : M S S := fun s => (Val s, s).
Definition put {S} (s : S) : M S unit := fun _ => (Val tt, s).
Definition modify {S} (f : S -> S) : M S unit := fun s => (Val tt, f s).
Definition gets {S A} (f : S -> A) : M S A := fun s => (Val (f s), s).

(** [try m catch h]: the handler runs in the state the throw left. *)
Definition try_catch {S A} (m : M S A) (h : exn -> M S A) : M S A :=
  fun s =>
    match m s with
    | (Val a, s') => (Val a, s')
    | (Exc e, s') => h e s'
    end.

Declare Scope monad_scope.
Delimit Scope monad_scope with monad.
Notation "'let*' x ':=' m 'in' k" := (bind m (fun x => k))
  (at level 10, x pattern, m at level 100, k at level 200) : monad_scope.
Notation "m ';;' k" := (bind m (fun _ => k))
  (at level 100, k at level 200, right associativity) : monad_scope.
#[local] Open Scope monad_scope.

(** [m] keeps the invariant [I], whether it returns or throws. *)
Definition preserves {S A} (I : S -> Prop) (m : M S A) : Prop :=
  forall s, I s -> I (snd (m s)).

Definition returned {S A} (r : result A * S) : Prop :=
  match fst r with Val _ => True | Exc _ => False end.

Definition threw {S A} (r : result A * S) : Prop :=
  match fst r with Val _ => False | Exc _ => True end.

(** ** Configuration and frames (declared in headers outside [src/]) *)

(** Modelled from the spec: [SDRDeviceConfig] of section 3, whose
    declaration ([output/SDRDevice.h]) is not among the sources; the integer
    widths are those the uses in [SDR.cpp] and [Dexter.cpp] need. *)
Record SDRDeviceConfig : Type := {
  sampleRate : Z;            (* unsigned *)
  frequency : double;
  lo_offset : double;
  txgain : double;
  rxgain : double;
  bandwidth : double;
  muting : bool;
  enableSync : bool;
  muteNoTimestamps : bool;
  dabMode : Z;               (* unsigned *)
  maxGPSHoldoverTime : Z;    (* unsigned *)
  dpdFeedbackServerPort : Z  (* uint16_t *)
}.

Definition set_muting (b : bool) (c : SDRDeviceConfig) : SDRDeviceConfig :=
  {| sampleRate := sampleRate c; frequency := frequency c;
     lo_offset := lo_offset c; txgain := txgain c; rxgain := rxgain c;
     bandwidth := bandwidth c; muting := b; enableSync := enableSync c;
     muteNoTimestamps := muteNoTimestamps c; dabMode := dabMode c;
     maxGPSHoldoverTime := maxGPSHoldoverTime c;
     dpdFeedbackServerPort := dpdFeedbackServerPort c |}.

Definition set_enableSync (b : bool) (c : SDRDeviceConfig) : SDRDeviceConfig :=
  {| sampleRate := sampleRate c; frequency := frequency c;
     lo_offset := lo_offset c; txgain := txgain c; rxgain := rxgain c;
     bandwidth := bandwidth c; muting := muting c; enableSync := b;
     muteNoTimestamps := muteNoTimestamps c; dabMode := dabMode c;
     maxGPSHoldoverTime := maxGPSHoldoverTime c;
     dpdFeedbackServerPort := dpdFeedbackServerPort c |}.

Definition with_txgain (g : double) (c : SDRDeviceConfig) : SDRDeviceConfig :=
  {| sampleRate := sampleRate c; frequency := frequency c;
     lo_offset := lo_offset c; txgain := g; rxgain := rxgain c;
     bandwidth := bandwidth c; muting := muting c;
     enableSync := enableSync c;
     muteNoTimestamps := muteNoTimestamps c; dabMode := dabMode c;
     maxGPSHoldoverTime := maxGPSHoldoverTime c;
     dpdFeedbackServerPort := dpdFeedbackServerPort c |}.

Definition with_rxgain (g : double) (c : SDRDeviceConfig) : SDRDeviceConfig :=
  {| sampleRate := sampleRate c; frequency := frequency c;
     lo_offset := lo_offset c; txgain := txgain c; rxgain := g;
     bandwidth := bandwidth c; muting := muting c;
     enableSync := enableSync c;
     muteNoTimestamps := muteNoTimestamps c; dabMode := dabMode c;
     maxGPSHoldoverTime := maxGPSHoldoverTime c;
     dpdFeedbackServerPort := dpdFeedbackServerPort c |}.

Definition with_bandwidth (b : double) (c : SDRDeviceConfig) : SDRDeviceConfig :=
  {| sampleRate := sampleRate c; frequency := frequency c;
     lo_offset := lo_offset c; txgain := txgain c; rxgain := rxgain c;
     bandwidth := b; muting := muting c;
     enableSync := enableSync c;
     muteNoTimestamps := muteNoTimestamps c; dabMode := dabMode c;
     maxGPSHoldoverTime := maxGPSHoldoverTime c;
     dpdFeedbackServerPort := dpdFeedbackServerPort c |}.

Definition with_frequency (f : double) (c : SDRDeviceConfig) : SDRDeviceConfig :=
  {| sampleRate := sampleRate c; frequency := f;
     lo_offset := lo_offset c; txgain := txgain c; rxgain := rxgain c;
     bandwidth := bandwidth c; muting := muting c;
     enableSync := enableSync c;
     muteNoTimestamps := muteNoTimestamps c; dabMode := dabMode c;
     maxGPSHoldoverTime := maxGPSHoldoverTime c;
     dpdFeedbackServerPort := dpdFeedbackServerPort c |}.

Definition with_maxGPSHoldoverTime (n : Z) (c : SDRDeviceConfig)
    : SDRDeviceConfig :=
  {| sampleRate := sampleRate c; frequency := frequency c;
     lo_offset := lo_offset c; txgain := txgain c; rxgain := rxgain c;
     bandwidth := bandwidth c; muting := muting c;
     enableSync := enableSync c;
     muteNoTimestamps := muteNoTimestamps c; dabMode := dabMode c;
     maxGPSHoldoverTime := n;
     dpdFeedbackServerPort := dpdFeedbackServerPort c |}.

(** Modelled from the spec: [frame_timestamp] of section 3
    ([TimestampDecoder.h] is not among the sources). *)
Record frame_timestamp : Type := {
  fct : Z;                   (* uint32_t *)
  timestamp_valid : bool;
  timestamp_sec : Z;         (* uint32_t *)
  timestamp_pps : Z;         (* uint32_t, in units of 1/16384000 s *)
  offset_changed : bool
}.

(** Modelled from the spec: [get_real_secs() = timestamp_sec +
    timestamp_pps / 16 384 000], in double arithmetic. *)
Definition ts_get_real_secs (ts : frame_timestamp) : double :=
  PrimFloat.add (Double.of_u64 (Int.u32 (timestamp_sec ts)))
    (PrimFloat.div (Double.of_u64 (Int.u32 (timestamp_pps ts))) 16384000%float).

Record FrameData : Type := {
  buf : list Byte.byte;
  sampleSize : Z;            (* size_t *)
  ts : frame_timestamp
}.

Definition buf_size (f : FrameData) : Z := Z.of_nat (length (buf f)).


(** ** The log and the trace of external effects *)

Inductive LogLevel : Type := debug | info | warn | error | trace_lvl.

(** The virtual calls the output stage makes on its [SDRDevice]. *)
Inductive DevCall : Type :=
| call_is_clk_source_ok
| call_get_real_secs
| call_require_timestamp_refresh
| call_transmit_frame (frame : FrameData)
| call_set_txgain (txgain : double)
| call_set_rxgain (rxgain : double)
| call_set_bandwidth (bandwidth : double)
| call_tune (lo_offset frequency : double).

(** One entry per effect that leaves the process, in program order, newest
    first.  A log line is identified by its level and the fixed text it
    starts with in the source. *)
Inductive Event : Type :=
| Log (lvl : LogLevel) (text : string)
| AttrRead (dev attr : string) (rc value : Z)
| AttrWrite (dev attr : string) (value rc : Z)
| BufferPush (block : list Byte.byte) (pushed : Z)
| SleepFor (ms : Z)
| DeviceCall (c : DevCall).


(** ** The world outside the process *)

(** The clocks and the history of effects.  Both clocks count nanoseconds;
    they only move when the program sleeps ([sleep_for] is taken to last
    exactly as long as asked). *)
Record World : Type := {
  realtime_ns : Z;           (* CLOCK_REALTIME and system_clock *)
  steady_ns : Z;             (* steady_clock *)
  trace : list Event
}.

Definition record_event (e : Event) (w : World) : World :=
  {| realtime_ns := realtime_ns w; steady_ns := steady_ns w;
     trace := e :: trace w |}.

Definition is_push (e : Event) : bool :=
  match e with BufferPush _ _ => true | _ => false end.

(** How many DMA blocks went out so far. *)
Definition pushes_so_far (w : World) : nat := length (filter is_push (trace w)).

Definition advance_ms (ms : Z) (w : World) : World :=
  {| realtime_ns := realtime_ns w + ms * 1000000;
     steady_ns := steady_ns w + ms * 1000000;
     trace := SleepFor ms :: trace w |}.

(** What the hardware and the operating system answer.  Each answer may
    depend on everything that happened before (the world at the time of
    the call). *)
Record Hardware : Type := {
  (* iio_device_attr_read_longlong: return code and value read *)
  iio_attr_read : World -> string -> string -> Z * Z;
  (* iio_device_attr_write_longlong: return code *)
  iio_attr_write : World -> string -> string -> Z -> Z;
  (* iio_buffer_push: bytes pushed, or a negative error *)
  iio_push : World -> list Byte.byte -> Z;
  (* clock_gettime(CLOCK_REALTIME): return code *)
  clock_gettime_rc : World -> Z;
  (* the counter the underflow thread maintains, as a reader holding the
     mutex finds it *)
  shared_underflows : World -> Z;
  (* sysfs: the number a sensor file yields ([None]: the file cannot be
     opened), and the text of an iio device's [name] file *)
  hwmon_input : string -> option double;
  iio_device_name : Z -> string;
  iio_device_file : Z -> string -> option double
}.

Record timespec : Type := { tv_sec : Z; tv_nsec : Z }.

(** * The Dexter driver ([src/output/Dexter.cpp]) *)

Module Dexter.

Definition DSP_CLOCK : Z := 2048000 * 80.
Definition IIO_TIMEOUT_MS : Z := 1000.
Definition TRANSMISSION_FRAME_LEN_SAMPS : Z := (2656 + 76 * 2552) * 2.
Definition IIO_BUFFERS : Z := 2.
Definition IIO_BUFFER_LEN_SAMPS : Z := TRANSMISSION_FRAME_LEN_SAMPS / IIO_BUFFERS.
Definition sizeof_int16_t : Z := 2.

Inductive DexterClockState : Type := Startup | Normal | Holdover.

Definition clock_state_eqb (a b : DexterClockState) : bool :=
  match a, b with
  | Startup, Startup | Normal, Normal | Holdover, Holdover => true
  | _, _ => false
  end.

(** The data members of [class Dexter] the modelled functions touch
    (declared in [output/Dexter.h], outside [src/]; widths as in section 3
    of the spec and as the casts in the code require). *)
Record t : Type := {
  m_channel_is_up : bool;
  m_clock_state : DexterClockState;
  m_utc_seconds_at_startup : Z;      (* uint64_t *)
  m_clock_count_at_startup : Z;      (* uint64_t *)
  m_holdover_since : Z;              (* steady_clock::time_point, in ns *)
  m_holdover_since_t : Z;            (* time_t *)
  m_require_timestamp_refresh : bool;
  num_late : Z;                      (* size_t *)
  num_frames_modulated : Z;          (* size_t *)
  num_buffers_pushed : Z;            (* size_t *)
  prev_underflows : Z                (* size_t *)
}.

(** [chrono::steady_clock::time_point::min()] *)
Definition time_point_min : Z := Int.INT64_MIN.

Definition set_channel_is_up (b : bool) (d : t) : t :=
  {| m_channel_is_up := b; m_clock_state := m_clock_state d;
     m_utc_seconds_at_startup := m_utc_seconds_at_startup d;
     m_clock_count_at_startup := m_clock_count_at_startup d;
     m_holdover_since := m_holdover_since d;
     m_holdover_since_t := m_holdover_since_t d;
     m_require_timestamp_refresh := m_require_timestamp_refresh d;
     num_late := num_late d; num_frames_modulated := num_frames_modulated d;
     num_buffers_pushed := num_buffers_pushed d;
     prev_underflows := prev_underflows d |}.

(** The five members the clock state machine assigns together. *)
Definition set_clock (st : DexterClockState) (utc cnt since since_t : Z)
    (d : t) : t :=
  {| m_channel_is_up := m_channel_is_up d; m_clock_state := st;
     m_utc_seconds_at_startup := utc;
     m_clock_count_at_startup := cnt;
     m_holdover_since := since;
     m_holdover_since_t := since_t;
     m_require_timestamp_refresh := m_require_timestamp_refresh d;
     num_late := num_late d; num_frames_modulated := num_frames_modulated d;
     num_buffers_pushed := num_buffers_pushed d;
     prev_underflows := prev_underflows d |}.

Definition set_require_timestamp_refresh (b : bool) (d : t) : t :=
  {| m_channel_is_up := m_channel_is_up d; m_clock_state := m_clock_state d;
     m_utc_seconds_at_startup := m_utc_seconds_at_startup d;
     m_clock_count_at_startup := m_clock_count_at_startup d;
     m_holdover_since := m_holdover_since d;
     m_holdover_since_t := m_holdover_since_t d;
     m_require_timestamp_refresh := b;
     num_late := num_late d; num_frames_modulated := num_frames_modulated d;
     num_buffers_pushed := num_buffers_pushed d;
     prev_underflows := prev_underflows d |}.

Definition set_num_late (n : Z) (d : t) : t :=
  {| m_channel_is_up := m_channel_is_up d; m_clock_state := m_clock_state d;
     m_utc_seconds_at_startup := m_utc_seconds_at_startup d;
     m_clock_count_at_startup := m_clock_count_at_startup d;
     m_holdover_since := m_holdover_since d;
     m_holdover_since_t := m_holdover_since_t d;
     m_require_timestamp_refresh := m_require_timestamp_refresh d;
     num_late := n; num_frames_modulated := num_frames_modulated d;
     num_buffers_pushed := num_buffers_pushed d;
     prev_underflows := prev_underflows d |}.

Definition set_num_frames_modulated (n : Z) (d : t) : t :=
  {| m_channel_is_up := m_channel_is_up d; m_clock_state := m_clock_state d;
     m_utc_seconds_at_startup := m_utc_seconds_at_startup d;
     m_clock_count_at_startup := m_clock_count_at_startup d;
     m_holdover_since := m_holdover_since d;
     m_holdover_since_t := m_holdover_since_t d;
     m_require_timestamp_refresh := m_require_timestamp_refresh d;
     num_late := num_late d; num_frames_modulated := n;
     num_buffers_pushed := num_buffers_pushed d;
     prev_underflows := prev_underflows d |}.

Definition set_num_buffers_pushed (n : Z) (d : t) : t :=
  {| m_channel_is_up := m_channel_is_up d; m_clock_state := m_clock_state d;
     m_utc_seconds_at_startup := m_utc_seconds_at_startup d;
     m_clock_count_at_startup := m_clock_count_at_startup d;
     m_holdover_since := m_holdover_since d;
     m_holdover_since_t := m_holdover_since_t d;
     m_require_timestamp_refresh := m_require_timestamp_refresh d;
     num_late := num_late d; num_frames_modulated := num_frames_modulated d;
     num_buffers_pushed := n;
     prev_underflows := prev_underflows d |}.

Definition set_prev_underflows (n : Z) (d : t) : t :=
  {| m_channel_is_up := m_channel_is_up d; m_clock_state := m_clock_state d;
     m_utc_seconds_at_startup := m_utc_seconds_at_startup d;
     m_clock_count_at_startup := m_clock_count_at_startup d;
     m_holdover_since := m_holdover_since d;
     m_holdover_since_t := m_holdover_since_t d;
     m_require_timestamp_refresh := m_require_timestamp_refresh d;
     num_late := num_late d; num_frames_modulated := num_frames_modulated d;
     num_buffers_pushed := num_buffers_pushed d;
     prev_underflows := n |}.

(** The state a member function runs in: the object and the world. *)
Record St : Type := { self : t; world : World }.

Definition on_self (f : t -> t) : M St unit :=
  modify (fun s => {| self := f (self s); world := world s |}).

Definition on_world (f : World -> World) : M St unit :=
  modify (fun s => {| self := self s; world := f (world s) |}).

Section Driver.

Variable hw : Hardware.
(** [m_conf]: a reference to the configuration shared with the output
    stage, read afresh at every use. *)
Variable m_conf : SDRDeviceConfig.

Definition etiLog (lvl : LogLevel) (text : string) : M St unit :=
  on_world (record_event (Log lvl text)).

(** [iio_device_attr_read_longlong]: on failure the destination keeps the
    [0] every caller initialises it with. *)
Definition iio_device_attr_read_longlong (dev attr : string) : M St (Z * Z) :=
  let* s := get in
  let '(r, v) := iio_attr_read hw (world s) dev attr in
  let v := if r =? 0 then Int.s64 v else 0 in
  on_world (record_event (AttrRead dev attr r v)) ;;
  ret (r, v).

Definition iio_device_attr_write_longlong (dev attr : string) (v : Z) : M St Z :=
  let* s := get in
  let r := iio_attr_write hw (world s) dev attr (Int.s64 v) in
  on_world (record_event (AttrWrite dev attr (Int.s64 v) r)) ;;
  ret r.

Definition sleep_for_ms (ms : Z) : M St unit := on_world (advance_ms ms).

(** [fill_time].  The text of the exception is its fixed part; the source
    appends [strerror(errno)]. *)
Definition fill_time : M St timespec :=
  let* s := get in
  if negb (clock_gettime_rc hw (world s) =? 0) then
    throw (runtime_error "Failed to retrieve CLOCK_REALTIME")
  else
    ret {| tv_sec := realtime_ns (world s) / 1000000000;
           tv_nsec := realtime_ns (world s) mod 1000000000 |}.

Definition steady_clock_now : M St Z := gets (fun s => steady_ns (world s)).

(** [system_clock::to_time_t(system_clock::now())] *)
Definition system_clock_now_time_t : M St Z :=
  gets (fun s => Z.quot (realtime_ns (world s)) 1000000000).

Definition dexter_dsp_tx : string := "dexter_dsp_tx".

Definition channel_up : M St unit :=
  let* r := iio_device_attr_write_longlong dexter_dsp_tx "gain0"
              (Double.to_s64 (txgain m_conf)) in
  (if negb (r =? 0) then etiLog error "Failed to set dexter_dsp_tx.gain0 = "
   else ret tt) ;;
  on_self (set_channel_is_up true) ;;
  etiLog debug "DEXTER CHANNEL_UP".

Definition channel_down : M St unit :=
  let* r := iio_device_attr_write_longlong dexter_dsp_tx "gain0" 0 in
  (if negb (r =? 0) then etiLog error "Failed to set dexter_dsp_tx.gain0 = 0: "
   else ret tt) ;;
  (* This will flush out the FIFO *)
  let* r := iio_device_attr_write_longlong dexter_dsp_tx "stream0_start_clks" 0 in
  (if negb (r =? 0) then
     etiLog warn "Failed to set dexter_dsp_tx.stream0_start_clks = 0 : "
   else ret tt) ;;
  on_self (set_channel_is_up false) ;;
  etiLog debug "DEXTER CHANNEL_DOWN".

(** The pattern every attribute read of the state machine follows: log and
    throw when the return code is not zero. *)
Definition read_attr_or_throw (attr : string) : M St Z :=
  let* (r, v) := iio_device_attr_read_longlong dexter_dsp_tx attr in
  if negb (r =? 0) then
    etiLog error ("Failed to get dexter_dsp_tx." ++ attr ++ ": ") ;;
    throw (runtime_error "Dexter: Cannot read IIO attribute")
  else ret v.

(** [do { fill_time(&time_now); sleep_for(1ms); }
     while (time_at_startup.tv_sec == time_now.tv_sec);]
    The loop runs its body once more than [fuel] allows repetitions; with
    the clocks of [World] a thousand repetitions always reach the next
    second (lemma [ClockFacts.wait_second_change_exits]). *)
Fixpoint wait_second_change (fuel : nat) (start_sec : Z) : M St timespec :=
  let* time_now := fill_time in
  sleep_for_ms 1 ;;
  match fuel with
  | S n =>
      if start_sec =? tv_sec time_now then wait_second_change n start_sec
      else ret time_now
  | O => ret time_now
  end.

Definition second_change_fuel : nat := 1000.

Definition handle_hw_time : M St unit :=
  let* s := get in
  match m_clock_state (self s) with
  | Startup =>
      let* gpsdo_locked := read_attr_or_throw "gpsdo_locked" in
      let* pps_loss_of_signal := read_attr_or_throw "pps_loss_of_signal" in
      if (gpsdo_locked =? 1) && (pps_loss_of_signal =? 0) then
        etiLog info "Dexter: Waiting for second change..." ;;
        let* time_at_startup := fill_time in
        let* time_now := wait_second_change second_change_fuel
                           (tv_sec time_at_startup) in
        sleep_for_ms 200 ;;
        let* pps_clks := read_attr_or_throw "pps_clks" in
        etiLog info "Dexter: pps_clks " ;;
        let* time_now := wait_second_change second_change_fuel
                           (tv_sec time_now) in
        sleep_for_ms 200 ;;
        let* pps_clks2 := read_attr_or_throw "pps_clks" in
        etiLog info "Dexter: pps_clks increased by " ;;
        if negb (Int.u64 (Int.u64 pps_clks + DSP_CLOCK) =? Int.u64 pps_clks2) then
          throw (runtime_error
                   "Dexter: Wrong increase of pps_clks, expected 163840000")
        else
          on_self (set_clock Normal (Int.u64 (tv_sec time_now))
                     (Int.u64 pps_clks2) time_point_min 0) ;;
          etiLog debug "Dexter: switch clock state Startup -> Normal"
      else ret tt
  | Normal =>
      let* pps_loss_of_signal := read_attr_or_throw "pps_loss_of_signal" in
      if pps_loss_of_signal =? 1 then
        let* now := steady_clock_now in
        let* now_t := system_clock_now_time_t in
        on_self (fun d => set_clock Holdover (m_utc_seconds_at_startup d)
                            (m_clock_count_at_startup d) now now_t d) ;;
        etiLog debug "Dexter: switch clock state Normal -> Holdover"
      else ret tt
  | Holdover =>
      let* pps_loss_of_signal := read_attr_or_throw "pps_loss_of_signal" in
      let* now := steady_clock_now in
      (* const duration<double> d = steady_clock::now() - m_holdover_since; *)
      let d := PrimFloat.div
                 (Double.of_s64 (now - m_holdover_since (self s)))
                 1000000000%float in
      let max_holdover_duration :=
        Double.of_s64 (maxGPSHoldoverTime m_conf) in
      if Double.gt d max_holdover_duration || (pps_loss_of_signal =? 0) then
        on_self (set_clock Startup 0 0 time_point_min 0) ;;
        etiLog debug "Dexter: switch clock state Holdover -> Startup"
      else ret tt
  end.

Definition is_clk_source_ok : M St bool :=
  if enableSync m_conf then
    handle_hw_time ;;
    let* s := get in
    ret (negb (clock_state_eqb (m_clock_state (self s)) Startup))
  else ret true.

Definition get_real_secs : M St double :=
  let* clks := read_attr_or_throw "clks" in
  let* s := get in
  match m_clock_state (self s) with
  | Startup => ret 0%float
  | Normal | Holdover =>
      ret (PrimFloat.add
             (Double.of_u64 (m_utc_seconds_at_startup (self s)))
             (PrimFloat.div
                (Double.of_u64
                   (Int.u64 (clks - m_clock_count_at_startup (self s))))
                (Double.of_u64 DSP_CLOCK)))
  end.

(** Modelled from the spec: [require_timestamp_refresh] is defined in
    [output/Dexter.h], not among the sources; section 4.1 has it signal
    that the next frame hand-off must re-arm hardware scheduling, which
    [transmit_frame] reads from [m_require_timestamp_refresh]. *)
Definition require_timestamp_refresh (s : St) : St :=
  {| self := set_require_timestamp_refresh true (self s); world := world s |}.

(** Modelled from the spec: [frame_timestamp::offset_to_system_time]
    ([TimestampDecoder.h] is not among the sources) returns
    [get_real_secs() - now()]; [now()] is the realtime clock in seconds. *)
Definition offset_to_system_time (ts : frame_timestamp) : M St double :=
  let* t := fill_time in
  let now := PrimFloat.add (Double.of_s64 (tv_sec t))
               (PrimFloat.div (Double.of_s64 (tv_nsec t)) 1000000000%float) in
  ret (PrimFloat.sub (ts_get_real_secs ts) now).

Definition TIMESTAMP_PPS_PER_DSP_CLOCKS : Z := DSP_CLOCK / 16384000.

(** [uint64_t frame_start_clocks] of [transmit_frame], cast by cast. *)
Definition frame_start_clocks (d : t) (ts : frame_timestamp) : Z :=
  Int.u64
    (Int.u64
       (Int.u64
          (Int.s64 (Int.s64 (Int.u32 (timestamp_sec ts))
                    - Int.s64 (m_utc_seconds_at_startup d)))
        * DSP_CLOCK)
     + m_clock_count_at_startup d
     + Int.u64 (Int.u64 (Int.u32 (timestamp_pps ts))
                * TIMESTAMP_PPS_PER_DSP_CLOCKS)).

Definition frame_len_bytes : Z := TRANSMISSION_FRAME_LEN_SAMPS * sizeof_int16_t.
Definition buflen : Z := IIO_BUFFER_LEN_SAMPS * sizeof_int16_t.

(** [transmit_frame], the block [if (not m_channel_is_up) { ... }].
    The result is [false] where the source returns from the function. *)
Definition transmit_frame_arm (frame : FrameData) : M St bool :=
  let require_timestamped_tx :=
    enableSync m_conf && timestamp_valid (ts frame) in
  let* s := get in
  if negb (m_channel_is_up (self s)) then
    if require_timestamped_tx then
      if clock_state_eqb (m_clock_state (self s)) Startup then
        ret false (* not ready *)
      else
        let start_clocks := frame_start_clocks (self s) (ts frame) in
        let* margin_s := offset_to_system_time (ts frame) in
        let* clks := read_attr_or_throw "clks" in
        (* margin_device_s only feeds the debug line *)
        etiLog debug "DEXTER FCT " ;;
        (* Ensure we hand the frame over to HW with a bit of margin *)
        if Double.lt margin_s 0x1.999999999999ap-3%float (* 0.2 *) then
          etiLog warn "Skip frame short margin " ;;
          on_self (fun d => set_num_late (Int.u64 (num_late d + 1)) d) ;;
          ret false
        else
          let* r := iio_device_attr_write_longlong dexter_dsp_tx
                      "stream0_start_clks" start_clocks in
          if negb (r =? 0) then
            etiLog warn
              "Skip frame, failed to set dexter_dsp_tx.stream0_start_clks = " ;;
            on_self (fun d => set_num_late (Int.u64 (num_late d + 1)) d) ;;
            ret false
          else
            on_self (set_require_timestamp_refresh false) ;;
            channel_up ;;
            ret true
    else
      channel_up ;;
      ret true
  else ret true.

(** The block [if (m_require_timestamp_refresh) { ... }]. *)
Definition transmit_frame_refresh : M St unit :=
  let* s := get in
  if m_require_timestamp_refresh (self s) then
    etiLog debug "DEXTER REQUIRE REFRESH" ;;
    channel_down ;;
    on_self (set_require_timestamp_refresh false)
  else ret tt.

Definition iio_buffer_push (block : list Byte.byte) : M St Z :=
  let* s := get in
  let pushed := Int.s64 (iio_push hw (world s) block) in
  on_world (record_event (BufferPush block pushed)) ;;
  ret pushed.

(** [for (size_t i = 0; i < IIO_BUFFERS; i++) { ... }], with [todo] the
    number of iterations left. *)
Fixpoint push_buffers (todo : nat) (i : Z) (frame : FrameData) : M St unit :=
  match todo with
  | O => ret tt
  | S todo' =>
      let block :=
        take (Z.to_nat buflen) (drop (Z.to_nat (i * buflen)) (buf frame)) in
      let* pushed := iio_buffer_push block in
      if pushed <? 0 then
        etiLog error "Dexter: failed to push buffer " ;;
        on_self (set_num_buffers_pushed 0) ;;
        channel_down
        (* break *)
      else
        on_self (fun d =>
                   set_num_buffers_pushed (Int.u64 (num_buffers_pushed d + 1)) d) ;;
        push_buffers todo' (i + 1) frame
  end.

(** The block [if (m_channel_is_up) { ... }]. *)
Definition transmit_frame_push (frame : FrameData) : M St unit :=
  let* s := get in
  if m_channel_is_up (self s) then
    push_buffers (Z.to_nat IIO_BUFFERS) 0 frame ;;
    on_self (fun d =>
               set_num_frames_modulated (Int.u64 (num_frames_modulated d + 1)) d)
  else ret tt.

(** The closing block, which compares the underflow counter. *)
Definition transmit_frame_underflows : M St unit :=
  let* s := get in
  let u := Int.u64 (shared_underflows hw (world s)) in
  (if negb (u =? 0) && negb (u =? prev_underflows (self s)) then
     etiLog warn "Dexter: underflow! "
   else ret tt) ;;
  on_self (set_prev_underflows u).

Definition transmit_frame (frame : FrameData) : M St unit :=
  if negb (buf_size frame =? frame_len_bytes) then
    etiLog debug "Dexter::transmit_frame Expected " ;;
    throw (runtime_error "Dexter: invalid buffer size")
  else
    let* go_on := transmit_frame_arm frame in
    if go_on then
      transmit_frame_refresh ;;
      transmit_frame_push frame ;;
      transmit_frame_underflows
    else ret tt.

(** ** Run statistics *)

(** The alternatives of a statistics value that [Dexter.cpp] stores (the
    variant is declared outside [src/]; [SDR::get_parameter] lists its
    alternatives).  An [int] goes to the [ssize_t] alternative. *)
Inductive stat_value : Type :=
| v_string (s : string)
| v_double (d : double)
| v_ssize_t (z : Z)
| v_size_t (z : Z)
| v_bool (b : bool).

Abbreviation run_statistics_t := (gmap string stat_value).

(** [attr_to_stat<T>]; [cast] is the conversion to [T]. *)
Definition attr_to_stat (cast : Z -> stat_value) (attr_name stat_name : string)
    (rs : run_statistics_t) : M St run_statistics_t :=
  let* (r, attr_value) := iio_device_attr_read_longlong dexter_dsp_tx attr_name in
  if r =? 0 then ret (<[stat_name := cast attr_value]> rs)
  else
    etiLog error ("Failed to get dexter_dsp_tx." ++ attr_name ++ ": ") ;;
    ret (<[stat_name := v_ssize_t (-1)]> rs).

Definition as_size_t (v : Z) : stat_value := v_size_t (Int.u64 v).
Definition as_ssize_t (v : Z) : stat_value := v_ssize_t (Int.s64 v).

Definition VMINFACT : double := 0.85%float.
Definition VMAXFACT : double := 1.15%float.

Definition hwmon0 : string := "/sys/bus/i2c/devices/1-002f/hwmon/hwmon0/".

(** One of the seven blocks that read a rail of [hwmon0]: [file] is the
    sensor file, [scaled] the value stored under [stat], and [judge] what
    the block does to [voltage_ok] when the file opens (when it does not,
    the block stores [-1] and clears [voltage_ok]). *)
Definition read_rail (file stat : string) (scaled : double -> double)
    (judge : double -> bool -> bool) (acc : run_statistics_t * bool)
    : run_statistics_t * bool :=
  let '(rs, voltage_ok) := acc in
  match hwmon_input hw (hwmon0 ++ file) with
  | Some v => (<[stat := v_double (scaled v)]> rs, judge v voltage_ok)
  | None => (<[stat := v_ssize_t (-1)]> rs, false)
  end.

(** [v * (a + b) / b / 1000.0], the divider correction. *)
Definition divider (sum : double) (b : double) (v : double) : double :=
  PrimFloat.div (PrimFloat.div (PrimFloat.mul v sum) b) 1000%float.

(** [voltage_ok = (v > VMINFACT * nominal) and (v < VMAXFACT * nominal)] *)
Definition assign_in_range (nominal : double) (v : double) (_ : bool) : bool :=
  Double.gt v (PrimFloat.mul VMINFACT nominal)
  && Double.lt v (PrimFloat.mul VMAXFACT nominal).

(** a block that leaves [voltage_ok] alone *)
Definition keep (_ : double) (voltage_ok : bool) : bool := voltage_ok.

(** [voltage_ok |= vccmainin > 10.0] *)
Definition or_above_10 (v : double) (voltage_ok : bool) : bool :=
  voltage_ok || Double.gt v 10%float.

Definition xadc_name : string := "xadc" ++ String (ascii_of_nat 10) "".

(** [for (int i = 0; i < 100; i++) { ... }]: the search for the xadc
    device, with [todo] the iterations left. *)
Fixpoint find_tfpga (todo : nat) (i : Z) : option double :=
  match todo with
  | O => None
  | S todo' =>
      if String.eqb (iio_device_name hw i) xadc_name then
        match iio_device_file hw i "in_temp0_scale",
              iio_device_file hw i "in_temp0_offset",
              iio_device_file hw i "in_temp0_raw" with
        | Some scale, Some offset, Some temp0_raw =>
            Some (PrimFloat.div
                    (PrimFloat.mul (PrimFloat.add temp0_raw offset) scale)
                    1000%float)
        | _, _, _ => None
        end
        (* break *)
      else find_tfpga todo' (i + 1)
  end.

(** [get_run_statistics], from [constexpr double VMINFACT] to the end:
    the sensors of the board and the two alarms, added to [rs]. *)
Definition health_statistics (rs : run_statistics_t) : run_statistics_t :=
  let voltage_ok := true in
  let temp_ok := true in
  let acc := (rs, voltage_ok) in
  let acc := read_rail "in2_input" "vcc3v3" (divider 54 36) (assign_in_range 3.3) acc in
  let acc := read_rail "in1_input" "vcc5v4" (divider 87 36) (assign_in_range 5.4) acc in
  let acc := read_rail "in3_input" "vfan" (divider 582 22) keep acc in
  let acc := read_rail "in0_input" "vcc_main_in" (divider 582 22) or_above_10 acc in
  let acc := read_rail "in4_input" "vcc3v3pll" (divider 54 36) (assign_in_range 3.3) acc in
  let acc := read_rail "in5_input" "vcc2v5io"
               (divider (PrimFloat.add 4.7 36) 36) (assign_in_range 2.5) acc in
  let acc := read_rail "in6_input" "vccocxo" (divider 87 36) keep acc in
  let '(rs, voltage_ok) := acc in
  let tfpga := find_tfpga 100 0 in
  let '(rs, temp_ok) :=
    match tfpga with
    | Some tf => (<["tempfpga" := v_double tf]> rs, temp_ok || Double.le tf 85)
    | None => (<["tempfpga" := v_ssize_t (-1)]> rs, false)
    end in
  let rs := <["voltage_alarm" := v_bool (negb voltage_ok)]> rs in
  let rs := <["temp_alarm" := v_bool (negb temp_ok)]> rs in
  rs.

Definition get_run_statistics : M St run_statistics_t :=
  let* s := get in
  let rs : run_statistics_t := ∅ in
  let rs := <["underruns" := v_size_t (Int.u64 (shared_underflows hw (world s)))]> rs in
  let rs := <["latepackets" := v_size_t (num_late (self s))]> rs in
  let rs := <["frames" := v_size_t (num_frames_modulated (self s))]> rs in
  let* rs := attr_to_stat as_size_t "clks" "clks" rs in
  let* rs := attr_to_stat as_size_t "stream0_fifo_not_empty_clks"
               "fifo_not_empty_clks" rs in
  let* rs := attr_to_stat as_size_t "gpsdo_locked" "gpsdo_locked" rs in
  let* rs := attr_to_stat as_ssize_t "pps_clk_error_hz" "pps_clk_error_hz" rs in
  let* rs := attr_to_stat as_size_t "pps_cnt" "pps_cnt" rs in
  let* rs := attr_to_stat as_size_t "pps_loss_of_signal" "pps_loss_of_signal" rs in
  let* rs := attr_to_stat as_size_t "dsp_version" "dsp_version" rs in
  let rs := <["in_holdover_since" := v_ssize_t 0]> rs in
  let rs :=
    match m_clock_state (self s) with
    | Startup => <["clock_state" := v_string "startup"]> rs
    | Normal => <["clock_state" := v_string "normal"]> rs
    | Holdover =>
        <["in_holdover_since" := v_ssize_t (m_holdover_since_t (self s))]>
          (<["clock_state" := v_string "holdover"]> rs)
    end in
  ret (health_statistics rs).

End Driver.
End Dexter.

(** * The output stage ([src/output/SDR.cpp]) *)

(** The part of the abstract [SDRDevice] interface that [SDR.cpp] drives
    frames through.  Every method sees the shared configuration.  The
    refresh request is a notification: it returns nothing and cannot fail
    (every driver only raises a flag). *)
Class SDRDevice (D : Type) : Type := {
  dev_is_clk_source_ok : SDRDeviceConfig -> M D bool;
  dev_get_real_secs : SDRDeviceConfig -> M D double;
  dev_require_timestamp_refresh : SDRDeviceConfig -> D -> D;
  dev_transmit_frame : SDRDeviceConfig -> FrameData -> M D unit
}.

(** The setters of the interface that the remote control drives.  The
    device shares the configuration by reference; [set_txgain] is the one
    call in [src/] that writes to it ([Dexter.cpp:375]), and the method
    answers the [txgain] that the call leaves there. *)
Class SDRDeviceControl (D : Type) : Type := {
  dev_set_txgain : SDRDeviceConfig -> double -> M D double;
  dev_set_rxgain : SDRDeviceConfig -> double -> M D unit;
  dev_set_bandwidth : SDRDeviceConfig -> double -> M D unit;
  dev_tune : SDRDeviceConfig -> double -> double -> M D unit
}.

#[export] Instance Dexter_SDRDevice (hw : Hardware) : SDRDevice Dexter.St := {
  dev_is_clk_source_ok := Dexter.is_clk_source_ok hw;
  dev_get_real_secs := fun _ => Dexter.get_real_secs hw;
  dev_require_timestamp_refresh := fun _ => Dexter.require_timestamp_refresh;
  dev_transmit_frame := Dexter.transmit_frame hw
}.

(** ** The frame queue *)

Module ThreadsafeQueue.

Record push_overflow_result : Type := { overflowed : bool; new_size : Z }.

(** Modelled from the spec: [ThreadsafeQueue::push_overflow]
    ([ThreadsafeQueue.h] is not among the sources).  Section 4.3: if the
    current length is below [max], enqueue; else drop the oldest item and
    enqueue the new one; report [overflowed] and the new size.  The oldest
    item is the head of the list. *)
Definition push_overflow {T} (q : list T) (item : T) (max : Z)
    : push_overflow_result * list T :=
  if Z.of_nat (length q) <? max then
    let q' := (q ++ [item])%list in
    ({| overflowed := false; new_size := Z.of_nat (length q') |}, q')
  else
    let q' := (tail q ++ [item])%list in
    ({| overflowed := true; new_size := Z.of_nat (length q') |}, q').

End ThreadsafeQueue.

Module SDR.

(* Maximum number of frames that can wait in frames. *)
Definition FRAMES_MAX_SIZE_UNSYNC : Z := 8.
Definition FRAMES_MAX_SIZE_SYNC : Z := 250.

(* If the timestamp is further in the future than 100 seconds, abort *)
Definition TIMESTAMP_ABORT_FUTURE : double := 100%float.

(** The data members of [class SDR] ([output/SDR.h] is not among the
    sources).  [m_config] is a reference to the configuration the device
    also holds; [m_device] is a shared pointer that may be null. *)
Record t (D : Type) : Type := {
  m_config : SDRDeviceConfig;
  m_device : option D;
  m_running : bool;                  (* std::atomic<bool> *)
  m_frame : list Byte.byte;
  m_size : Z;                        (* size_t *)
  m_queue : list FrameData;          (* ThreadsafeQueue<FrameData> *)
  m_dpd_feedback_server : bool;      (* is the shared pointer set? *)
  num_queue_overflows : Z;           (* size_t *)
  last_tx_time_initialised : bool;
  last_tx_second : Z;                (* uint32_t *)
  last_tx_pps : Z;                   (* uint32_t *)
  out : list Event                   (* log lines and device calls, newest first *)
}.
Arguments m_config {D}. Arguments m_device {D}. Arguments m_running {D}.
Arguments m_frame {D}. Arguments m_size {D}. Arguments m_queue {D}.
Arguments m_dpd_feedback_server {D}. Arguments num_queue_overflows {D}.
Arguments last_tx_time_initialised {D}. Arguments last_tx_second {D}.
Arguments last_tx_pps {D}. Arguments out {D}.

Section Stage.

Context {D : Type} `{SDRDevice D}.

(** What lies outside [SDR.cpp] and the device: the feedback server and
    the scheduler. *)
Variable dpd_set_tx_frame_throws : list Event -> bool.
Variable set_realtime_prio_rc : Z.

Definition set_config (c : SDRDeviceConfig) (s : t D) : t D :=
  {| m_config := c; m_device := m_device s; m_running := m_running s;
     m_frame := m_frame s; m_size := m_size s; m_queue := m_queue s;
     m_dpd_feedback_server := m_dpd_feedback_server s;
     num_queue_overflows := num_queue_overflows s;
     last_tx_time_initialised := last_tx_time_initialised s;
     last_tx_second := last_tx_second s; last_tx_pps := last_tx_pps s;
     out := out s |}.

Definition set_device (d : option D) (s : t D) : t D :=
  {| m_config := m_config s; m_device := d; m_running := m_running s;
     m_frame := m_frame s; m_size := m_size s; m_queue := m_queue s;
     m_dpd_feedback_server := m_dpd_feedback_server s;
     num_queue_overflows := num_queue_overflows s;
     last_tx_time_initialised := last_tx_time_initialised s;
     last_tx_second := last_tx_second s; last_tx_pps := last_tx_pps s;
     out := out s |}.

Definition set_running (b : bool) (s : t D) : t D :=
  {| m_config := m_config s; m_device := m_device s; m_running := b;
     m_frame := m_frame s; m_size := m_size s; m_queue := m_queue s;
     m_dpd_feedback_server := m_dpd_feedback_server s;
     num_queue_overflows := num_queue_overflows s;
     last_tx_time_initialised := last_tx_time_initialised s;
     last_tx_second := last_tx_second s; last_tx_pps := last_tx_pps s;
     out := out s |}.

Definition set_frame (f : list Byte.byte) (s : t D) : t D :=
  {| m_config := m_config s; m_device := m_device s; m_running := m_running s;
     m_frame := f; m_size := m_size s; m_queue := m_queue s;
     m_dpd_feedback_server := m_dpd_feedback_server s;
     num_queue_overflows := num_queue_overflows s;
     last_tx_time_initialised := last_tx_time_initialised s;
     last_tx_second := last_tx_second s; last_tx_pps := last_tx_pps s;
     out := out s |}.

Definition set_size (n : Z) (s : t D) : t D :=
  {| m_config := m_config s; m_device := m_device s; m_running := m_running s;
     m_frame := m_frame s; m_size := n; m_queue := m_queue s;
     m_dpd_feedback_server := m_dpd_feedback_server s;
     num_queue_overflows := num_queue_overflows s;
     last_tx_time_initialised := last_tx_time_initialised s;
     last_tx_second := last_tx_second s; last_tx_pps := last_tx_pps s;
     out := out s |}.

(** The queue and its overflow counter, which change together. *)
Definition set_queue (q : list FrameData) (n : Z) (s : t D) : t D :=
  {| m_config := m_config s; m_device := m_device s; m_running := m_running s;
     m_frame := m_frame s; m_size := m_size s; m_queue := q;
     m_dpd_feedback_server := m_dpd_feedback_server s;
     num_queue_overflows := n;
     last_tx_time_initialised := last_tx_time_initialised s;
     last_tx_second := last_tx_second s; last_tx_pps := last_tx_pps s;
     out := out s |}.

Definition set_dpd_feedback_server (b : bool) (s : t D) : t D :=
  {| m_config := m_config s; m_device := m_device s; m_running := m_running s;
     m_frame := m_frame s; m_size := m_size s; m_queue := m_queue s;
     m_dpd_feedback_server := b;
     num_queue_overflows := num_queue_overflows s;
     last_tx_time_initialised := last_tx_time_initialised s;
     last_tx_second := last_tx_second s; last_tx_pps := last_tx_pps s;
     out := out s |}.

Definition set_last_tx (init : bool) (sec pps : Z) (s : t D) : t D :=
  {| m_config := m_config s; m_device := m_device s; m_running := m_running s;
     m_frame := m_frame s; m_size := m_size s; m_queue := m_queue s;
     m_dpd_feedback_server := m_dpd_feedback_server s;
     num_queue_overflows := num_queue_overflows s;
     last_tx_time_initialised := init;
     last_tx_second := sec; last_tx_pps := pps;
     out := out s |}.

Definition emit (e : Event) (s : t D) : t D :=
  {| m_config := m_config s; m_device := m_device s; m_running := m_running s;
     m_frame := m_frame s; m_size := m_size s; m_queue := m_queue s;
     m_dpd_feedback_server := m_dpd_feedback_server s;
     num_queue_overflows := num_queue_overflows s;
     last_tx_time_initialised := last_tx_time_initialised s;
     last_tx_second := last_tx_second s; last_tx_pps := last_tx_pps s;
     out := e :: out s |}.

Definition etiLog (lvl : LogLevel) (text : string) : M (t D) unit :=
  modify (emit (Log lvl text)).

(** [if (m_device)]: is the shared pointer set? *)
Definition has_device (s : t D) : bool :=
  match m_device s with Some _ => true | None => false end.

(** [m_device->method(...)]: the call is recorded, then runs on the
    device's own state; what it throws propagates. *)
Definition on_device {A} (c : DevCall) (m : M D A) : M (t D) A :=
  fun s =>
    match m_device s with
    | None => (Exc (undefined_behaviour "null m_device"), s)
    | Some d =>
        let '(r, d') := m d in
        (r, set_device (Some d') (emit (DeviceCall c) s))
    end.

(** [SDR::SDR]: the constructor's effect on the data members.  The other
    members start from their in-class initialisers ([output/SDR.h]); the
    worker thread it starts is [process_thread_entry], and the
    registration of the remote-control parameters leaves no trace here. *)
Definition ctor (config : SDRDeviceConfig) (device : option D) : t D :=
  (* muting is remote-controllable *)
  let config := set_muting false config in
  {| m_config := config;
     m_device := device;
     m_running := true;
     m_frame := [];
     m_size := 8 (* sizeof(complexf) *);
     m_queue := [];
     m_dpd_feedback_server := 0 <? dpdFeedbackServerPort config;
     num_queue_overflows := 0;
     last_tx_time_initialised := false;
     last_tx_second := 0;
     last_tx_pps := 0;
     out := [] |}.

Definition set_sample_size (size : Z) : M (t D) unit := modify (set_size size).

(** [SDR::process]: [dataIn] is the content of the buffer. *)
Definition process (dataIn : list Byte.byte) : M (t D) Z :=
  let* s := get in
  if negb (m_running s) then throw (runtime_error "SDR thread failed")
  else
    modify (set_frame dataIn) ;;
    (* We will effectively transmit the frame once we got the metadata. *)
    ret (Z.of_nat (length dataIn)).

(** [SDR::process_metadata]: [metadataIn] is the list of the timestamps
    of the metadata entries. *)
Definition process_metadata (metadataIn : list frame_timestamp) : M (t D) unit :=
  let* s := get in
  if has_device s && m_running s then
    (* frame.buf = std::move(m_frame) *)
    modify (set_frame []) ;;
    match metadataIn with
    | [] => etiLog info "SDR output: dropping one frame with invalid FCT"
    | m0 :: _ =>
        let frame := {| buf := m_frame s; sampleSize := m_size s; ts := m0 |} in
        (if m_dpd_feedback_server s && dpd_set_tx_frame_throws (out s) then
           etiLog warn "SDR output: Feedback server failed, restarting..." ;;
           modify (set_dpd_feedback_server true)
         else ret tt) ;;
        let max_size :=
          if enableSync (m_config s) then FRAMES_MAX_SIZE_SYNC
          else FRAMES_MAX_SIZE_UNSYNC in
        let* s1 := get in
        let '(r, q) := ThreadsafeQueue.push_overflow (m_queue s1) frame max_size in
        etiLog trace_lvl "SDR,push %d %zu" ;;
        modify (fun s2 =>
                  set_queue q
                    (Int.u64 (num_queue_overflows s2
                              + (if ThreadsafeQueue.overflowed r then 1 else 0)))
                    s2)
    end
  else
    (* Ignore frame *)
    ret tt.

Definition require_timestamp_refresh : M (t D) unit :=
  let* s := get in
  on_device call_require_timestamp_refresh
    (modify (dev_require_timestamp_refresh (m_config s))).

(** [while (expected_pps >= 16384000) { expected_sec++; expected_pps -=
    16384000; }], at most [fuel] times round. *)
Fixpoint carry_pps (fuel : nat) (expected_sec expected_pps : Z) : Z * Z :=
  match fuel with
  | O => (expected_sec, expected_pps)
  | S fuel' =>
      if 16384000 <=? expected_pps then
        carry_pps fuel' (Int.u32 (expected_sec + 1)) (expected_pps - 16384000)
      else (expected_sec, expected_pps)
  end.

(** The expected timestamp of [handle_frame], from the previous one.
    [sizeIn] and [sampleRate] are the two divisors' operands; the loop
    gets exactly the rounds it needs (lemma
    [StageFacts.expected_timestamp_exit]). *)
Definition expected_timestamp (last_sec last_pps sizeIn sampleRate : Z) : Z * Z :=
  let increment := Int.u64 (sizeIn * 16384000) / Int.u64 sampleRate in
  let expected_sec := Int.u32 (last_sec + increment / 16384000) in
  let expected_pps := Int.u32 (last_pps + increment mod 16384000) in
  carry_pps (Z.to_nat (expected_pps / 16384000)) expected_sec expected_pps.

(** [handle_frame], the block [if (last_tx_time_initialised) { ... }]. *)
Definition check_timestamp_regular (frame : FrameData) (tx_second tx_pps : Z)
    : M (t D) unit :=
  let* s := get in
  if last_tx_time_initialised s then
    if sampleSize frame =? 0 then
      throw (undefined_behaviour "division by zero: frame.sampleSize")
    else if Int.u64 (sampleRate (m_config s)) =? 0 then
      throw (undefined_behaviour "division by zero: m_config.sampleRate")
    else
      let sizeIn := buf_size frame / sampleSize frame in
      let '(expected_sec, expected_pps) :=
        expected_timestamp (last_tx_second s) (last_tx_pps s) sizeIn
          (sampleRate (m_config s)) in
      if negb (expected_sec =? tx_second) || negb (expected_pps =? tx_pps) then
        etiLog warn "OutputSDR: timestamp irregularity at FCT=" ;;
        require_timestamp_refresh
      else ret tt
  else ret tt.

(** [handle_frame], the block [if (m_config.enableSync and
    time_spec.timestamp_valid) { ... }].  The result is [false] where the
    source returns from the function. *)
Definition handle_frame_sync (frame : FrameData) : M (t D) bool :=
  (* Tx time from MNSC and TIST *)
  let tx_second := Int.u32 (timestamp_sec (ts frame)) in
  let tx_pps := Int.u32 (timestamp_pps (ts frame)) in
  let* s := get in
  let* device_time :=
    on_device call_get_real_secs (dev_get_real_secs (m_config s)) in
  if negb (timestamp_valid (ts frame)) then
    (* We have not received a full timestamp through MNSC.
       We sleep through the frame. *)
    etiLog info "OutputSDR: Throwing sample " ;;
    ret false
  else
    (if offset_changed (ts frame) then
       etiLog debug "TS offset changed" ;;
       require_timestamp_refresh
     else ret tt) ;;
    check_timestamp_regular frame tx_second tx_pps ;;
    modify (set_last_tx true tx_second tx_pps) ;;
    etiLog trace_lvl "SDR,tist %f" ;;
    if Double.lt (ts_get_real_secs (ts frame)) device_time then
      etiLog warn "OutputSDR: Timestamp in the past at FCT=" ;;
      require_timestamp_refresh ;;
      ret false
    else if Double.gt (ts_get_real_secs (ts frame))
              (PrimFloat.add device_time TIMESTAMP_ABORT_FUTURE) then
      etiLog error "OutputSDR: Timestamp way too far in the future at FCT=" ;;
      throw (runtime_error "Timestamp error. Aborted.")
    else ret true.

Definition handle_frame (frame : FrameData) : M (t D) unit :=
  (* Assumes m_device is valid *)
  let* s := get in
  let* clk_ok :=
    on_device call_is_clk_source_ok (dev_is_clk_source_ok (m_config s)) in
  if negb clk_ok then ret tt
  else
    let time_spec := ts frame in
    if enableSync (m_config s) && muteNoTimestamps (m_config s)
       && negb (timestamp_valid time_spec) then
      etiLog info "OutputSDR: Muting sample %d : no timestamp"
    else
      let* go_on :=
        (if enableSync (m_config s) && timestamp_valid time_spec then
           handle_frame_sync frame
         else ret true) in
      if go_on then
        if muting (m_config s) then
          etiLog info "OutputSDR: Muting FCT=%d requested" ;;
          require_timestamp_refresh
        else
          on_device (call_transmit_frame frame)
            (dev_transmit_frame (m_config s) frame)
      else ret tt.

(** [SDR::process_thread_entry].  [popped] is what [wait_and_pop] hands
    the worker, in order; when it is used up the queue's wakeup is
    triggered. *)
Fixpoint worker_loop (popped : list FrameData) : M (t D) unit :=
  let* s := get in
  if m_running s then
    etiLog trace_lvl "SDR,wait" ;;
    match popped with
    | [] => throw ThreadsafeQueueWakeup
    | frame :: rest =>
        etiLog trace_lvl "SDR,pop" ;;
        let* s := get in
        if negb (m_running s) then ret tt (* break *)
        else
          (if has_device s then handle_frame frame else ret tt) ;;
          worker_loop rest
    end
  else ret tt.

Definition process_thread_entry (popped : list FrameData) : M (t D) unit :=
  (* Set thread priority to realtime *)
  (if negb (set_realtime_prio_rc =? 0) then
     etiLog error "Could not set priority for SDR device thread:"
   else ret tt) ;;
  modify (fun s => set_last_tx false (last_tx_second s) (last_tx_pps s) s) ;;
  try_catch (worker_loop popped)
    (fun e =>
       match e with
       | ThreadsafeQueueWakeup => ret tt
       | runtime_error _ =>
           etiLog error "SDR output thread caught runtime error: "
       | _ => throw e
       end) ;;
  modify (set_running false).

(** ** The two threads together

    The producer calls [process] and [process_metadata]; the worker pops
    the oldest queued frame and handles it.  A schedule is the order in
    which these calls take the queue. *)
Inductive pipeline_op : Type :=
| op_process (dataIn : list Byte.byte)
| op_process_metadata (metadataIn : list frame_timestamp)
| op_worker.

(** One round of the loop of [process_thread_entry], with the pop of the
    frame queue (section 4.3 of the spec: a blocking pop of the oldest
    item) and the handlers that end the loop. *)
Definition worker_round : M (t D) unit :=
  let* s := get in
  if m_running s then
    match m_queue s with
    | [] => ret tt (* wait_and_pop blocks *)
    | frame :: rest =>
        modify (set_queue rest (num_queue_overflows s)) ;;
        try_catch (if has_device s then handle_frame frame else ret tt)
          (fun e =>
             match e with
             | runtime_error _ =>
                 etiLog error "SDR output thread caught runtime error: " ;;
                 modify (set_running false)
             | _ => throw e
             end)
    end
  else ret tt.

Definition pipeline_step (o : pipeline_op) : M (t D) unit :=
  match o with
  | op_process dataIn => process dataIn ;; ret tt
  | op_process_metadata metadataIn => process_metadata metadataIn
  | op_worker => worker_round
  end.

Fixpoint pipeline_run (schedule : list pipeline_op) : M (t D) unit :=
  match schedule with
  | [] => ret tt
  | o :: rest => pipeline_step o ;; pipeline_run rest
  end.

End Stage.

(** ** Remote control *)

(** [get_rc_name()]: the name given to [RemoteControllable] by the
    constructor ([SDR.cpp:63]). *)
Definition get_rc_name : string := "sdr".

Section Control.

Context {D : Type} `{SDRDevice D} `{SDRDeviceControl D}.
Variable dpd_set_tx_frame_throws : list Event -> bool.

(** What lies outside [src/]: the extraction [ss >> x] from a
    [stringstream] holding [value], which answers the value it stores in
    [x] and whether it succeeded (a failed extraction stores a value too),
    and the channel table ([None]: [std::out_of_range]). *)
Variable extract_double : string -> double * bool.
Variable extract_bool : string -> bool * bool.
Variable extract_unsigned : string -> Z * bool.   (* uint32_t, unsigned *)
Variable parse_channel : string -> option double.

(** [ss >> m_config.field] with [ss.exceptions(failbit | badbit)]: the
    field is written, then a failure is thrown. *)
Definition extract_into {A} (r : A * bool)
    (store : A -> SDRDeviceConfig -> SDRDeviceConfig) : M (t D) unit :=
  modify (fun s => set_config (store (fst r) (m_config s)) s) ;;
  if snd r then ret tt else throw ios_base_failure.

(** [SDR::set_parameter] *)
Definition set_parameter (parameter value : string) : M (t D) unit :=
  if String.eqb parameter "txgain" then
    extract_into (extract_double value) with_txgain ;;
    let* s := get in
    let* txgain_left :=
      on_device (call_set_txgain (txgain (m_config s)))
        (dev_set_txgain (m_config s) (txgain (m_config s))) in
    modify (fun s => set_config (with_txgain txgain_left (m_config s)) s)
  else if String.eqb parameter "rxgain" then
    extract_into (extract_double value) with_rxgain ;;
    let* s := get in
    on_device (call_set_rxgain (rxgain (m_config s)))
      (dev_set_rxgain (m_config s) (rxgain (m_config s)))
  else if String.eqb parameter "bandwidth" then
    extract_into (extract_double value) with_bandwidth ;;
    let* s := get in
    on_device (call_set_bandwidth (bandwidth (m_config s)))
      (dev_set_bandwidth (m_config s) (bandwidth (m_config s)))
  else if String.eqb parameter "freq" then
    extract_into (extract_double value) with_frequency ;;
    let* s := get in
    on_device (call_tune (lo_offset (m_config s)) (frequency (m_config s)))
      (dev_tune (m_config s) (lo_offset (m_config s)) (frequency (m_config s)))
  else if String.eqb parameter "channel" then
    match parse_channel value with
    | Some freq =>
        (* const double frequency = parse_channel(value); *)
        modify (fun s => set_config (with_frequency freq (m_config s)) s) ;;
        let* s := get in
        on_device (call_tune (lo_offset (m_config s)) (frequency (m_config s)))
          (dev_tune (m_config s) (lo_offset (m_config s)) (frequency (m_config s)))
    | None => throw (ParameterError "Cannot parse channel")
    end
  else if String.eqb parameter "muting" then
    extract_into (extract_bool value) set_muting
  else if String.eqb parameter "synchronous" then
    (* uint32_t enableSync = 0; ss >> enableSync; *)
    let r := extract_unsigned value in
    if snd r then
      modify (fun s => set_config (set_enableSync (0 <? fst r) (m_config s)) s)
    else throw ios_base_failure
  else if String.eqb parameter "max_gps_holdover_time" then
    extract_into (extract_unsigned value) with_maxGPSHoldoverTime
  else
    throw (ParameterError
             ("Parameter '" ++ parameter
              ++ "' is read-only or not exported by controllable "
              ++ get_rc_name)).

(** ** The three threads together

    Besides the producer and the worker, the remote control calls
    [set_parameter] at any point of a schedule.  Modelled from the spec:
    the caller of the remote control (thread T4 of section 5,
    [RemoteControl.cpp]) is not among the sources; what [set_parameter]
    throws is the answer to its client (section 7), and the stage goes
    on. *)
Inductive stage_op : Type :=
| op_pipeline (o : pipeline_op)
| op_set_parameter (parameter value : string).

Definition stage_step (o : stage_op) : M (t D) unit :=
  match o with
  | op_pipeline o => pipeline_step dpd_set_tx_frame_throws o
  | op_set_parameter parameter value =>
      try_catch (set_parameter parameter value)
        (fun e =>
           match e with
           | ParameterError _ | ios_base_failure => ret tt
           | _ => throw e
           end)
  end.

Fixpoint stage_run (schedule : list stage_op) : M (t D) unit :=
  match schedule with
  | [] => ret tt
  | o :: rest => stage_step o ;; stage_run rest
  end.

End Control.
End SDR.

(** * Concrete hardware, states and frames

    Used to run the definitions above on explicit inputs. *)

Module Bench.

Fixpoint assoc {A} (key : string) (table : list (string * A)) : option A :=
  match table with
  | [] => None
  | (k, v) :: rest => if String.eqb k key then Some v else assoc key rest
  end.

(** A bench: attributes read from a fixed table (absent ones fail with
    [-ENOENT]), writes answered per attribute, the n-th DMA push answered
    by the n-th entry of [pushes] (past the end: the block length), sensor
    files from a table, and one xadc device at index [xadc_at]. *)
Record setup : Type := {
  attrs : list (string * Z);
  write_rc : string -> Z;
  pushes : list Z;
  underflow_count : Z;
  rails : list (string * double);
  xadc_at : Z;
  xadc_files : list (string * double)
}.

Definition hardware (b : setup) : Hardware :=
  {| iio_attr_read := fun _ _ attr =>
       match assoc attr (attrs b) with
       | Some v => (0, v)
       | None => (-2, 0)
       end;
     iio_attr_write := fun _ _ attr _ => write_rc b attr;
     iio_push := fun w block =>
       nth (pushes_so_far w) (pushes b) (Z.of_nat (length block));
     clock_gettime_rc := fun _ => 0;
     shared_underflows := fun _ => underflow_count b;
     hwmon_input := fun path => assoc path (rails b);
     iio_device_name := fun i =>
       if i =? xadc_at b then Dexter.xadc_name else "";
     iio_device_file := fun i file =>
       if i =? xadc_at b then assoc file (xadc_files b) else None |}.

Definition rail (file : string) (v : double) : string * double :=
  (Dexter.hwmon0 ++ file, v).

(** All seven rails readable, at the values the range checks accept. *)
Definition rails_nominal : list (string * double) :=
  [ rail "in2_input" 3.3; rail "in1_input" 5.4; rail "in3_input" 12;
    rail "in0_input" 12; rail "in4_input" 3.3; rail "in5_input" 2.5;
    rail "in6_input" 5.4 ]%float.

(** The xadc files for a temperature of [raw / 1000] degrees. *)
Definition xadc_reading (raw : double) : list (string * double) :=
  [ ("in_temp0_scale", 1); ("in_temp0_offset", 0); ("in_temp0_raw", raw) ]%float.

Definition locked : setup :=
  {| attrs := [ ("gpsdo_locked", 1); ("pps_loss_of_signal", 0);
                ("pps_clks", 163840000); ("clks", 1638400000);
                ("stream0_fifo_not_empty_clks", 0); ("pps_clk_error_hz", 0);
                ("pps_cnt", 10); ("dsp_version", 1);
                ("buffer_underflows0", 0) ];
     write_rc := fun _ => 0;
     pushes := [];
     underflow_count := 0;
     rails := rails_nominal;
     xadc_at := 3;
     xadc_files := xadc_reading 45000%float |}.

(** The same board with the file of the 3.3 V rail unreadable and the
    FPGA at 90 degrees. *)
Definition faulty : setup :=
  {| attrs := attrs locked;
     write_rc := write_rc locked;
     pushes := pushes locked;
     underflow_count := underflow_count locked;
     rails :=
       [ rail "in1_input" 5.4; rail "in3_input" 12; rail "in0_input" 12;
         rail "in4_input" 3.3; rail "in5_input" 2.5;
         rail "in6_input" 5.4 ]%float;
     xadc_at := xadc_at locked;
     xadc_files := xadc_reading 90000%float |}.

Definition with_attrs (a : list (string * Z)) (b : setup) : setup :=
  {| attrs := a; write_rc := write_rc b; pushes := pushes b;
     underflow_count := underflow_count b; rails := rails b;
     xadc_at := xadc_at b; xadc_files := xadc_files b |}.

Definition with_write_rc (f : string -> Z) (b : setup) : setup :=
  {| attrs := attrs b; write_rc := f; pushes := pushes b;
     underflow_count := underflow_count b; rails := rails b;
     xadc_at := xadc_at b; xadc_files := xadc_files b |}.

Definition with_pushes (p : list Z) (b : setup) : setup :=
  {| attrs := attrs b; write_rc := write_rc b; pushes := p;
     underflow_count := underflow_count b; rails := rails b;
     xadc_at := xadc_at b; xadc_files := xadc_files b |}.

Definition with_rails (r : list (string * double)) (b : setup) : setup :=
  {| attrs := attrs b; write_rc := write_rc b; pushes := pushes b;
     underflow_count := underflow_count b; rails := r;
     xadc_at := xadc_at b; xadc_files := xadc_files b |}.

Definition with_xadc (f : list (string * double)) (b : setup) : setup :=
  {| attrs := attrs b; write_rc := write_rc b; pushes := pushes b;
     underflow_count := underflow_count b; rails := rails b;
     xadc_at := xadc_at b; xadc_files := f |}.

(** PPS lost: [pps_loss_of_signal] reads 1. *)
Definition pps_lost : setup :=
  with_attrs [ ("gpsdo_locked", 1); ("pps_loss_of_signal", 1);
               ("pps_clks", 163840000); ("clks", 1638400000) ] locked.

(** The locked board with its counter running: [pps_clks] holds the count
    latched at the last second change, [DSP_CLOCK] per second. *)
Definition running : Hardware :=
  {| iio_attr_read := fun w dev attr =>
       if String.eqb attr "pps_clks" then
         (0, Dexter.DSP_CLOCK * (realtime_ns w / 1000000000))
       else iio_attr_read (hardware locked) w dev attr;
     iio_attr_write := iio_attr_write (hardware locked);
     iio_push := iio_push (hardware locked);
     clock_gettime_rc := clock_gettime_rc (hardware locked);
     shared_underflows := shared_underflows (hardware locked);
     hwmon_input := hwmon_input (hardware locked);
     iio_device_name := iio_device_name (hardware locked);
     iio_device_file := iio_device_file (hardware locked) |}.

Definition config : SDRDeviceConfig :=
  {| sampleRate := 2048000; frequency := 222064000%float;
     lo_offset := 0%float; txgain := 1000%float; rxgain := 0%float;
     bandwidth := 0%float; muting := false;
     enableSync := true; muteNoTimestamps := false; dabMode := 1;
     maxGPSHoldoverTime := 10; dpdFeedbackServerPort := 0 |}.

(** 2023-11-14 22:13:20 UTC, in seconds. *)
Definition t0 : Z := 1700000000.

(** The world at [t0 + ms] milliseconds, the steady clock running since
    [t0 - 1000 s]. *)
Definition world_at (ms : Z) : World :=
  {| realtime_ns := t0 * 1000000000 + ms * 1000000;
     steady_ns := 1000 * 1000000000 + ms * 1000000;
     trace := [] |}.

(** A driver aligned at [t0 - 10 s], counter 0 at that PPS edge. *)
Definition aligned (st : Dexter.DexterClockState) (up : bool) : Dexter.t :=
  {| Dexter.m_channel_is_up := up;
     Dexter.m_clock_state := st;
     Dexter.m_utc_seconds_at_startup := t0 - 10;
     Dexter.m_clock_count_at_startup := 0;
     Dexter.m_holdover_since :=
       match st with
       | Dexter.Holdover => 1000 * 1000000000 - 2 * 1000000000
       | _ => Dexter.time_point_min
       end;
     Dexter.m_holdover_since_t :=
       match st with Dexter.Holdover => t0 - 2 | _ => 0 end;
     Dexter.m_require_timestamp_refresh := false;
     Dexter.num_late := 0;
     Dexter.num_frames_modulated := 0;
     Dexter.num_buffers_pushed := 0;
     Dexter.prev_underflows := 0 |}.

Definition dexter (st : Dexter.DexterClockState) (up : bool) (ms : Z) : Dexter.St :=
  {| Dexter.self := aligned st up; Dexter.world := world_at ms |}.

(** A frame of the transmission length, all zero, due [ahead] ticks of
    1/16384000 s after [t0]. *)
Definition frame_at (sec pps : Z) (valid : bool) : FrameData :=
  {| buf := repeat Byte.x00 (Z.to_nat 786432);
     sampleSize := 4;
     ts := {| fct := 0; timestamp_valid := valid; timestamp_sec := sec;
              timestamp_pps := pps; offset_changed := false |} |}.

(** A device that answers the same every time and keeps no state. *)
Record mock : Type := { mock_clk_ok : bool; mock_real_secs : double }.

#[global] Instance mock_SDRDevice : SDRDevice mock := {
  dev_is_clk_source_ok := fun _ d => (Val (mock_clk_ok d), d);
  dev_get_real_secs := fun _ d => (Val (mock_real_secs d), d);
  dev_require_timestamp_refresh := fun _ d => d;
  dev_transmit_frame := fun _ _ d => (Val tt, d)
}.

(** A short frame of [n] complex samples of four bytes. *)
Definition small_frame (n : nat) (sec pps : Z) : FrameData :=
  {| buf := repeat Byte.x00 (4 * n);
     sampleSize := 4;
     ts := {| fct := 7; timestamp_valid := true; timestamp_sec := sec;
              timestamp_pps := pps; offset_changed := false |} |}.

(** The mock device takes every setting as it comes. *)
#[global] Instance mock_SDRDeviceControl : SDRDeviceControl Bench.mock := {
  dev_set_txgain := fun _ txgain d => (Val txgain, d);
  dev_set_rxgain := fun _ _ d => (Val tt, d);
  dev_set_bandwidth := fun _ _ d => (Val tt, d);
  dev_tune := fun _ _ _ d => (Val tt, d)
}.

(** A client of the remote control that sends the values 0 and 1 and
    the channel 12C: what the extractions and the channel table answer
    (any other value fails; a failed extraction stores zero). *)
Definition extract_double (value : string) : double * bool :=
  if String.eqb value "0" then (0%float, true)
  else if String.eqb value "1" then (1%float, true)
  else (0%float, false).

Definition extract_bool (value : string) : bool * bool :=
  if String.eqb value "0" then (false, true)
  else if String.eqb value "1" then (true, true)
  else (false, false).

Definition extract_unsigned (value : string) : Z * bool :=
  if String.eqb value "0" then (0, true)
  else if String.eqb value "1" then (1, true)
  else (0, false).

Definition parse_channel (value : string) : option double :=
  if String.eqb value "12C" then Some 227360000%float else None.

(** The producer hands over one frame: [process], then
    [process_metadata] with the timestamp [m]. *)
Definition produce (m : frame_timestamp) : list SDR.stage_op :=
  [ SDR.op_pipeline (SDR.op_process []);
    SDR.op_pipeline (SDR.op_process_metadata [m]) ].

End Bench.

(** * What the claims compare the code with *)

Module Claims.
Import Dexter.

(** The answer of the hardware to the [pps_loss_of_signal] read that a
    tick of the state machine starts with. *)
Definition pps_loss_reply (hw : Hardware) (s : St) : Z * Z :=
  iio_attr_read hw (world s) dexter_dsp_tx "pps_loss_of_signal".

(** Seconds spent in holdover, as [handle_hw_time] computes them. *)
Definition holdover_elapsed (s : St) : double :=
  PrimFloat.div
    (Double.of_s64 (steady_ns (world s) - m_holdover_since (self s)))
    1000000000%float.

(** The exit condition of holdover: elapsed time above
    [maxGPSHoldoverTime], or [pps_loss_of_signal] reading 0. *)
Definition holdover_exit (m_conf : SDRDeviceConfig) (s : St) (pps_loss : Z) : bool :=
  Double.gt (holdover_elapsed s) (Double.of_s64 (maxGPSHoldoverTime m_conf))
  || (pps_loss =? 0).

(** The block that the first iteration of the push loop sends. *)
Definition first_block (frame : FrameData) : list Byte.byte :=
  take (Z.to_nat buflen) (buf frame).

(** ... and the answer of [iio_buffer_push] to it. *)
Definition first_push (hw : Hardware) (s : St) (frame : FrameData) : Z :=
  Int.s64 (iio_push hw (world s) (first_block frame)).

(** The world after a successful first push, and the second block with
    the answer to it. *)
Definition world_after_first_push (hw : Hardware) (s : St) (frame : FrameData)
    : World :=
  record_event (BufferPush (first_block frame) (first_push hw s frame)) (world s).

Definition second_block (frame : FrameData) : list Byte.byte :=
  take (Z.to_nat buflen) (drop (Z.to_nat buflen) (buf frame)).

Definition second_push (hw : Hardware) (s : St) (frame : FrameData) : Z :=
  Int.s64 (iio_push hw (world_after_first_push hw s frame) (second_block frame)).

(** [frame_start_clocks] as the spec writes it, over the integers. *)
Definition frame_start_clocks_spec (d : t) (ts : frame_timestamp) : Z :=
  (Int.u32 (timestamp_sec ts) - m_utc_seconds_at_startup d) * 163840000
  + m_clock_count_at_startup d
  + Int.u32 (timestamp_pps ts) * (163840000 / 16384000).

(** [frame.ts.offset_to_system_time()] in the world of [s]. *)
Definition margin_s (s : St) (ts : frame_timestamp) : double :=
  PrimFloat.sub (ts_get_real_secs ts)
    (PrimFloat.add
       (Double.of_s64 (realtime_ns (world s) / 1000000000))
       (PrimFloat.div
          (Double.of_s64 (realtime_ns (world s) mod 1000000000))
          1000000000%float)).

Definition too_late (s : St) (ts : frame_timestamp) : bool :=
  Double.lt (margin_s s ts) 0x1.999999999999ap-3%float.

Definition clks_reply (hw : Hardware) (s : St) : Z * Z :=
  iio_attr_read hw (world s) dexter_dsp_tx "clks".

(** The world once [transmit_frame] has read [clks] and written its
    debug line. *)
Definition world_before_margin_check (hw : Hardware) (s : St) : World :=
  record_event (Log debug "DEXTER FCT ")
    (record_event
       (AttrRead dexter_dsp_tx "clks" 0 (Int.s64 (snd (clks_reply hw s))))
       (world s)).

(** The return code of the write of [stream0_start_clks]. *)
Definition start_clks_write_rc (hw : Hardware) (s : St) (ts : frame_timestamp) : Z :=
  iio_attr_write hw (world_before_margin_check hw s) dexter_dsp_tx
    "stream0_start_clks" (Int.s64 (frame_start_clocks (self s) ts)).

Definition world_after_start_clks_write (hw : Hardware) (s : St)
    (ts : frame_timestamp) : World :=
  record_event
    (AttrWrite dexter_dsp_tx "stream0_start_clks"
       (Int.s64 (frame_start_clocks (self s) ts))
       (start_clks_write_rc hw s ts))
    (world_before_margin_check hw s).

(** The frame counted late and dropped: only [num_late] moves. *)
Definition dropped_late (s : St) (w : World) : St :=
  {| self := set_num_late (Int.u64 (num_late (self s) + 1)) (self s);
     world := w |}.

(** The driver armed: the refresh flag cleared and the channel raised. *)
Definition armed (hw : Hardware) (m_conf : SDRDeviceConfig) (s : St)
    (ts : frame_timestamp) : St :=
  snd (channel_up hw m_conf
         {| self := set_require_timestamp_refresh false (self s);
            world := world_after_start_clks_write hw s ts |}).

(** Is one of the seven rail files unreadable? *)
Definition some_rail_unreadable (hw : Hardware) : bool :=
  existsb
    (fun file =>
       match hwmon_input hw (hwmon0 ++ file) with
       | Some _ => false
       | None => true
       end)
    [ "in0_input"; "in1_input"; "in2_input"; "in3_input"; "in4_input";
      "in5_input"; "in6_input" ].

(** [voltage_ok] as [get_run_statistics] ends up computing it: the last
    two rails decide alone. *)
Definition voltage_ok_as_computed (hw : Hardware) : bool :=
  match hwmon_input hw (hwmon0 ++ "in6_input"),
        hwmon_input hw (hwmon0 ++ "in5_input") with
  | Some _, Some vcc2v5io => assign_in_range 2.5 vcc2v5io true
  | _, _ => false
  end.

(** The state the exception of a failed [clks] read leaves. *)
Definition clks_read_failed (hw : Hardware) (s : St) : St :=
  {| self := self s;
     world :=
       record_event (Log error "Failed to get dexter_dsp_tx.clks: ")
         (record_event
            (AttrRead dexter_dsp_tx "clks" (fst (clks_reply hw s)) 0)
            (world s)) |}.

(** What [transmit_frame] does to a frame that needs a timestamped start
    while the channel is down, once the buffer length is accepted. *)
Definition arm_timestamped (hw : Hardware) (m_conf : SDRDeviceConfig)
    (ts : frame_timestamp) (s : St) : result bool * St :=
  match m_clock_state (self s) with
  | Startup => (Val false, s)
  | Normal | Holdover =>
      if negb (clock_gettime_rc hw (world s) =? 0) then
        (Exc (runtime_error "Failed to retrieve CLOCK_REALTIME"), s)
      else if negb (fst (clks_reply hw s) =? 0) then
        (Exc (runtime_error "Dexter: Cannot read IIO attribute"),
         clks_read_failed hw s)
      else if too_late s ts then
        (Val false,
         dropped_late s
           (record_event (Log warn "Skip frame short margin ")
              (world_before_margin_check hw s)))
      else if negb (start_clks_write_rc hw s ts =? 0) then
        (Val false,
         dropped_late s
           (record_event
              (Log warn
                 "Skip frame, failed to set dexter_dsp_tx.stream0_start_clks = ")
              (world_after_start_clks_write hw s ts)))
      else (Val true, armed hw m_conf s ts)
  end.

End Claims.

Module StageClaims.
Import SDR.

Definition level_eqb (a b : LogLevel) : bool :=
  match a, b with
  | debug, debug | info, info | warn, warn | error, error
  | trace_lvl, trace_lvl => true
  | _, _ => false
  end.

(** Is [e] the log line of level [lvl] that starts with [text]? *)
Definition is_log (lvl : LogLevel) (text : string) (e : Event) : bool :=
  match e with
  | Log l t => level_eqb l lvl && String.eqb t text
  | _ => false
  end.

Definition is_transmit_call (e : Event) : bool :=
  match e with DeviceCall (call_transmit_frame _) => true | _ => false end.

Definition is_refresh_call (e : Event) : bool :=
  match e with DeviceCall call_require_timestamp_refresh => true | _ => false end.

(** The line of the inner guard of [handle_frame]. *)
Definition incomplete_timestamp_line : Event -> bool :=
  is_log info "OutputSDR: Throwing sample ".

(** The line of the muting gate of [handle_frame]. *)
Definition muting_line : Event -> bool :=
  is_log info "OutputSDR: Muting FCT=%d requested".

Definition irregularity_line : Event -> bool :=
  is_log warn "OutputSDR: timestamp irregularity at FCT=".


(** The expected next timestamp as the spec words it: the previous one
    plus [increment] ticks of 1/16384000 s, the sub-second part carried
    into the seconds. *)
Definition expected_next (last_sec last_pps increment : Z) : Z * Z :=
  (Int.u32 (last_sec + (last_pps + increment) / 16384000),
   (last_pps + increment) mod 16384000).

(** Does the operation go through the [muting] parameter of the remote
    control? *)
Definition sets_muting (o : stage_op) : bool :=
  match o with
  | op_set_parameter parameter _ => String.eqb parameter "muting"
  | op_pipeline _ => false
  end.

Section WithDevice.

Context {D : Type} `{SDRDevice D}.

(** [sizeIn] and [increment] of [handle_frame]. *)
Definition sizeIn (frame : FrameData) : Z := buf_size frame / sampleSize frame.

Definition increment (s : t D) (frame : FrameData) : Z :=
  Int.u64 (sizeIn frame * 16384000) / Int.u64 (sampleRate (m_config s)).

(** Does the regularity check divide by zero? *)
Definition divides_by_zero (s : t D) (frame : FrameData) : bool :=
  last_tx_time_initialised s
  && ((sampleSize frame =? 0) || (Int.u64 (sampleRate (m_config s)) =? 0)).

(** Does the frame's timestamp differ from the expected one? *)
Definition irregular (s : t D) (frame : FrameData) : bool :=
  last_tx_time_initialised s
  && (let '(expected_sec, expected_pps) :=
        expected_timestamp (last_tx_second s) (last_tx_pps s) (sizeIn frame)
          (sampleRate (m_config s)) in
      negb (expected_sec =? Int.u32 (timestamp_sec (ts frame)))
      || negb (expected_pps =? Int.u32 (timestamp_pps (ts frame)))).

(** The stage after a refresh request went to the device. *)
Definition refreshed (s : t D) : t D :=
  match m_device s with
  | Some d =>
      set_device (Some (dev_require_timestamp_refresh (m_config s) d))
        (emit (DeviceCall call_require_timestamp_refresh) s)
  | None => s
  end.

(** The stage once the clock gate let the frame through, the device
    having moved to [d1]. *)
Definition past_clock_gate (d1 : D) (s : t D) : t D :=
  set_device (Some d1) (emit (DeviceCall call_is_clk_source_ok) s).

(** ... once the device time was read and a change of offset signalled ... *)
Definition before_regularity_check (frame : FrameData) (d2 : D) (s : t D) : t D :=
  let s := set_device (Some d2) (emit (DeviceCall call_get_real_secs) s) in
  if offset_changed (ts frame) then
    refreshed (emit (Log debug "TS offset changed") s)
  else s.

(** ... and once the timestamp was compared and recorded. *)
Definition after_regularity_check (frame : FrameData) (d2 : D) (s : t D) : t D :=
  let s0 := before_regularity_check frame d2 s in
  let s1 :=
    if irregular s0 frame then
      refreshed (emit (Log warn "OutputSDR: timestamp irregularity at FCT=") s0)
    else s0 in
  emit (Log trace_lvl "SDR,tist %f")
    (set_last_tx true (Int.u32 (timestamp_sec (ts frame)))
       (Int.u32 (timestamp_pps (ts frame))) s1).

Definition in_the_past (frame : FrameData) (device_time : double) : bool :=
  Double.lt (ts_get_real_secs (ts frame)) device_time.

Definition too_far_ahead (frame : FrameData) (device_time : double) : bool :=
  Double.gt (ts_get_real_secs (ts frame))
    (PrimFloat.add device_time TIMESTAMP_ABORT_FUTURE).

(** The stage as the worker finds it when it enters its loop:
    [set_realtime_prio] answered [rc] and the record of the last
    timestamp is reset. *)
Definition worker_start (rc : Z) (s : t D) : t D :=
  let s := if negb (rc =? 0) then
             emit (Log error "Could not set priority for SDR device thread:") s
           else s in
  set_last_tx false (last_tx_second s) (last_tx_pps s) s.

(** ... and when it handles a frame it has popped: the two trace lines
    are out. *)
Definition at_pop (s : t D) : t D :=
  emit (Log trace_lvl "SDR,pop") (emit (Log trace_lvl "SDR,wait") s).

(** The rounds of the worker's loop on the frames [popped], up to the
    wait that follows the last of them. *)
Fixpoint worker_rounds (popped : list FrameData) : M (t D) unit :=
  match popped with
  | [] => ret tt
  | frame :: rest =>
      let* s := get in
      if m_running s then
        etiLog trace_lvl "SDR,wait" ;;
        etiLog trace_lvl "SDR,pop" ;;
        let* s := get in
        if negb (m_running s) then ret tt
        else
          (if has_device s then handle_frame frame else ret tt) ;;
          worker_rounds rest
      else ret tt
  end.

(** The calls of [transmit_frame] made so far, newest first. *)
Definition transmit_calls (s : t D) : list Event :=
  filter (fun e => is_transmit_call e = true) (out s).

(** How many events of a kind the stage has put out. *)
Definition count (kind : Event -> bool) (s : t D) : nat :=
  length (filter (fun e => kind e = true) (out s)).

(** An invariant that [handle_frame] cannot break by what it assigns: it
    survives the output of any event outside [kind], a change of the
    device's state and the record of the last timestamp. *)
Definition stable_under (kind : Event -> bool) (I : t D -> Prop) : Prop :=
  forall s, I s ->
    (forall e, kind e = false -> I (emit e s))
    /\ (forall d, I (set_device (Some d) s))
    /\ (forall a b c, I (set_last_tx a b c s)).

(** The events of [handle_frame] other than the line of its inner guard
    and the line of its muting gate. *)
Definition handle_frame_events (frame : FrameData) : list Event :=
  [ DeviceCall call_is_clk_source_ok;
    Log info "OutputSDR: Muting sample %d : no timestamp";
    DeviceCall call_get_real_secs;
    Log debug "TS offset changed";
    DeviceCall call_require_timestamp_refresh;
    Log warn "OutputSDR: timestamp irregularity at FCT=";
    Log trace_lvl "SDR,tist %f";
    Log warn "OutputSDR: Timestamp in the past at FCT=";
    Log error "OutputSDR: Timestamp way too far in the future at FCT=";
    DeviceCall (call_transmit_frame frame) ].

(** The stage is not muted and has never dropped a frame as muted. *)
Definition never_muted (s : t D) : Prop :=
  muting (m_config s) = false /\ count muting_line s = 0%nat.



End WithDevice.
End StageClaims.

(** * The rest of the Dexter driver: tuning, gain, temperature *)

Module DexterControl.
Import Dexter.

Definition ad9957 : string := "ad9957".

(** [(double)x] for a [long long] [x], the most negative value included
    (its magnitude does not fit the 63 bits of the primitive conversion). *)
Definition of_long_long (x : Z) : double :=
  if Int.s64 x =? Int.INT64_MIN then (-0x1p63)%float else Double.of_s64 x.

Section Control.

Variable hw : Hardware.
(** [m_conf], as the call finds it. *)
Variable m_conf : SDRDeviceConfig.

(** [Dexter::tune]: lo_offset is applied to the DSP, and frequency is
    given to the ad9957. *)
Definition tune (lo_offset frequency : double) : M St unit :=
  let freq := Double.to_s64 frequency in
  let* r := iio_device_attr_write_longlong hw ad9957 "center_frequency" freq in
  (if negb (r =? 0) then etiLog warn "Failed to set ad9957.center_frequency = "
   else ret tt) ;;
  let lo_offs := Double.to_s64 lo_offset in
  let* r := iio_device_attr_write_longlong hw dexter_dsp_tx "frequency0" lo_offs in
  (if negb (r =? 0) then etiLog warn "Failed to set dexter_dsp_tx.frequency0 = "
   else ret tt).

(** [Dexter::get_tx_freq].  The sum is a [long long] addition, undefined
    when it overflows. *)
Definition get_tx_freq : M St double :=
  let* (r, lo_offset) :=
    iio_device_attr_read_longlong hw dexter_dsp_tx "frequency0" in
  if negb (r =? 0) then
    etiLog warn "Failed to read dexter_dsp_tx.frequency0: " ;;
    ret 0%float
  else
    let* (r, frequency) :=
      iio_device_attr_read_longlong hw ad9957 "center_frequency" in
    if negb (r =? 0) then
      etiLog warn "Failed to read ad9957.center_frequency: " ;;
      ret 0%float
    else if (Int.INT64_MIN <=? frequency + lo_offset)
            && (frequency + lo_offset <? 2 ^ 63) then
      ret (of_long_long (frequency + lo_offset))
    else throw (undefined_behaviour "signed overflow: frequency + lo_offset").

(** [Dexter::set_txgain].  [m_conf] is a reference to the configuration
    the output stage holds too; the result is that configuration as the
    call leaves it. *)
Definition set_txgain (txgain : double) : M St SDRDeviceConfig :=
  let* r := iio_device_attr_write_longlong hw dexter_dsp_tx "gain0"
              (Double.to_s64 txgain) in
  (if negb (r =? 0) then etiLog warn "Failed to set dexter_dsp_tx.gain0 = "
   else ret tt) ;;
  let* (r, txgain_readback) :=
    iio_device_attr_read_longlong hw dexter_dsp_tx "gain0" in
  if negb (r =? 0) then
    etiLog warn "Failed to read dexter_dsp_tx.gain0: " ;;
    ret m_conf
  else ret (with_txgain (of_long_long txgain_readback) m_conf).

(** [Dexter::get_txgain] *)
Definition get_txgain : M St double :=
  let* (r, txgain_readback) :=
    iio_device_attr_read_longlong hw dexter_dsp_tx "gain0" in
  (if negb (r =? 0) then etiLog warn "Failed to read dexter_dsp_tx.gain0: "
   else ret tt) ;;
  ret (of_long_long txgain_readback).

(** [Dexter::set_bandwidth], [get_bandwidth], [set_rxgain], [get_rxgain]
    and [receive_frame] do nothing. *)
Definition set_bandwidth (bandwidth : double) : M St unit := ret tt.
Definition get_bandwidth : M St double := ret 0%float.
Definition set_rxgain (rxgain : double) : M St unit := ret tt.
Definition get_rxgain : M St double := ret 0%float.

Definition device_name : string := "Dexter".

(** [Dexter::get_temperature]: the baseboard sensor, in degrees. *)
Definition get_temperature : option double :=
  match hwmon_input hw (hwmon0 ++ "temp1_input") with
  | Some tbaseboard => Some (PrimFloat.div tbaseboard 1000%float)
  | None => None
  end.

End Control.

(** ** Attribute registers

    What the round trips below ask of the hardware: every write is
    accepted, and a read of an attribute returns what was written to it
    last. *)

Fixpoint last_write (dev attr : string) (history : list Event) : option Z :=
  match history with
  | [] => None
  | AttrWrite d a v rc :: earlier =>
      if String.eqb d dev && String.eqb a attr && (rc =? 0) then Some v
      else last_write dev attr earlier
  | _ :: earlier => last_write dev attr earlier
  end.

Definition is_attr_write (e : Event) : bool :=
  match e with AttrWrite _ _ _ _ => true | _ => false end.

Definition keeps_attributes (hw : Hardware) : Prop :=
  (forall w dev attr v, iio_attr_write hw w dev attr v = 0)
  /\ (forall w dev attr v,
        last_write dev attr (trace w) = Some v ->
        iio_attr_read hw w dev attr = (0, v)).

(** A board made of registers only: an attribute never written cannot be
    read ([-ENOENT]). *)
Definition registers : Hardware :=
  {| iio_attr_read := fun w dev attr =>
       match last_write dev attr (trace w) with
       | Some v => (0, v)
       | None => (-2, 0)
       end;
     iio_attr_write := fun _ _ _ _ => 0;
     iio_push := fun _ block => Z.of_nat (length block);
     clock_gettime_rc := fun _ => 0;
     shared_underflows := fun _ => 0;
     hwmon_input := fun _ => None;
     iio_device_name := fun _ => "";
     iio_device_file := fun _ _ => None |}.

#[export] Instance Dexter_SDRDeviceControl (hw : Hardware)
    : SDRDeviceControl Dexter.St := {
  dev_set_txgain := fun m_conf gain =>
    let* conf := set_txgain hw m_conf gain in ret (txgain conf);
  dev_set_rxgain := fun _ => set_rxgain;
  dev_set_bandwidth := fun _ => set_bandwidth;
  dev_tune := fun _ => tune hw
}.

End DexterControl.


(** * Statements about the driver *)

Module DriverSpec.
Import Dexter.

(** The DMA blocks pushed so far, newest first. *)
Definition pushed_blocks (w : World) : list (list Byte.byte) :=
  omap (fun e => match e with BufferPush block _ => Some block | _ => None end)
    (trace w).

(** The attributes [get_run_statistics] copies, with the name of the
    statistic each goes to. *)
Definition copied_attributes : list (string * string) :=
  [ ("clks", "clks");
    ("stream0_fifo_not_empty_clks", "fifo_not_empty_clks");
    ("gpsdo_locked", "gpsdo_locked");
    ("pps_clk_error_hz", "pps_clk_error_hz");
    ("pps_cnt", "pps_cnt");
    ("pps_loss_of_signal", "pps_loss_of_signal");
    ("dsp_version", "dsp_version") ].

(** The keys of the statistics map. *)
Definition statistics_keys : list string :=
  [ "underruns"; "latepackets"; "frames";
    "clks"; "fifo_not_empty_clks"; "gpsdo_locked"; "pps_clk_error_hz";
    "pps_cnt"; "pps_loss_of_signal"; "dsp_version";
    "in_holdover_since"; "clock_state";
    "vcc3v3"; "vcc5v4"; "vfan"; "vcc_main_in"; "vcc3v3pll"; "vcc2v5io";
    "vccocxo"; "tempfpga"; "voltage_alarm"; "temp_alarm" ].

(** The locked board of the bench with a counter that latches
    [per_second] clocks at every second change. *)
Definition ticking (per_second : Z) : Hardware :=
  {| iio_attr_read := fun w dev attr =>
       if String.eqb attr "pps_clks" then
         (0, per_second * (realtime_ns w / 1000000000))
       else iio_attr_read (Bench.hardware Bench.locked) w dev attr;
     iio_attr_write := iio_attr_write (Bench.hardware Bench.locked);
     iio_push := iio_push (Bench.hardware Bench.locked);
     clock_gettime_rc := clock_gettime_rc (Bench.hardware Bench.locked);
     shared_underflows := shared_underflows (Bench.hardware Bench.locked);
     hwmon_input := hwmon_input (Bench.hardware Bench.locked);
     iio_device_name := iio_device_name (Bench.hardware Bench.locked);
     iio_device_file := iio_device_file (Bench.hardware Bench.locked) |}.

(** The locked board without a lock. *)
Definition unlocked : Bench.setup :=
  Bench.with_attrs [ ("gpsdo_locked", 0); ("pps_loss_of_signal", 0) ]
    Bench.locked.

End DriverSpec.


(** * Statements about the output stage *)

Module StageSpec.
Import SDR StageClaims.

(** The stage muted by the remote control. *)
Definition muted {D} (s : t D) : t D :=
  set_config (set_muting true (m_config s)) s.

(** A timestamp as a count of ticks of 1/16384000 s. *)
Definition ticks (sec pps : Z) : Z := sec * 16384000 + pps.

(** A short frame whose timestamp is not valid. *)
Definition untimed_frame : FrameData :=
  {| buf := repeat Byte.x00 8;
     sampleSize := 4;
     ts := {| fct := 3; timestamp_valid := false; timestamp_sec := 0;
              timestamp_pps := 0; offset_changed := false |} |}.

(** The device of the bench at a given device time. *)
Definition mock_at (secs : double) : Bench.mock :=
  {| Bench.mock_clk_ok := true; Bench.mock_real_secs := secs |}.

End StageSpec.


(** * The frequency interleaver ([src/FrequencyInterleaver.cpp]) *)

Module FrequencyInterleaver.

(** [m_indices] is the block of [m_carriers] [size_t] that
    [posix_memalign] returned: an element is [None] until it is written. *)
Record t : Type := {
  m_fixedPoint : bool;
  m_carriers : Z;                    (* size_t *)
  m_indices : list (option Z)
}.

Definition alpha : Z := 13.

(** The [switch (mode)] of the constructor: [m_carriers], [num] and
    [beta], or [None] for the [default:] label. *)
Definition mode_parameters (mode : Z) : option (Z * Z * Z) :=
  match mode with
  | 1 => Some (1536, 2048, 511)
  | 2 => Some (384, 512, 127)
  | 3 => Some (192, 256, 63)
  | 0 | 4 => Some (768, 1024, 255)
  | _ => None
  end.

(** [for (size_t j = 1; j < num; ++j) { ... }], with [todo] the number of
    iterations left, [perm] the running value and [index] the position of
    the write pointer in the block [mem]. *)
Fixpoint fill_indices (todo : nat) (num carriers beta : Z) (perm : Z)
    (index : nat) (mem : list (option Z)) : result (list (option Z)) :=
  match todo with
  | O => Val mem
  | S todo' =>
      let perm := Z.land (Int.u64 (alpha * perm + beta)) (Int.u64 (num - 1)) in
      if (Int.u64 (num - carriers) / 2 <=? perm)
         && (perm <=? Int.u64 (num - Int.u64 (num - carriers) / 2))
         && negb (perm =? num / 2) then
        let value :=
          if num / 2 <? perm then Int.u64 (perm - Int.u64 (1 + num / 2))
          else Int.u64 (perm + Int.u64 (carriers - num / 2)) in
        (* *(index++) = value *)
        if (index <? length mem)%nat then
          fill_indices todo' num carriers beta perm (S index)
            (<[index := Some value]> mem)
        else Exc (undefined_behaviour "write past the end of m_indices")
      else fill_indices todo' num carriers beta perm index mem
  end.

(** [FrequencyInterleaver::FrequencyInterleaver]; [posix_memalign_rc] is
    what the allocation answers.  The text of the second exception ends
    with that number. *)
Definition ctor (posix_memalign_rc : Z) (mode : Z) (fixedPoint : bool)
    : result t :=
  match mode_parameters mode with
  | None => Exc (runtime_error "FrequencyInterleaver: invalid dab mode")
  | Some (carriers, num, beta) =>
      if negb (posix_memalign_rc =? 0) then
        Exc (runtime_error "memory allocation failed: ")
      else
        match fill_indices (Z.to_nat (num - 1)) num carriers beta 0 0
                (replicate (Z.to_nat carriers) None) with
        | Val mem =>
            Val {| m_fixedPoint := fixedPoint; m_carriers := carriers;
                   m_indices := mem |}
        | Exc e => Exc e
        end
  end.

Section Process.

(** The sample type: [complexfix] or [complexf]. *)
Context {T : Type}.

(** What [do_process] is given: the table, and the whole samples of
    [dataIn] ([getLength() / sizeof(T)] of them).  The state of the
    computation is the memory of [dataOut], in samples. *)
Variable indices : list (option Z).
Variable inp : list T.

(** [out[indices[j]] = in[i]], [out] having advanced by [base]. *)
Definition store (base i j : Z) : M (list T) unit :=
  fun out =>
    match indices !! Z.to_nat j with
    | None => (Exc (undefined_behaviour "read past the end of indices"), out)
    | Some None => (Exc (undefined_behaviour "read of an unwritten index"), out)
    | Some (Some k) =>
        match inp !! Z.to_nat i with
        | None => (Exc (undefined_behaviour "read past the end of dataIn"), out)
        | Some sample =>
            if (Z.to_nat (base + k) <? length out)%nat then
              (Val tt, <[Z.to_nat (base + k) := sample]> out)
            else
              (Exc (undefined_behaviour "write past the end of dataOut"), out)
        end
    end.

(** [for (size_t j = 0; j < carriers; i += 4, j += 4) { ... }], with
    [todo] the number of iterations left. *)
Fixpoint carriers_loop (todo : nat) (base i j : Z) : M (list T) unit :=
  match todo with
  | O => ret tt
  | S todo' =>
      store base i j ;;
      store base (i + 1) (j + 1) ;;
      store base (i + 2) (j + 2) ;;
      store base (i + 3) (j + 3) ;;
      carriers_loop todo' base (i + 4) (j + 4)
  end.

(** [for (size_t i = 0; i < sizeIn;) { ...; out += carriers; }], with
    [todo] the number of iterations left and [rounds] the number of
    iterations of the inner loop. *)
Fixpoint symbols_loop (todo rounds : nat) (carriers base i : Z)
    : M (list T) unit :=
  match todo with
  | O => ret tt
  | S todo' =>
      carriers_loop rounds base i 0 ;;
      symbols_loop todo' rounds carriers (base + carriers)
        (i + 4 * Z.of_nat rounds)
  end.

(** [do_process<T>].  The inner loop runs while [j < carriers] in steps
    of four, the outer one while [i < sizeIn] in steps of what the inner
    one covers. *)
Definition do_process (carriers : Z) : M (list T) unit :=
  let sizeIn := Z.of_nat (length inp) in
  if carriers =? 0 then
    throw (undefined_behaviour "division by zero: sizeIn % carriers")
  else if negb (sizeIn mod carriers =? 0) then
    throw (runtime_error "FrequencyInterleaver::process input size not valid!")
  else
    let rounds := Z.to_nat ((carriers + 3) / 4) in
    let step := 4 * Z.of_nat rounds in
    symbols_loop (Z.to_nat ((sizeIn + step - 1) / step)) rounds carriers 0 0.

End Process.

(** The values a table holds, in order. *)
Definition written (mem : list (option Z)) : list Z := omap id mem.

(** Is the block a fully written rearrangement of [0 .. carriers - 1]? *)
Definition is_permutation_table (carriers : Z) (mem : list (option Z)) : bool :=
  bool_decide (mem = Some <$> written mem)
  && (Z.of_nat (length (written mem)) =? carriers)
  && forallb (fun k => (0 <=? k) && (k <? carriers)) (written mem)
  && bool_decide (NoDup (written mem)).

End FrequencyInterleaver.


(** * Bringing the Dexter up and down: constructor, underflow thread *)

Module DexterSetup.
Import Dexter DexterControl.

(** What libiio answers when it is asked for a handle: [true] for a
    handle, [false] for a null pointer. *)
Record Platform : Type := {
  iio_create_local_context : World -> bool;
  (* iio_context_set_timeout: return code *)
  iio_context_set_timeout : World -> Z -> Z;
  iio_context_find_device : World -> string -> bool;
  iio_device_get_channel : World -> string -> Z -> bool;
  iio_device_create_buffer : World -> string -> Z -> bool
}.

Definition ad9957_tx0 : string := "ad9957_tx0".

(** The block the constructor clears and pushes: [buflen] bytes of zero. *)
Definition zero_block : list Byte.byte := replicate (Z.to_nat buflen) Byte.x00.

Section Setup.

Variable pf : Platform.
Variable hw : Hardware.
Variable m_conf : SDRDeviceConfig.

(** A write the constructor insists on. *)
Definition write_or_throw (attr : string) (v : Z) (what : string) : M St unit :=
  let* r := iio_device_attr_write_longlong hw dexter_dsp_tx attr v in
  if negb (r =? 0) then throw (runtime_error what) else ret tt.

(** A handle the constructor insists on. *)
Definition handle_or_throw (found : World -> bool) (what : string) : M St unit :=
  let* s := get in
  if negb (found (world s)) then throw (runtime_error what) else ret tt.

(** [Dexter::Dexter].  It runs on the object as the member initialisers
    leave it.  Its last two statements set [m_running] and start
    [underflow_read_process], which is modelled below on the state of
    that thread. *)
Definition ctor : M St unit :=
  etiLog info "Dexter:Creating the device" ;;
  handle_or_throw (iio_create_local_context pf)
    "Dexter: Unable to create iio context" ;;
  let* s := get in
  (if negb (iio_context_set_timeout pf (world s) IIO_TIMEOUT_MS =? 0) then
     etiLog error "Failed to set IIO timeout "
   else ret tt) ;;
  handle_or_throw (fun w => iio_context_find_device pf w dexter_dsp_tx)
    "Dexter: Unable to find dexter_dsp_tx iio device" ;;
  handle_or_throw (fun w => iio_context_find_device pf w ad9957)
    "Dexter: Unable to find ad9957 iio device" ;;
  handle_or_throw (fun w => iio_context_find_device pf w ad9957_tx0)
    "Dexter: Unable to find ad9957_tx0 iio device" ;;
  write_or_throw "dc0" 0 "Failed to set dexter_dsp_tx.dc0 = false: " ;;
  write_or_throw "dc1" 0 "Failed to set dexter_dsp_tx.dc1 = false: " ;;
  if negb (sampleRate m_conf =? 2048000) then
    throw (runtime_error "Dexter: Only 2048000 samplerate supported")
  else
    tune hw (lo_offset m_conf) (frequency m_conf) ;;
    etiLog info "Dexter:Actual frequency: " ;;
    (* The FIFO should not contain data, but setting gain=0 before setting
       start_clks to zero is an additional security *)
    write_or_throw "gain0" 0 "Failed to set dexter_dsp_tx.gain0 = 0 : " ;;
    write_or_throw "stream0_flush_fifo_trigger" 1
      "Failed to set dexter_dsp_tx.stream0_flush_fifo_trigger = 1 : " ;;
    write_or_throw "stream0_start_clks" 0
      "Failed to set dexter_dsp_tx.stream0_start_clks = 0 : " ;;
    handle_or_throw (fun w => iio_device_get_channel pf w ad9957_tx0 0)
      "Dexter: Cannot create IIO channel." ;;
    handle_or_throw
      (fun w => iio_device_create_buffer pf w ad9957_tx0 IIO_BUFFER_LEN_SAMPS)
      "Dexter: Cannot create IIO buffer." ;;
    (* Flush the FPGA FIFO *)
    let* pushed := iio_buffer_push hw zero_block in
    (if pushed <? 0 then etiLog error "Dexter: init push buffer "
     else ret tt) ;;
    sleep_for_ms 200 ;;
    let* r := iio_device_attr_write_longlong hw dexter_dsp_tx "gain0"
                (Double.to_s64 (txgain m_conf)) in
    (if negb (r =? 0) then etiLog error "Failed to set dexter_dsp_tx.gain0 = "
     else ret tt).

(** One round of the loop of [underflow_read_process], on the counter
    [underflows] the thread shares with [transmit_frame]; the result is
    the counter as the round leaves it. *)
Definition underflow_round (underflows : Z) : M St Z :=
  sleep_for_ms 1000 ;;
  let* (r, underflows_attr) :=
    iio_device_attr_read_longlong hw dexter_dsp_tx "buffer_underflows0" in
  if r =? 0 then
    let underflows_new := Int.u64 underflows_attr in
    if negb (underflows_new =? underflows) && negb (underflows_attr =? 0) then
      ret underflows_new
    else ret underflows
  else ret underflows.

(** [while (m_running) { ... }], with [todo] the number of rounds that
    find [m_running] set. *)
Fixpoint underflow_rounds (todo : nat) (underflows : Z) : M St Z :=
  match todo with
  | O => ret underflows
  | S todo' =>
      let* underflows := underflow_round underflows in
      underflow_rounds todo' underflows
  end.

(** [Dexter::underflow_read_process] *)
Definition underflow_read_process (todo : nat) (underflows : Z) : M St Z :=
  handle_or_throw (iio_create_local_context pf)
    "Dexter: Unable to create iio context for underflow" ;;
  handle_or_throw (fun w => iio_context_find_device pf w dexter_dsp_tx)
    "Dexter: Unable to find dexter_dsp_tx iio device" ;;
  underflow_rounds todo underflows.

End Setup.

(** ** What the history of a run shows *)


(** A platform that hands out every handle. *)
Definition all_handles : Platform :=
  {| iio_create_local_context := fun _ => true;
     iio_context_set_timeout := fun _ _ => 0;
     iio_context_find_device := fun _ _ => true;
     iio_device_get_channel := fun _ _ _ => true;
     iio_device_create_buffer := fun _ _ _ => true |}.


(** A board that accepts the writes of 0 and 1 only and refuses every
    block. *)
Definition stubborn : Hardware :=
  {| iio_attr_read := fun _ _ _ => (-5, 0);
     iio_attr_write := fun _ _ _ v => if (v =? 0) || (v =? 1) then 0 else -5;
     iio_push := fun _ _ => -5;
     clock_gettime_rc := fun _ => 0;
     shared_underflows := fun _ => 0;
     hwmon_input := fun _ => None;
     iio_device_name := fun _ => "";
     iio_device_file := fun _ _ => None |}.

End DexterSetup.


(** * The monad *)

Module MonadFacts.

Lemma bind_val {S A B} (m : M S A) (k : A -> M S B) (s s' : S) (a : A) :
  m s = (Val a, s') -> bind m k s = k a s'.
Proof. intros E. unfold bind. rewrite E. reflexivity. Qed.

Lemma bind_exc {S A B} (m : M S A) (k : A -> M S B) (s s' : S) (e : exn) :
  m s = (Exc e, s') -> bind m k s = (Exc e, s').
Proof. intros E. unfold bind. rewrite E. reflexivity. Qed.

Lemma preserves_ret {S A} (I : S -> Prop) (a : A) : preserves I (ret a).
Proof. intros s Hs. exact Hs. Qed.

Lemma preserves_throw {S A} (I : S -> Prop) (e : exn) :
  preserves I (throw (A := A) e).
Proof. intros s Hs. exact Hs. Qed.

Lemma preserves_modify {S} (I : S -> Prop) (f : S -> S) :
  (forall s, I s -> I (f s)) -> preserves I (modify f).
Proof. intros Hf s Hs. apply Hf, Hs. Qed.

Lemma preserves_bind {S A B} (I : S -> Prop) (m : M S A) (k : A -> M S B) :
  preserves I m -> (forall a, preserves I (k a)) -> preserves I (bind m k).
Proof.
  intros Hm Hk s Hs. unfold bind. specialize (Hm s Hs).
  destruct (m s) as [[a|e] s']; cbn in *; [apply Hk|]; exact Hm.
Qed.

(** After [get] the continuation may count on the invariant of the state
    it was given. *)
Lemma preserves_bind_get {S B} (I : S -> Prop) (k : S -> M S B) :
  (forall s0, I s0 -> preserves I (k s0)) -> preserves I (bind get k).
Proof. intros Hk s Hs. unfold bind, get. apply (Hk s Hs s Hs). Qed.

Lemma preserves_try_catch {S A} (I : S -> Prop) (m : M S A) (h : exn -> M S A) :
  preserves I m -> (forall e, preserves I (h e)) -> preserves I (try_catch m h).
Proof.
  intros Hm Hh s Hs. unfold try_catch. specialize (Hm s Hs).
  destruct (m s) as [[a|e] s']; cbn in *; [|apply Hh]; exact Hm.
Qed.

End MonadFacts.

(** * Machine arithmetic *)

Module IntFacts.
Import Int.

Lemma cong64_eq (a b : Z) : cong64 a b -> a mod 2 ^ 64 = b mod 2 ^ 64.
Proof. intros [H]. exact H. Qed.

#[export] Instance cong64_equiv : Equivalence cong64.
Proof.
  split; [intros x|intros x y [H]|intros x y z [H1] [H2]];
    constructor; congruence.
Qed.

#[export] Instance cong64_add : Proper (cong64 ==> cong64 ==> cong64) Z.add.
Proof.
  intros a b [H] c d [H']. constructor.
  rewrite (Z.add_mod a), (Z.add_mod b), H, H' by lia. reflexivity.
Qed.

#[export] Instance cong64_sub : Proper (cong64 ==> cong64 ==> cong64) Z.sub.
Proof.
  intros a b [H] c d [H']. constructor.
  rewrite (Zminus_mod a), (Zminus_mod b), H, H'. reflexivity.
Qed.

#[export] Instance cong64_mul : Proper (cong64 ==> cong64 ==> cong64) Z.mul.
Proof.
  intros a b [H] c d [H']. constructor.
  rewrite (Z.mul_mod a), (Z.mul_mod b), H, H' by lia. reflexivity.
Qed.

Lemma u64_cong (x : Z) : cong64 (u64 x) x.
Proof. constructor. unfold u64. apply Z.mod_mod. lia. Qed.

Lemma s64_cong (x : Z) : cong64 (s64 x) x.
Proof.
  constructor. unfold s64. rewrite Zminus_mod_idemp_l. f_equal. lia.
Qed.

Lemma u64_range (x : Z) : 0 <= u64 x < 2 ^ 64.
Proof. unfold u64. apply Z.mod_pos_bound. lia. Qed.

Lemma u32_range (x : Z) : 0 <= u32 x < 2 ^ 32.
Proof. unfold u32. apply Z.mod_pos_bound. lia. Qed.

Lemma u64_small (x : Z) : 0 <= x < 2 ^ 64 -> u64 x = x.
Proof. intros H. unfold u64. apply Z.mod_small. exact H. Qed.

Lemma u32_small (x : Z) : 0 <= x < 2 ^ 32 -> u32 x = x.
Proof. intros H. unfold u32. apply Z.mod_small. exact H. Qed.

Lemma s64_small (x : Z) : - 2 ^ 63 <= x < 2 ^ 63 -> s64 x = x.
Proof. intros H. unfold s64. rewrite Z.mod_small; lia. Qed.

End IntFacts.

(** * The clock state machine *)

Module ClockFacts.
Import Dexter Claims MonadFacts IntFacts.

Section Tick.

Variable hw : Hardware.
Variable m_conf : SDRDeviceConfig.

(** A failed read of [pps_loss_of_signal] ends the tick by an exception,
    before anything is assigned. *)
Lemma holdover_tick_read_failure (s : St) :
  m_clock_state (self s) = Holdover ->
  fst (pps_loss_reply hw s) <> 0 ->
  fst (handle_hw_time hw m_conf s)
    = Exc (runtime_error "Dexter: Cannot read IIO attribute")
  /\ self (snd (handle_hw_time hw m_conf s)) = self s.
Proof.
  intros Hst Hrc. unfold pps_loss_reply in Hrc.
  unfold handle_hw_time, bind, get. cbn. rewrite Hst.
  unfold read_attr_or_throw, iio_device_attr_read_longlong, bind, get. cbn.
  destruct (iio_attr_read hw (world s) dexter_dsp_tx "pps_loss_of_signal")
    as [r v] eqn:E.
  cbn in Hrc. apply Z.eqb_neq in Hrc. cbn. rewrite Hrc. cbn. split; reflexivity.
Qed.

(** C3 (amended): a tick taken in state Holdover whose read of
    [pps_loss_of_signal] succeeds returns normally; if the time elapsed
    since entering holdover exceeds [maxGPSHoldoverTime] or
    [pps_loss_of_signal] reads 0, the next state is Startup (never Normal),
    [m_utc_seconds_at_startup], [m_clock_count_at_startup] and
    [m_holdover_since_t] become 0 and [m_holdover_since] becomes
    [time_point::min()]; otherwise the driver is left as it was, in
    Holdover.  Either way the world only gains the record of the read (and
    of the debug line of the transition). *)
Theorem holdover_tick (s : St) :
  m_clock_state (self s) = Holdover ->
  fst (pps_loss_reply hw s) = 0 ->
  let pps_loss_of_signal := Int.s64 (snd (pps_loss_reply hw s)) in
  let w1 :=
    record_event
      (AttrRead dexter_dsp_tx "pps_loss_of_signal" 0 pps_loss_of_signal)
      (world s) in
  handle_hw_time hw m_conf s =
    if holdover_exit m_conf s pps_loss_of_signal then
      (Val tt,
       {| self :=
            {| m_channel_is_up := m_channel_is_up (self s);
               m_clock_state := Startup;
               m_utc_seconds_at_startup := 0;
               m_clock_count_at_startup := 0;
               m_holdover_since := time_point_min;
               m_holdover_since_t := 0;
               m_require_timestamp_refresh := m_require_timestamp_refresh (self s);
               num_late := num_late (self s);
               num_frames_modulated := num_frames_modulated (self s);
               num_buffers_pushed := num_buffers_pushed (self s);
               prev_underflows := prev_underflows (self s) |};
          world :=
            record_event
              (Log debug "Dexter: switch clock state Holdover -> Startup") w1 |})
    else (Val tt, {| self := self s; world := w1 |}).
Proof.
  intros Hst Hrc. unfold pps_loss_reply in *.
  unfold handle_hw_time, bind, get. cbn. rewrite Hst.
  unfold read_attr_or_throw, iio_device_attr_read_longlong, bind, get. cbn.
  destruct (iio_attr_read hw (world s) dexter_dsp_tx "pps_loss_of_signal")
    as [r v] eqn:E.
  cbn in Hrc. subst r. cbn.
  unfold holdover_exit, holdover_elapsed.
  destruct (_ || _); reflexivity.
Qed.

(** C4: with [enableSync], [is_clk_source_ok] is one run of
    [handle_hw_time] (whose exception, if any, it lets through) followed by
    the answer "the clock state is not Startup"; without [enableSync] it
    answers [true] and leaves driver and world untouched. *)
Theorem is_clk_source_ok_one_tick (s : St) :
  is_clk_source_ok hw m_conf s =
    if enableSync m_conf then
      match handle_hw_time hw m_conf s with
      | (Val tt, s') =>
          (Val (match m_clock_state (self s') with
                | Startup => false
                | Normal | Holdover => true
                end), s')
      | (Exc e, s') => (Exc e, s')
      end
    else (Val true, s).
Proof.
  unfold is_clk_source_ok. destruct (enableSync m_conf); [|reflexivity].
  unfold bind, get, ret.
  destruct (handle_hw_time hw m_conf s) as [[[]|e] s']; [|reflexivity].
  destruct (m_clock_state (self s')); reflexivity.
Qed.

End Tick.

Section Wait.
Variable hw : Hardware.
Hypothesis clock_ok : forall w, clock_gettime_rc hw w = 0.

Lemma second_of (ns k : Z) :
  k * 1000000000 <= ns < (k + 1) * 1000000000 -> ns / 1000000000 = k.
Proof.
  intros H. symmetry.
  apply Z.div_unique with (r := ns - k * 1000000000); lia.
Qed.

(** With a working realtime clock the wait loop ends on the first read
    that falls into the next second, and its fuel lasts until then. *)
Lemma wait_second_change_reaches (fuel : nat) (start_sec : Z) (s : St) :
  start_sec * 1000000000 <= realtime_ns (world s)
    < (start_sec + 2) * 1000000000 ->
  (start_sec + 1) * 1000000000 - realtime_ns (world s)
    <= Z.of_nat fuel * 1000000 ->
  exists t s',
    wait_second_change hw fuel start_sec s = (Val t, s')
    /\ tv_sec t = start_sec + 1
    /\ self s' = self s
    /\ (start_sec + 1) * 1000000000 < realtime_ns (world s')
       <= Z.max (realtime_ns (world s)) ((start_sec + 1) * 1000000000 + 1000000)
          + 1000000.
Proof.
  revert s. induction fuel as [|fuel IH]; intros s Hrange Hfuel.
  - cbn [wait_second_change].
    unfold fill_time, sleep_for_ms, on_world, modify, bind, get, ret.
    rewrite clock_ok. cbn.
    eexists; eexists; split; [reflexivity|]. cbn.
    split; [apply second_of; lia|]. split; [reflexivity|lia].
  - cbn [wait_second_change].
    unfold fill_time, sleep_for_ms, on_world, modify, bind at 1 2 3, get, ret.
    rewrite clock_ok. change (negb (0 =? 0)) with false.
    cbn [fst snd tv_sec self world].
    destruct (Z.eqb_spec start_sec (realtime_ns (world s) / 1000000000))
      as [E|E].
    + assert (realtime_ns (world s) < (start_sec + 1) * 1000000000) as Hlt.
      { pose proof (Z.mul_succ_div_gt (realtime_ns (world s)) 1000000000
                      ltac:(lia)).
        rewrite <- E in *. lia. }
      destruct (IH {| self := self s; world := advance_ms 1 (world s) |})
        as (t & s' & Heq & Ht & Hs & Hr); cbn; try lia.
      exists t, s'. cbn in Hr. repeat split; try assumption; lia.
    + assert (realtime_ns (world s) / 1000000000 = start_sec + 1) as E1.
      { destruct (Z.lt_ge_cases (realtime_ns (world s))
                    ((start_sec + 1) * 1000000000)) as [Hlt|Hge].
        - exfalso. apply E. symmetry. apply second_of. lia.
        - apply second_of. lia. }
      eexists; eexists; split; [reflexivity|]. cbn.
      split; [exact E1|]. split; [reflexivity|].
      pose proof (Z.mul_div_le (realtime_ns (world s)) 1000000000 ltac:(lia)).
      rewrite E1 in *. lia.
Qed.

(** From any instant, a thousand rounds of one millisecond reach the next
    second. *)
Lemma wait_second_change_exits (s : St) :
  let start_sec := realtime_ns (world s) / 1000000000 in
  exists t s',
    wait_second_change hw second_change_fuel start_sec s = (Val t, s')
    /\ tv_sec t = start_sec + 1
    /\ self s' = self s.
Proof.
  intros start_sec.
  pose proof (Z.mul_div_le (realtime_ns (world s)) 1000000000 ltac:(lia)).
  pose proof (Z.mul_succ_div_gt (realtime_ns (world s)) 1000000000 ltac:(lia)).
  fold start_sec in H, H0.
  destruct (wait_second_change_reaches second_change_fuel start_sec s)
    as (t & s' & Heq & Ht & Hs & _).
  - lia.
  - unfold second_change_fuel. lia.
  - eauto.
Qed.

End Wait.

Section Align.
Variable hw : Hardware.
Variable m_conf : SDRDeviceConfig.
(** The count the PPS edge of each second latches into [pps_clks]. *)
Variable pps_at : Z -> Z.
Hypothesis clock_ok : forall w, clock_gettime_rc hw w = 0.
Hypothesis gpsdo_is_locked :
  forall w, iio_attr_read hw w dexter_dsp_tx "gpsdo_locked" = (0, 1).
Hypothesis pps_present :
  forall w, iio_attr_read hw w dexter_dsp_tx "pps_loss_of_signal" = (0, 0).
Hypothesis pps_latched :
  forall w, iio_attr_read hw w dexter_dsp_tx "pps_clks"
            = (0, pps_at (realtime_ns w / 1000000000)).
Hypothesis pps_rate : forall k, pps_at (k + 1) = pps_at k + DSP_CLOCK.

Lemma read_attr_returns (attr : string) (v : Z) (s : St) :
  iio_attr_read hw (world s) dexter_dsp_tx attr = (0, v) ->
  read_attr_or_throw hw attr s
  = (Val (Int.s64 v),
     {| self := self s;
        world := record_event (AttrRead dexter_dsp_tx attr 0 (Int.s64 v))
                   (world s) |}).
Proof.
  intros E.
  unfold read_attr_or_throw, iio_device_attr_read_longlong, on_world, modify,
    bind, get, ret.
  rewrite E. reflexivity.
Qed.

(** With the GPSDO locked, the PPS present and the counter running at
    [DSP_CLOCK], one tick in Startup waits for two second changes and
    leaves for Normal, with the second change it saw last and the count
    latched there as the reference. *)
Lemma startup_tick_aligns (s : St) :
  m_clock_state (self s) = Startup ->
  let sec0 := realtime_ns (world s) / 1000000000 in
  exists s',
    handle_hw_time hw m_conf s = (Val tt, s')
    /\ m_clock_state (self s') = Normal
    /\ m_utc_seconds_at_startup (self s') = Int.u64 (sec0 + 2)
    /\ m_clock_count_at_startup (self s') = Int.u64 (pps_at (sec0 + 2))
    /\ realtime_ns (world s') / 1000000000 = sec0 + 2.
Proof.
  intros Hst sec0.
  pose proof (Z.mul_div_le (realtime_ns (world s)) 1000000000 ltac:(lia)) as Hlo.
  pose proof (Z.mul_succ_div_gt (realtime_ns (world s)) 1000000000 ltac:(lia))
    as Hhi.
  fold sec0 in Hlo, Hhi.
  unfold handle_hw_time, bind at 1, get. rewrite Hst.
  rewrite (bind_val _ _ _ _ _ (read_attr_returns _ _ _ (gpsdo_is_locked _))).
  rewrite (bind_val _ _ _ _ _ (read_attr_returns _ _ _ (pps_present _))).
  change ((Int.s64 1 =? 1) && (Int.s64 0 =? 0)) with true. cbv iota.
  unfold etiLog at 1, on_world, modify, bind at 1.
  unfold fill_time at 1, bind at 1 2, get. rewrite clock_ok.
  change (negb (0 =? 0)) with false. cbv iota. unfold ret at 1.
  cbn [tv_sec self world record_event realtime_ns].
  fold sec0.
  match goal with
  | |- context [bind (wait_second_change hw second_change_fuel sec0) _ ?st] =>
      destruct (wait_second_change_reaches hw clock_ok second_change_fuel sec0 st)
        as (t1 & s1 & E1 & Ht1 & Hs1 & Hr1);
        [cbn; lia | cbn; unfold second_change_fuel; lia |];
        rewrite (bind_val _ _ _ _ _ E1); cbn in Hs1, Hr1
  end.
  unfold sleep_for_ms at 1, on_world, modify, bind at 1.
  match goal with
  | |- context [bind (read_attr_or_throw hw "pps_clks") _ ?st] =>
      rewrite (bind_val _ _ _ _ _ (read_attr_returns _ _ st (pps_latched _)))
  end.
  cbn [self world advance_ms realtime_ns].
  unfold etiLog at 1, on_world, modify, bind at 1.
  cbn [self world record_event realtime_ns].
  rewrite Ht1.
  match goal with
  | |- context [bind (wait_second_change hw second_change_fuel (sec0 + 1)) _ ?st] =>
      destruct (wait_second_change_reaches hw clock_ok second_change_fuel
                  (sec0 + 1) st)
        as (t2 & s2 & E2 & Ht2 & Hs2 & Hr2);
        [cbn; lia | cbn; unfold second_change_fuel; lia |];
        rewrite (bind_val _ _ _ _ _ E2); cbn in Hs2, Hr2
  end.
  unfold sleep_for_ms at 1, on_world, modify, bind at 1.
  match goal with
  | |- context [bind (read_attr_or_throw hw "pps_clks") _ ?st] =>
      rewrite (bind_val _ _ _ _ _ (read_attr_returns _ _ st (pps_latched _)))
  end.
  cbn [self world advance_ms realtime_ns].
  unfold etiLog at 1, on_world, modify, bind at 1.
  cbn [self world record_event realtime_ns].
  rewrite (second_of (realtime_ns (world s1) + 200 * 1000000) (sec0 + 1))
    by lia.
  rewrite (second_of (realtime_ns (world s2) + 200 * 1000000) (sec0 + 2))
    by lia.
  assert (Int.u64 (Int.u64 (Int.s64 (pps_at (sec0 + 1))) + DSP_CLOCK)
          = Int.u64 (Int.s64 (pps_at (sec0 + 2)))) as Hinc.
  { replace (sec0 + 2) with (sec0 + 1 + 1) by lia.
    rewrite (pps_rate (sec0 + 1)).
    apply cong64_eq.
    rewrite u64_cong, !s64_cong. reflexivity. }
  rewrite Hinc, Z.eqb_refl. cbv iota. change (negb true) with false. cbv iota.
  unfold on_self, etiLog, on_world, modify, bind.
  eexists; split; [reflexivity|].
  cbn [self world set_clock m_clock_state m_utc_seconds_at_startup
       m_clock_count_at_startup record_event advance_ms realtime_ns].
  split; [reflexivity|]. split; [rewrite Ht2; f_equal; ring|].
  split.
  - apply cong64_eq. rewrite s64_cong. reflexivity.
  - apply second_of. lia.
Qed.

End Align.

(** The board of the bench with a running counter: a tick in Startup at
    [t0] ends in Normal two second changes later. *)
Lemma startup_tick_aligns_witness :
  let s := Bench.dexter Startup false 0 in
  let sec0 := realtime_ns (world s) / 1000000000 in
  exists s',
    handle_hw_time Bench.running Bench.config s = (Val tt, s')
    /\ m_clock_state (self s') = Normal
    /\ m_utc_seconds_at_startup (self s') = Int.u64 (sec0 + 2)
    /\ m_clock_count_at_startup (self s')
       = Int.u64 (DSP_CLOCK * (sec0 + 2))
    /\ realtime_ns (world s') / 1000000000 = sec0 + 2.
Proof.
  intros s.
  assert (forall w, clock_gettime_rc Bench.running w = 0) as H1
    by reflexivity.
  assert (forall w, iio_attr_read Bench.running w dexter_dsp_tx "gpsdo_locked"
                    = (0, 1)) as H2 by reflexivity.
  assert (forall w, iio_attr_read Bench.running w dexter_dsp_tx
                      "pps_loss_of_signal" = (0, 0)) as H3 by reflexivity.
  assert (forall w, iio_attr_read Bench.running w dexter_dsp_tx "pps_clks"
                    = (0, DSP_CLOCK * (realtime_ns w / 1000000000))) as H4
    by reflexivity.
  assert (forall k, DSP_CLOCK * (k + 1) = DSP_CLOCK * k + DSP_CLOCK) as H5
    by (intros; lia).
  assert (m_clock_state (self s) = Startup) as H6 by reflexivity.
  exact (startup_tick_aligns Bench.running Bench.config
           (fun k => DSP_CLOCK * k) H1 H2 H3 H4 H5 s H6).
Defined.

(** Holdover for two seconds, limit ten, PPS back: the tick leaves for
    Startup. *)
Lemma holdover_tick_witness :
  let s := Bench.dexter Holdover true 0 in
  handle_hw_time (Bench.hardware Bench.locked) Bench.config s =
    (Val tt,
     {| self := set_clock Startup 0 0 time_point_min 0 (self s);
        world :=
          {| realtime_ns := realtime_ns (world s);
             steady_ns := steady_ns (world s);
             trace :=
               [ Log debug "Dexter: switch clock state Holdover -> Startup";
                 AttrRead dexter_dsp_tx "pps_loss_of_signal" 0 0 ] |} |}).
Proof.
  intro s.
  rewrite (holdover_tick (Bench.hardware Bench.locked) Bench.config s);
    reflexivity.
Defined.

(** C3 as stated fails on [m_holdover_since]: after the exit from holdover
    it holds [time_point::min()], which is not zero. *)
Lemma holdover_markers_not_all_zero :
  let s := Bench.dexter Holdover true 0 in
  let s' := snd (handle_hw_time (Bench.hardware Bench.locked) Bench.config s) in
  m_clock_state (self s) = Holdover
  /\ Int.s64 (snd (pps_loss_reply (Bench.hardware Bench.locked) s)) = 0
  /\ m_clock_state (self s') = Startup
  /\ m_utc_seconds_at_startup (self s') = 0
  /\ m_clock_count_at_startup (self s') = 0
  /\ m_holdover_since_t (self s') = 0
  /\ m_holdover_since (self s') = - 2 ^ 63
  /\ m_holdover_since (self s') <> 0.
Proof. vm_compute. repeat split; discriminate. Qed.

End ClockFacts.

(** * Handing a frame to the hardware *)

Module TransmitFacts.
Import Dexter Claims IntFacts.

Section Transmit.

Variable hw : Hardware.
Variable m_conf : SDRDeviceConfig.

Lemma channel_down_spec (s : St) :
  exists w,
    channel_down hw s
    = (Val tt, {| self := set_channel_is_up false (self s); world := w |})
    /\ pushes_so_far w = pushes_so_far (world s).
Proof.
  unfold channel_down, iio_device_attr_write_longlong, bind, get, etiLog,
    on_world, on_self, modify, ret. cbn.
  repeat destruct (negb _); cbn; eexists; split; reflexivity.
Qed.

Lemma channel_up_spec (s : St) :
  exists w,
    channel_up hw m_conf s
    = (Val tt, {| self := set_channel_is_up true (self s); world := w |}).
Proof.
  unfold channel_up, iio_device_attr_write_longlong, bind, get, etiLog,
    on_world, on_self, modify, ret. cbn.
  destruct (negb _); cbn; eexists; reflexivity.
Qed.

#[local] Opaque buflen.

Ltac run_monad :=
  unfold transmit_frame_arm, transmit_frame_refresh, transmit_frame_underflows,
    offset_to_system_time, fill_time, read_attr_or_throw, channel_up,
    channel_down, iio_device_attr_read_longlong,
    iio_device_attr_write_longlong, etiLog, on_world, on_self, bind, get,
    gets, modify, throw, ret in *.

Lemma channel_up_then_true (x : St) :
  (let (r, s') := channel_up hw m_conf x in
   match r with
   | Val _ => (Val true, s')
   | Exc e => (Exc e, s')
   end) = (Val true, snd (channel_up hw m_conf x)).
Proof. destruct (channel_up_spec x) as (w & ->). reflexivity. Qed.

(** The arming block, branch by branch. *)
Lemma transmit_frame_arm_eq (frame : FrameData) (s : St) :
  transmit_frame_arm hw m_conf frame s =
    if m_channel_is_up (self s) then (Val true, s)
    else if enableSync m_conf && timestamp_valid (ts frame) then
      arm_timestamped hw m_conf (ts frame) s
    else (Val true, snd (channel_up hw m_conf s)).
Proof.
  unfold transmit_frame_arm, arm_timestamped, offset_to_system_time, fill_time,
    read_attr_or_throw, iio_device_attr_read_longlong,
    iio_device_attr_write_longlong, etiLog, on_world, on_self, modify, throw,
    bind, ret, get.
  unfold armed, dropped_late, world_after_start_clks_write,
    start_clks_write_rc, world_before_margin_check, clks_read_failed,
    too_late, margin_s, clks_reply.
  destruct (m_channel_is_up (self s)); [reflexivity|]. cbn [negb].
  destruct (enableSync m_conf && timestamp_valid (ts frame)).
  - destruct (m_clock_state (self s)) eqn:Est; cbn [clock_state_eqb];
      try reflexivity.
    all: destruct (negb (clock_gettime_rc hw (world s) =? 0)); [reflexivity|].
    all: destruct (iio_attr_read hw (world s) dexter_dsp_tx "clks") as [r v].
    all: cbn [fst snd].
    all: destruct (r =? 0) eqn:Er; cbn [negb];
           [apply Z.eqb_eq in Er; subst r|reflexivity].
    all: cbn -[channel_up frame_start_clocks Double.lt].
    all: destruct (Double.lt _ _); [reflexivity|].
    all: destruct (negb _); [reflexivity|].
    all: exact (channel_up_then_true _).
  - exact (channel_up_then_true _).
Qed.

Lemma armed_spec (ts : frame_timestamp) (s : St) :
  self (armed hw m_conf s ts)
  = set_channel_is_up true (set_require_timestamp_refresh false (self s)).
Proof.
  unfold armed.
  match goal with |- context [channel_up hw m_conf ?x] =>
    destruct (channel_up_spec x) as (w & ->) end.
  reflexivity.
Qed.

(** The arming block never touches the frame counter. *)
Lemma arm_keeps_frames_modulated (frame : FrameData) (s s1 : St) r :
  transmit_frame_arm hw m_conf frame s = (r, s1) ->
  num_frames_modulated (self s1) = num_frames_modulated (self s).
Proof.
  rewrite transmit_frame_arm_eq. unfold arm_timestamped.
  destruct (channel_up_spec s) as (w & Hw).
  pose proof (armed_spec (ts frame) s) as Ha.
  repeat
    match goal with
    | |- context [if ?c then _ else _] => destruct c
    | |- context [match m_clock_state ?x with _ => _ end] =>
        destruct (m_clock_state x)
    end;
    intros [= <- <-]; try reflexivity;
    try (rewrite Hw; reflexivity); rewrite Ha; reflexivity.
Qed.

Lemma refresh_spec (s : St) :
  exists s',
    transmit_frame_refresh hw s = (Val tt, s')
    /\ num_frames_modulated (self s') = num_frames_modulated (self s)
    /\ num_late (self s') = num_late (self s)
    /\ m_require_timestamp_refresh (self s') = false
    /\ (m_require_timestamp_refresh (self s) = false -> s' = s).
Proof.
  unfold transmit_frame_refresh, bind at 1, get.
  destruct (m_require_timestamp_refresh (self s)) eqn:E.
  - unfold etiLog, on_world, on_self, modify, bind at 1.
    unfold bind at 1.
    match goal with |- context [channel_down hw ?x] =>
      destruct (channel_down_spec x) as (w & -> & Hw) end.
    cbn. eexists; split; [reflexivity|]. cbn.
    repeat split; auto. discriminate.
  - eexists; repeat split; auto.
Qed.

Lemma underflows_spec (s : St) :
  exists s',
    transmit_frame_underflows hw s = (Val tt, s')
    /\ num_frames_modulated (self s') = num_frames_modulated (self s)
    /\ num_late (self s') = num_late (self s)
    /\ m_channel_is_up (self s') = m_channel_is_up (self s)
    /\ num_buffers_pushed (self s') = num_buffers_pushed (self s)
    /\ pushes_so_far (world s') = pushes_so_far (world s).
Proof.
  unfold transmit_frame_underflows, etiLog, on_world, on_self, modify, bind,
    get, ret.
  destruct (_ && _); cbn; eexists; (split; [reflexivity|]); cbn; auto.
Qed.

(** The push block on an open channel, case by case on the answers of
    [iio_buffer_push]. *)
Lemma transmit_frame_push_cases (frame : FrameData) (s : St) :
  m_channel_is_up (self s) = true ->
  exists s',
    transmit_frame_push hw frame s = (Val tt, s')
    /\ num_frames_modulated (self s')
       = Int.u64 (num_frames_modulated (self s) + 1)
    /\ num_late (self s') = num_late (self s)
    /\ (first_push hw s frame < 0 ->
        m_channel_is_up (self s') = false
        /\ num_buffers_pushed (self s') = 0
        /\ pushes_so_far (world s') = S (pushes_so_far (world s)))
    /\ (0 <= first_push hw s frame -> second_push hw s frame < 0 ->
        m_channel_is_up (self s') = false
        /\ num_buffers_pushed (self s') = 0
        /\ pushes_so_far (world s') = S (S (pushes_so_far (world s))))
    /\ (0 <= first_push hw s frame -> 0 <= second_push hw s frame ->
        m_channel_is_up (self s') = true
        /\ num_buffers_pushed (self s')
           = Int.u64 (Int.u64 (num_buffers_pushed (self s) + 1) + 1)
        /\ pushes_so_far (world s') = S (S (pushes_so_far (world s)))).
Proof.
  intros Hup.
  unfold transmit_frame_push, bind at 1, get. rewrite Hup.
  change (Z.to_nat IIO_BUFFERS) with 2%nat.
  unfold first_push, second_push, world_after_first_push, first_block,
    second_block.
  cbn [push_buffers].
  unfold iio_buffer_push, bind, get, on_world, on_self, etiLog, modify, ret.
  cbn -[channel_down Z.mul Z.add Z.to_nat].
  replace ((0 + 1) * buflen) with buflen by lia.
  replace (Z.to_nat (0 * buflen)) with 0%nat by reflexivity.
  rewrite drop_0.
  set (p1 := Int.s64 (iio_push hw (world s) (take (Z.to_nat buflen) (buf frame)))).
  destruct (Z.ltb_spec p1 0) as [H1|H1].
  - match goal with |- context [channel_down hw ?x] =>
      destruct (channel_down_spec x) as (w & -> & Hw) end.
    cbn. eexists; split; [reflexivity|]. cbn.
    repeat split; try reflexivity; try lia.
    rewrite Hw. reflexivity.
  - cbn -[channel_down Z.to_nat].
    fold p1.
    set (p2 := Int.s64 (iio_push hw _ (take _ (drop _ _)))).
    destruct (Z.ltb_spec p2 0) as [H2|H2].
    + match goal with |- context [channel_down hw ?x] =>
        destruct (channel_down_spec x) as (w & -> & Hw) end.
      cbn. eexists; split; [reflexivity|]. cbn.
      repeat split; try reflexivity; try lia.
      rewrite Hw. reflexivity.
    + cbn. eexists; split; [reflexivity|]. cbn.
      repeat split; try reflexivity; try lia. exact Hup.
Qed.

(** The start time in DSP clocks is the formula of the spec, taken
    modulo 2^64. *)
Lemma frame_start_clocks_formula (d : t) (ts : frame_timestamp) :
  frame_start_clocks d ts = frame_start_clocks_spec d ts mod 2 ^ 64.
Proof.
  unfold frame_start_clocks, frame_start_clocks_spec.
  change TIMESTAMP_PPS_PER_DSP_CLOCKS with (163840000 / 16384000).
  change DSP_CLOCK with 163840000.
  unfold Int.u64 at 1. apply cong64_eq.
  rewrite !u64_cong, !s64_cong. reflexivity.
Qed.

(** C1 (amended): [transmit_frame] on a frame of the right length that
    needs a timestamped start ([enableSync] and a valid timestamp) while
    the channel is down.  In Startup it returns at once and changes
    nothing.  Otherwise it reads the clock and [clks] (a failure of either
    is thrown), and with [frame_start_clocks] equal to the formula of the
    spec modulo 2^64: if the margin to system time is below 0.2 s it
    counts the frame late and drops it, the channel staying down; else it
    writes [frame_start_clocks] to [stream0_start_clks]; if that write
    fails it also counts the frame late and drops it, the channel staying
    down; if it succeeds the refresh flag is cleared, the channel raised
    and the frame goes on to the push block. *)
Theorem transmit_frame_channel_down_timestamped (frame : FrameData) (s : St) :
  buf_size frame = frame_len_bytes ->
  m_channel_is_up (self s) = false ->
  enableSync m_conf = true ->
  timestamp_valid (ts frame) = true ->
  let start_clocks := frame_start_clocks (self s) (ts frame) in
  start_clocks = frame_start_clocks_spec (self s) (ts frame) mod 2 ^ 64
  /\ transmit_frame hw m_conf frame s =
       match m_clock_state (self s) with
       | Startup => (Val tt, s)
       | Normal | Holdover =>
           if negb (clock_gettime_rc hw (world s) =? 0) then
             (Exc (runtime_error "Failed to retrieve CLOCK_REALTIME"), s)
           else if negb (fst (clks_reply hw s) =? 0) then
             (Exc (runtime_error "Dexter: Cannot read IIO attribute"),
              clks_read_failed hw s)
           else if too_late s (ts frame) then
             (Val tt,
              {| self := set_num_late (Int.u64 (num_late (self s) + 1)) (self s);
                 world :=
                   record_event (Log warn "Skip frame short margin ")
                     (world_before_margin_check hw s) |})
           else
             let rc := start_clks_write_rc hw s (ts frame) in
             let w :=
               record_event
                 (AttrWrite dexter_dsp_tx "stream0_start_clks"
                    (Int.s64 start_clocks) rc)
                 (world_before_margin_check hw s) in
             if negb (rc =? 0) then
               (Val tt,
                {| self :=
                     set_num_late (Int.u64 (num_late (self s) + 1)) (self s);
                   world :=
                     record_event
                       (Log warn
                          "Skip frame, failed to set dexter_dsp_tx.stream0_start_clks = ")
                       w |})
             else
               (transmit_frame_push hw frame ;; transmit_frame_underflows hw)
                 (snd (channel_up hw m_conf
                         {| self := set_require_timestamp_refresh false (self s);
                            world := w |}))
       end
  /\ (forall w,
        m_channel_is_up
          (self (snd (channel_up hw m_conf
                        {| self := set_require_timestamp_refresh false (self s);
                           world := w |}))) = true).
Proof.
  intros Hsize Hdown Hsync Hvalid start_clocks.
  split; [apply frame_start_clocks_formula|]. split.
  - unfold transmit_frame. rewrite Hsize, Z.eqb_refl. cbn [negb].
    unfold bind at 1. rewrite transmit_frame_arm_eq.
    rewrite Hdown, Hsync, Hvalid. cbn [andb].
    unfold arm_timestamped.
    destruct (m_clock_state (self s)); [reflexivity| |].
    all: repeat
           match goal with
           | |- context [if ?c then _ else _] => destruct c eqn:?
           end; try reflexivity.
    all: unfold bind at 1.
    all: destruct (refresh_spec (armed hw m_conf s (ts frame)))
           as (s' & -> & _ & _ & _ & Hsame).
    all: rewrite Hsame by (rewrite armed_spec; reflexivity).
    all: reflexivity.
  - intros w. destruct (channel_up_spec
                          {| self := set_require_timestamp_refresh false (self s);
                             world := w |}) as (w' & ->).
    reflexivity.
Qed.

(** C10: a call of [transmit_frame] that gets past the arming and refresh
    blocks with the channel up returns normally with
    [num_frames_modulated] one higher (as a [size_t]), whatever
    [iio_buffer_push] answers: when the first or the second push is
    negative the rest of the frame is not pushed and the channel is brought
    down, and the frame is counted all the same. *)
Theorem transmit_frame_counts_partial_push (frame : FrameData) (s s1 : St) :
  buf_size frame = frame_len_bytes ->
  transmit_frame_arm hw m_conf frame s = (Val true, s1) ->
  let s2 := snd (transmit_frame_refresh hw s1) in
  m_channel_is_up (self s2) = true ->
  exists s',
    transmit_frame hw m_conf frame s = (Val tt, s')
    /\ num_frames_modulated (self s')
       = Int.u64 (num_frames_modulated (self s) + 1)
    /\ (first_push hw s2 frame < 0 ->
        m_channel_is_up (self s') = false
        /\ pushes_so_far (world s') = S (pushes_so_far (world s2)))
    /\ (0 <= first_push hw s2 frame -> second_push hw s2 frame < 0 ->
        m_channel_is_up (self s') = false
        /\ pushes_so_far (world s') = S (S (pushes_so_far (world s2))))
    /\ (0 <= first_push hw s2 frame -> 0 <= second_push hw s2 frame ->
        m_channel_is_up (self s') = true
        /\ pushes_so_far (world s') = S (S (pushes_so_far (world s2)))).
Proof.
  intros Hsize Harm s2 Hup.
  pose proof (arm_keeps_frames_modulated _ _ _ _ Harm) as Hn1.
  destruct (refresh_spec s1) as (s2' & Hr & Hn2 & _).
  assert (s2 = s2') as E by (unfold s2; rewrite Hr; reflexivity).
  clearbody s2. subst s2'.
  destruct (transmit_frame_push_cases frame s2 Hup)
    as (s3 & Hp & Hn3 & _ & Hc1 & Hc2 & Hc3).
  destruct (underflows_spec s3) as (s4 & Hu & Hn4 & _ & Hch & _ & Hps).
  exists s4. split.
  - unfold transmit_frame. rewrite Hsize, Z.eqb_refl. cbn [negb].
    unfold bind at 1. rewrite Harm.
    unfold bind at 1. rewrite Hr.
    unfold bind at 1. rewrite Hp. exact Hu.
  - rewrite Hn4, Hn3, Hch, Hps, Hn2, Hn1.
    split; [reflexivity|].
    split; [intros Ha; destruct (Hc1 Ha) as (? & ? & ?); auto|].
    split; intros Ha Hb;
      [destruct (Hc2 Ha Hb) as (? & ? & ?) | destruct (Hc3 Ha Hb) as (? & ? & ?)];
      auto.
Qed.

End Transmit.

(** Channel down, driver in Normal state, a frame due one second after
    the system time: the start time is written, the channel raised and
    both halves pushed. *)
Lemma transmit_frame_channel_down_timestamped_witness :
  let hw := Bench.hardware Bench.locked in
  let s := Bench.dexter Normal false 0 in
  let frame := Bench.frame_at (Bench.t0 + 1) 0 true in
  let r := transmit_frame hw Bench.config frame s in
  frame_start_clocks (self s) (ts frame) = 11 * 163840000
  /\ fst r = Val tt
  /\ m_channel_is_up (self (snd r)) = true
  /\ num_late (self (snd r)) = 0
  /\ nth_error (rev (trace (world (snd r)))) 2
     = Some (AttrWrite dexter_dsp_tx "stream0_start_clks" (11 * 163840000) 0)
  /\ pushes_so_far (world (snd r)) = 2%nat.
Proof.
  intros hw s frame r.
  destruct (transmit_frame_channel_down_timestamped hw Bench.config frame s)
    as (Hf & Heq & _); [vm_compute; reflexivity ..|].
  split; [rewrite Hf; vm_compute; reflexivity|].
  unfold r. rewrite Heq. vm_compute. repeat split.
Defined.

(** C1 as stated fails when the write of [stream0_start_clks] is refused:
    the margin is a full second, yet the frame is counted late and
    dropped, and the channel stays down. *)
Lemma transmit_frame_start_clks_write_refused :
  let refuse := fun attr : string =>
    if String.eqb attr "stream0_start_clks" then -5 else 0 in
  let hw := Bench.hardware (Bench.with_write_rc refuse Bench.locked) in
  let s := Bench.dexter Normal false 0 in
  let frame := Bench.frame_at (Bench.t0 + 1) 0 true in
  let r := transmit_frame hw Bench.config frame s in
  m_channel_is_up (self s) = false
  /\ (enableSync Bench.config && timestamp_valid (ts frame)) = true
  /\ m_clock_state (self s) = Normal
  /\ too_late s (ts frame) = false
  /\ fst r = Val tt
  /\ m_channel_is_up (self (snd r)) = false
  /\ num_late (self (snd r)) = 1
  /\ pushes_so_far (world (snd r)) = 0%nat
  /\ hd_error (trace (world (snd r)))
     = Some (Log warn
               "Skip frame, failed to set dexter_dsp_tx.stream0_start_clks = ").
Proof. vm_compute. repeat split. Qed.

(** The channel is up, the driver in Normal state, and the first DMA push
    fails with [-EIO]: the second half is not pushed, the channel goes
    down, and the frame is counted. *)
Lemma transmit_frame_counts_partial_push_witness :
  let hw := Bench.hardware (Bench.with_pushes [-5] Bench.locked) in
  let s := Bench.dexter Normal true 0 in
  let frame := Bench.frame_at (Bench.t0 + 1) 0 true in
  first_push hw s frame = -5
  /\ exists s',
       transmit_frame hw Bench.config frame s = (Val tt, s')
       /\ num_frames_modulated (self s') = 1
       /\ m_channel_is_up (self s') = false
       /\ pushes_so_far (world s') = 1%nat.
Proof.
  intros hw s frame.
  assert (first_push hw s frame = -5) as H1 by (vm_compute; reflexivity).
  split; [exact H1|].
  assert (buf_size frame = frame_len_bytes) as Hsz by (vm_compute; reflexivity).
  assert (transmit_frame_arm hw Bench.config frame s = (Val true, s)) as Harm
    by (vm_compute; reflexivity).
  assert (snd (transmit_frame_refresh hw s) = s) as Hr by (vm_compute; reflexivity).
  pose proof (transmit_frame_counts_partial_push hw Bench.config frame s s Hsz Harm) as H.
  rewrite Hr in H.
  destruct H as (s' & Ht & Hn & Hc & _); [reflexivity|].
  exists s'. split; [exact Ht|]. split; [exact Hn|].
  apply Hc. rewrite H1. reflexivity.
Defined.

End TransmitFacts.

(** * The output stage *)

Module StageFacts.
Import SDR StageClaims MonadFacts.

Section WithDevice.

Context {D : Type} `{SDRDevice D}.
Variable dpd_set_tx_frame_throws : list Event -> bool.

Lemma require_timestamp_refresh_eq (s : t D) (d : D) :
  m_device s = Some d ->
  require_timestamp_refresh s = (Val tt, refreshed s).
Proof.
  intros Hd. unfold require_timestamp_refresh, refreshed, on_device, bind, get,
    modify. rewrite Hd. reflexivity.
Qed.

Lemma refreshed_device (s : t D) (d : D) :
  m_device s = Some d ->
  m_device (refreshed s) = Some (dev_require_timestamp_refresh (m_config s) d).
Proof. intros Hd. unfold refreshed. rewrite Hd. reflexivity. Qed.

Lemma refreshed_has_device (s : t D) :
  is_Some (m_device s) -> is_Some (m_device (refreshed s)).
Proof. intros [d Hd]. rewrite (refreshed_device s d Hd). eauto. Qed.

Lemma check_timestamp_regular_eq (frame : FrameData) (s : t D) (d : D) :
  m_device s = Some d ->
  divides_by_zero s frame = false ->
  check_timestamp_regular frame (Int.u32 (timestamp_sec (ts frame)))
    (Int.u32 (timestamp_pps (ts frame))) s
  = (Val tt,
     if irregular s frame then
       refreshed (emit (Log warn "OutputSDR: timestamp irregularity at FCT=") s)
     else s).
Proof.
  intros Hd Hdiv. unfold divides_by_zero in Hdiv. unfold irregular.
  unfold check_timestamp_regular, bind at 1, get.
  destruct (last_tx_time_initialised s); [|reflexivity].
  cbn [andb] in *. apply orb_false_elim in Hdiv as [-> ->].
  unfold sizeIn.
  destruct (expected_timestamp _ _ _ _) as [expected_sec expected_pps].
  destruct (_ || _); [|reflexivity].
  erewrite bind_val by reflexivity.
  apply (require_timestamp_refresh_eq _ d). exact Hd.
Qed.

Lemma before_regularity_check_fields (frame : FrameData) (d2 : D) (s : t D) :
  is_Some (m_device (before_regularity_check frame d2 s))
  /\ m_config (before_regularity_check frame d2 s) = m_config s
  /\ last_tx_time_initialised (before_regularity_check frame d2 s)
     = last_tx_time_initialised s
  /\ last_tx_second (before_regularity_check frame d2 s) = last_tx_second s
  /\ last_tx_pps (before_regularity_check frame d2 s) = last_tx_pps s.
Proof.
  unfold before_regularity_check, refreshed.
  destruct (offset_changed (ts frame)); cbn; eauto 10.
Qed.

Lemma after_regularity_check_fields (frame : FrameData) (d2 : D) (s : t D) :
  is_Some (m_device (after_regularity_check frame d2 s))
  /\ m_config (after_regularity_check frame d2 s) = m_config s.
Proof.
  destruct (before_regularity_check_fields frame d2 s) as ([d Hd] & Hc & _).
  unfold after_regularity_check.
  destruct (irregular _ _); cbn.
  - unfold refreshed. cbn. rewrite Hd. cbn. eauto.
  - eauto.
Qed.

(** The synchronous block of [handle_frame], straightened out. *)
Lemma handle_frame_sync_eq (frame : FrameData) (s : t D)
    (d d2 : D) (device_time : double) :
  m_device s = Some d ->
  timestamp_valid (ts frame) = true ->
  dev_get_real_secs (m_config s) d = (Val device_time, d2) ->
  divides_by_zero s frame = false ->
  let s2 := after_regularity_check frame d2 s in
  handle_frame_sync frame s =
    if in_the_past frame device_time then
      (Val false,
       refreshed
         (emit (Log warn "OutputSDR: Timestamp in the past at FCT=") s2))
    else if too_far_ahead frame device_time then
      (Exc (runtime_error "Timestamp error. Aborted."),
       emit (Log error "OutputSDR: Timestamp way too far in the future at FCT=")
         s2)
    else (Val true, s2).
Proof.
  intros Hd Hvalid Htime Hdiv s2.
  unfold handle_frame_sync, bind at 1, get.
  erewrite bind_val
    by (unfold on_device; rewrite Hd, Htime; reflexivity).
  rewrite Hvalid. cbn [negb].
  destruct (before_regularity_check_fields frame d2 s)
    as ([d3 Hd3] & Hc3 & Hi3 & Hs3 & Hp3).
  assert ((if offset_changed (ts frame)
           then etiLog debug "TS offset changed";; require_timestamp_refresh
           else ret ())
            (set_device (Some d2) (emit (DeviceCall call_get_real_secs) s))
          = (Val tt, before_regularity_check frame d2 s)) as E1.
  { unfold before_regularity_check.
    destruct (offset_changed (ts frame)); [|reflexivity].
    erewrite bind_val by reflexivity.
    eapply require_timestamp_refresh_eq. reflexivity. }
  erewrite bind_val by exact E1.
  erewrite bind_val.
  2:{ apply (check_timestamp_regular_eq _ _ d3 Hd3).
      unfold divides_by_zero in *. rewrite Hi3, Hc3. exact Hdiv. }
  erewrite bind_val by reflexivity.
  erewrite bind_val by reflexivity.
  fold (in_the_past frame device_time).
  fold (too_far_ahead frame device_time).
  change (emit (Log trace_lvl "SDR,tist %f") _) with s2.
  destruct (after_regularity_check_fields frame d2 s) as ([d4 Hd4] & _).
  fold s2 in Hd4.
  destruct (in_the_past frame device_time).
  - erewrite bind_val by reflexivity.
    erewrite bind_val
      by (eapply require_timestamp_refresh_eq; cbn; exact Hd4).
    reflexivity.
  - destruct (too_far_ahead frame device_time); reflexivity.
Qed.

Lemma transmit_calls_emit (e : Event) (s : t D) :
  is_transmit_call e = false ->
  transmit_calls (emit e s) = transmit_calls s.
Proof.
  intros He. unfold transmit_calls. cbn [out emit].
  rewrite filter_cons, He.
  destruct (decide (false = true)); [discriminate|reflexivity].
Qed.

Lemma transmit_calls_refreshed (s : t D) :
  transmit_calls (refreshed s) = transmit_calls s.
Proof.
  unfold refreshed. destruct (m_device s); [|reflexivity].
  apply (transmit_calls_emit (DeviceCall call_require_timestamp_refresh)).
  reflexivity.
Qed.

Lemma transmit_calls_after_regularity_check (frame : FrameData) (d2 : D)
    (s : t D) :
  transmit_calls (after_regularity_check frame d2 s) = transmit_calls s.
Proof.
  assert (transmit_calls (before_regularity_check frame d2 s)
          = transmit_calls s) as Hb.
  { unfold before_regularity_check.
    destruct (offset_changed (ts frame)).
    - rewrite transmit_calls_refreshed.
      rewrite transmit_calls_emit by reflexivity.
      apply (transmit_calls_emit (DeviceCall call_get_real_secs)). reflexivity.
    - apply (transmit_calls_emit (DeviceCall call_get_real_secs)). reflexivity. }
  unfold after_regularity_check.
  generalize (irregular (before_regularity_check frame d2 s) frame).
  generalize dependent (before_regularity_check frame d2 s).
  intros s0 Hb b.
  rewrite transmit_calls_emit by reflexivity.
  destruct b.
  - change (transmit_calls (set_last_tx ?a ?b ?c ?x)) with (transmit_calls x).
    rewrite transmit_calls_refreshed.
    rewrite transmit_calls_emit by reflexivity. exact Hb.
  - exact Hb.
Qed.

(** [handle_frame] on the synchronous path, straightened out. *)
Lemma handle_frame_sync_path_eq (frame : FrameData) (s : t D)
    (d d1 d2 : D) (device_time : double) :
  m_device s = Some d ->
  enableSync (m_config s) = true ->
  timestamp_valid (ts frame) = true ->
  dev_is_clk_source_ok (m_config s) d = (Val true, d1) ->
  dev_get_real_secs (m_config s) d1 = (Val device_time, d2) ->
  divides_by_zero s frame = false ->
  let s2 := after_regularity_check frame d2 (past_clock_gate d1 s) in
  handle_frame frame s =
       (if in_the_past frame device_time then
          (Val tt,
           refreshed
             (emit (Log warn "OutputSDR: Timestamp in the past at FCT=") s2))
        else if too_far_ahead frame device_time then
          (Exc (runtime_error "Timestamp error. Aborted."),
           emit
             (Log error "OutputSDR: Timestamp way too far in the future at FCT=")
             s2)
        else if muting (m_config s) then
          (Val tt,
           refreshed (emit (Log info "OutputSDR: Muting FCT=%d requested") s2))
        else
          on_device (call_transmit_frame frame)
            (dev_transmit_frame (m_config s) frame) s2).
Proof.
  intros Hd Hsync Hvalid Hclk Htime Hdiv s2.
  destruct (after_regularity_check_fields frame d2 (past_clock_gate d1 s))
    as ([d4 Hd4] & Hc4).
  fold s2 in Hd4, Hc4.
  unfold handle_frame, bind at 1, get.
  erewrite bind_val by (unfold on_device; rewrite Hd, Hclk; reflexivity).
  cbn [negb]. rewrite Hsync, Hvalid. cbn [andb negb].
  rewrite andb_false_r.
  fold (past_clock_gate d1 s).
  pose proof (handle_frame_sync_eq frame (past_clock_gate d1 s) d1 d2
                device_time eq_refl Hvalid Htime Hdiv) as Hs.
  cbn zeta in Hs. fold s2 in Hs.
  destruct (in_the_past frame device_time).
  - erewrite bind_val by exact Hs. reflexivity.
  - destruct (too_far_ahead frame device_time).
    + erewrite bind_exc by exact Hs. reflexivity.
    + erewrite bind_val by exact Hs.
      destruct (muting (m_config s)); [|reflexivity].
      erewrite bind_val by reflexivity.
      eapply require_timestamp_refresh_eq. cbn. exact Hd4.
Qed.

(** ... where a frame inside the time window, not muted, is handed over. *)
Lemma handle_frame_hands_over (frame : FrameData) (s : t D)
    (d d1 d2 : D) (device_time : double) :
  m_device s = Some d ->
  enableSync (m_config s) = true ->
  timestamp_valid (ts frame) = true ->
  dev_is_clk_source_ok (m_config s) d = (Val true, d1) ->
  dev_get_real_secs (m_config s) d1 = (Val device_time, d2) ->
  divides_by_zero s frame = false ->
  in_the_past frame device_time = false ->
  too_far_ahead frame device_time = false ->
  muting (m_config s) = false ->
  out (snd (handle_frame frame s))
  = DeviceCall (call_transmit_frame frame)
    :: out (after_regularity_check frame d2 (past_clock_gate d1 s)).
Proof.
  intros Hd Hsync Hvalid Hclk Htime Hdiv Hp Hf Hm.
  rewrite (handle_frame_sync_path_eq frame s d d1 d2 device_time) by assumption.
  rewrite Hp, Hf, Hm.
  destruct (after_regularity_check_fields frame d2 (past_clock_gate d1 s))
    as ([d4 Hd4] & _).
  unfold on_device. rewrite Hd4.
  destruct (dev_transmit_frame (m_config s) frame d4). reflexivity.
Qed.

(** C2 (amended): a frame with a valid timestamp, in synchronous mode,
    that the clock gate lets through ([is_clk_source_ok] answered true),
    with the device time read and no division by zero in the regularity
    check.  No call of [transmit_frame] is made before the time window is
    checked.  If the frame's time is below the device time, the frame is
    dropped after a warning and a refresh request; else, if it exceeds the
    device time plus 100 s, [handle_frame] throws a runtime error after an
    error line; else, if muting is requested, the frame is dropped with a
    refresh request; in all other cases the frame is handed to the
    device's [transmit_frame]. *)
Theorem handle_frame_timestamp_window (frame : FrameData) (s : t D)
    (d d1 d2 : D) (device_time : double) :
  m_device s = Some d ->
  enableSync (m_config s) = true ->
  timestamp_valid (ts frame) = true ->
  dev_is_clk_source_ok (m_config s) d = (Val true, d1) ->
  dev_get_real_secs (m_config s) d1 = (Val device_time, d2) ->
  divides_by_zero s frame = false ->
  let s2 := after_regularity_check frame d2 (past_clock_gate d1 s) in
  transmit_calls s2 = transmit_calls s
  /\ handle_frame frame s =
       (if in_the_past frame device_time then
          (Val tt,
           refreshed
             (emit (Log warn "OutputSDR: Timestamp in the past at FCT=") s2))
        else if too_far_ahead frame device_time then
          (Exc (runtime_error "Timestamp error. Aborted."),
           emit
             (Log error "OutputSDR: Timestamp way too far in the future at FCT=")
             s2)
        else if muting (m_config s) then
          (Val tt,
           refreshed (emit (Log info "OutputSDR: Muting FCT=%d requested") s2))
        else
          on_device (call_transmit_frame frame)
            (dev_transmit_frame (m_config s) frame) s2)
  /\ (in_the_past frame device_time = true ->
      out (snd (handle_frame frame s))
      = DeviceCall call_require_timestamp_refresh
        :: Log warn "OutputSDR: Timestamp in the past at FCT=" :: out s2
      /\ transmit_calls (snd (handle_frame frame s)) = transmit_calls s)
  /\ (in_the_past frame device_time = false ->
      too_far_ahead frame device_time = true ->
      transmit_calls (snd (handle_frame frame s)) = transmit_calls s)
  /\ (in_the_past frame device_time = false ->
      too_far_ahead frame device_time = false ->
      muting (m_config s) = false ->
      out (snd (handle_frame frame s))
      = DeviceCall (call_transmit_frame frame) :: out s2).
Proof.
  intros Hd Hsync Hvalid Hclk Htime Hdiv s2.
  assert (transmit_calls s2 = transmit_calls s) as Hcalls.
  { unfold s2. rewrite transmit_calls_after_regularity_check.
    apply (transmit_calls_emit (DeviceCall call_is_clk_source_ok)).
    reflexivity. }
  destruct (after_regularity_check_fields frame d2 (past_clock_gate d1 s))
    as ([d4 Hd4] & Hc4).
  fold s2 in Hd4, Hc4.
  pose proof (handle_frame_sync_path_eq frame s d d1 d2 device_time
                Hd Hsync Hvalid Hclk Htime Hdiv) as Heq.
  cbn zeta in Heq. fold s2 in Heq.
  split; [exact Hcalls|]. split; [exact Heq|].
  split; [|split].
  - rewrite Heq. intros ->. cbn [snd]. split.
    + unfold refreshed. cbn [m_device emit]. rewrite Hd4. reflexivity.
    + rewrite transmit_calls_refreshed.
      rewrite transmit_calls_emit by reflexivity. exact Hcalls.
  - rewrite Heq. intros -> ->. cbn [snd].
    rewrite transmit_calls_emit by reflexivity. exact Hcalls.
  - intros Hp Hf Hm.
    apply (handle_frame_hands_over frame s d d1 d2 device_time); assumption.
Qed.

(** The carry loop, given enough rounds, leaves a sub-second part below
    one second and moves the whole seconds over. *)
Lemma carry_pps_spec (fuel : nat) (sec pps : Z) :
  0 <= pps ->
  pps / 16384000 <= Z.of_nat fuel ->
  0 <= sec < 2 ^ 32 ->
  carry_pps fuel sec pps = (Int.u32 (sec + pps / 16384000), pps mod 16384000).
Proof.
  revert sec pps. induction fuel as [|fuel IH]; intros sec pps Hpps Hfuel Hsec.
  - assert (pps / 16384000 = 0) as Hq.
    { pose proof (Z.div_pos pps 16384000). lia. }
    assert (pps < 16384000) as Hlt.
    { apply Z.div_small_iff in Hq; lia. }
    cbn [carry_pps]. rewrite Hq, Z.add_0_r, Z.mod_small by lia.
    rewrite IntFacts.u32_small by exact Hsec. reflexivity.
  - cbn [carry_pps]. destruct (Z.leb_spec 16384000 pps) as [Hge|Hlt].
    + assert ((pps - 16384000) / 16384000 = pps / 16384000 - 1) as Hq.
      { replace (pps - 16384000) with (pps + (-1) * 16384000) by lia.
        rewrite Z.div_add by lia. lia. }
      assert ((pps - 16384000) mod 16384000 = pps mod 16384000) as Hm.
      { replace (pps - 16384000) with (pps + (-1) * 16384000) by lia.
        apply Z.mod_add. lia. }
      rewrite IH.
      * rewrite Hq, Hm. f_equal. unfold Int.u32.
        rewrite Zplus_mod_idemp_l. f_equal. lia.
      * lia.
      * rewrite Hq. lia.
      * apply IntFacts.u32_range.
    + rewrite Z.div_small, Z.add_0_r, Z.mod_small by lia.
      rewrite IntFacts.u32_small by exact Hsec. reflexivity.
Qed.

(** The loop of [handle_frame] always comes to its end: the expected
    sub-second part is below one second. *)
Lemma expected_timestamp_exit (last_sec last_pps size rate : Z) :
  0 <= snd (expected_timestamp last_sec last_pps size rate) < 16384000.
Proof.
  unfold expected_timestamp.
  rewrite carry_pps_spec.
  - cbn [snd]. apply Z.mod_pos_bound. lia.
  - apply IntFacts.u32_range.
  - rewrite Z2Nat.id; [lia|].
    apply Z.div_pos; [apply IntFacts.u32_range | lia].
  - apply IntFacts.u32_range.
Qed.

(** The code's expected timestamp is the one of the spec when the
    previous sub-second part is a valid one. *)
Lemma expected_timestamp_spec (last_sec last_pps size rate : Z) :
  0 <= last_pps < 16384000 ->
  expected_timestamp last_sec last_pps size rate
  = expected_next last_sec last_pps
      (Int.u64 (size * 16384000) / Int.u64 rate).
Proof.
  intros Hpps. unfold expected_timestamp, expected_next.
  set (inc := Int.u64 (size * 16384000) / Int.u64 rate).
  pose proof (Z.mod_pos_bound inc 16384000 ltac:(lia)) as Hr.
  rewrite (IntFacts.u32_small (last_pps + inc mod 16384000)) by lia.
  rewrite carry_pps_spec.
  - assert (last_pps + inc
            = last_pps + inc mod 16384000 + (inc / 16384000) * 16384000) as E.
    { pose proof (Z.div_mod inc 16384000 ltac:(lia)). lia. }
    rewrite E.
    rewrite Z.div_add, Z.mod_add by lia.
    f_equal. unfold Int.u32. rewrite Zplus_mod_idemp_l. f_equal. lia.
  - lia.
  - rewrite Z2Nat.id; [lia|]. apply Z.div_pos; lia.
  - apply IntFacts.u32_range.
Qed.





Lemma worker_loop_stopped (popped : list FrameData) (s : t D) :
  m_running s = false -> worker_loop popped s = (Val tt, s).
Proof.
  intros Hrun. destruct popped; cbn [worker_loop];
    unfold bind at 1, get; rewrite Hrun; reflexivity.
Qed.

Lemma worker_loop_cons (frame : FrameData) (popped : list FrameData)
    (s : t D) :
  m_running s = true ->
  worker_loop (frame :: popped) s
  = ((if has_device s then handle_frame frame else ret tt) ;;
     worker_loop popped) (at_pop s).
Proof.
  intros Hrun. cbn [worker_loop]. unfold at_pop.
  unfold bind, get, etiLog, modify.
  rewrite Hrun. cbn [m_running emit]. rewrite Hrun. cbn [negb].
  reflexivity.
Qed.

Lemma worker_rounds_cons (frame : FrameData) (popped : list FrameData)
    (s : t D) :
  m_running s = true ->
  worker_rounds (frame :: popped) s
  = ((if has_device s then handle_frame frame else ret tt) ;;
     worker_rounds popped) (at_pop s).
Proof.
  intros Hrun. cbn [worker_rounds]. unfold at_pop.
  unfold bind, get, etiLog, modify.
  rewrite Hrun. cbn [m_running emit]. rewrite Hrun. cbn [negb].
  reflexivity.
Qed.

(** The worker's loop on a sequence of frames is its rounds on the first
    of them followed by the loop on the others. *)
Lemma worker_loop_app (pre popped : list FrameData) (s : t D) :
  worker_loop (pre ++ popped) s
  = (worker_rounds pre ;; worker_loop popped) s.
Proof.
  revert s. induction pre as [|frame pre IH]; intros s.
  - reflexivity.
  - cbn [app]. destruct (m_running s) eqn:Hrun.
    + unfold bind at 1.
      rewrite worker_loop_cons, worker_rounds_cons by exact Hrun.
      unfold bind.
      destruct ((if has_device s then handle_frame frame else ret tt)
                  (at_pop s)) as [[[]|e] s1]; [|reflexivity].
      rewrite IH. reflexivity.
    + rewrite worker_loop_stopped by exact Hrun.
      cbn [worker_rounds]. unfold bind, get, ret. rewrite Hrun.
      rewrite worker_loop_stopped by exact Hrun. reflexivity.
Qed.

(** A runtime error out of [handle_frame] ends the thread. *)
Lemma thread_ends_on_runtime_error (rc : Z) (pre : list FrameData)
    (frame : FrameData) (rest : list FrameData) (s s1 s' : t D)
    (what : string) :
  worker_rounds pre (worker_start rc s) = (Val tt, s1) ->
  m_running s1 = true ->
  has_device s1 = true ->
  handle_frame frame (at_pop s1) = (Exc (runtime_error what), s') ->
  process_thread_entry rc (pre ++ frame :: rest) s
  = (Val tt,
     set_running false
       (emit (Log error "SDR output thread caught runtime error: ") s')).
Proof.
  intros Hpre Hrun Hdev Hthrow.
  unfold process_thread_entry. unfold worker_start in Hpre.
  destruct (negb (rc =? 0));
    (erewrite bind_val by reflexivity);
    (erewrite bind_val by reflexivity);
    unfold bind at 1, try_catch;
    rewrite worker_loop_app, (bind_val _ _ _ _ _ Hpre);
    rewrite worker_loop_cons by exact Hrun; rewrite Hdev;
    rewrite (bind_exc _ _ _ _ _ Hthrow); reflexivity.
Qed.

(** A runtime error out of [handle_frame], whichever frame of the
    worker's sequence raises it, ends the worker: the frames still to come
    are not handled, the error is logged and [m_running] is cleared, which
    makes every later [process] throw. *)
Lemma worker_dies_on_runtime_error (rc : Z) (pre : list FrameData)
    (frame : FrameData) (rest : list FrameData) (s s1 s' : t D)
    (what : string) :
  worker_rounds pre (worker_start rc s) = (Val tt, s1) ->
  m_running s1 = true ->
  has_device s1 = true ->
  handle_frame frame (at_pop s1) = (Exc (runtime_error what), s') ->
  process_thread_entry rc (pre ++ frame :: rest) s
  = (Val tt,
     set_running false
       (emit (Log error "SDR output thread caught runtime error: ") s'))
  /\ forall dataIn,
       fst (process dataIn
              (snd (process_thread_entry rc (pre ++ frame :: rest) s)))
       = Exc (runtime_error "SDR thread failed").
Proof.
  intros Hpre Hrun Hdev Hthrow.
  pose proof (thread_ends_on_runtime_error rc pre frame rest s s1 s' what
                Hpre Hrun Hdev Hthrow) as Heq.
  split; [exact Heq|]. intros dataIn. rewrite Heq. reflexivity.
Qed.

(** ** Invariants of the stage *)

Section Stable.

Variable kind : Event -> bool.
Variable I : t D -> Prop.
Hypothesis I_stable : stable_under kind I.

Lemma keeps_etiLog (lvl : LogLevel) (text : string) :
  kind (Log lvl text) = false -> preserves I (etiLog lvl text).
Proof.
  intros Hk. apply preserves_modify. intros s Hs.
  apply (I_stable s Hs). exact Hk.
Qed.

Lemma keeps_on_device {A} (c : DevCall) (m : M D A) :
  kind (DeviceCall c) = false -> preserves I (on_device c m).
Proof.
  intros Hk s Hs. unfold on_device.
  destruct (m_device s) as [d|]; [|exact Hs].
  destruct (m d) as [r d']. cbn [snd].
  apply I_stable. apply (I_stable s Hs). exact Hk.
Qed.

Lemma keeps_refresh :
  kind (DeviceCall call_require_timestamp_refresh) = false ->
  preserves I require_timestamp_refresh.
Proof.
  intros Hk. unfold require_timestamp_refresh.
  apply preserves_bind_get. intros s0 _. apply keeps_on_device. exact Hk.
Qed.

Lemma keeps_check_timestamp_regular (frame : FrameData) (sec pps : Z) :
  kind (Log warn "OutputSDR: timestamp irregularity at FCT=") = false ->
  kind (DeviceCall call_require_timestamp_refresh) = false ->
  preserves I (check_timestamp_regular frame sec pps).
Proof.
  intros Hw Hr. unfold check_timestamp_regular.
  apply preserves_bind_get. intros s0 _.
  destruct (last_tx_time_initialised s0); [|apply preserves_ret].
  destruct (sampleSize frame =? 0); [apply preserves_throw|].
  destruct (Int.u64 (sampleRate (m_config s0)) =? 0); [apply preserves_throw|].
  destruct (expected_timestamp _ _ _ _) as [expected_sec expected_pps].
  destruct (_ || _); [|apply preserves_ret].
  apply preserves_bind; [apply keeps_etiLog; exact Hw|].
  intros _. apply keeps_refresh. exact Hr.
Qed.

(** The synchronous block on a frame with a valid timestamp puts out
    nothing but events of [handle_frame_events]. *)
Lemma keeps_handle_frame_sync (frame : FrameData) :
  timestamp_valid (ts frame) = true ->
  Forall (fun e => kind e = false) (handle_frame_events frame) ->
  preserves I (handle_frame_sync frame).
Proof.
  intros Hvalid Hev. unfold handle_frame_events in Hev.
  repeat
    match type of Hev with
    | Forall _ (_ :: _) => apply Forall_cons in Hev as [? Hev]
    end.
  unfold handle_frame_sync.
  apply preserves_bind_get. intros s0 _.
  apply preserves_bind; [apply keeps_on_device; assumption|].
  intros device_time. rewrite Hvalid. cbn [negb].
  apply preserves_bind.
  { destruct (offset_changed (ts frame)); [|apply preserves_ret].
    apply preserves_bind; [apply keeps_etiLog; assumption|].
    intros _. apply keeps_refresh. assumption. }
  intros _. apply preserves_bind.
  { apply keeps_check_timestamp_regular; assumption. }
  intros _. apply preserves_bind.
  { apply preserves_modify. intros s Hs. apply (I_stable s Hs). }
  intros _. apply preserves_bind; [apply keeps_etiLog; assumption|].
  intros _. destruct (Double.lt _ _).
  { apply preserves_bind; [apply keeps_etiLog; assumption|].
    intros _. apply preserves_bind; [apply keeps_refresh; assumption|].
    intros _. apply preserves_ret. }
  destruct (Double.gt _ _); [|apply preserves_ret].
  apply preserves_bind; [apply keeps_etiLog; assumption|].
  intros _. apply preserves_throw.
Qed.

(** [handle_frame] keeps an invariant that its events cannot break, be it
    that the line of the muting gate is harmless to it or that it rules
    muting out. *)
Lemma keeps_handle_frame (frame : FrameData) :
  Forall (fun e => kind e = false) (handle_frame_events frame) ->
  kind (Log info "OutputSDR: Muting FCT=%d requested") = false
  \/ (forall s, I s -> muting (m_config s) = false) ->
  preserves I (handle_frame frame).
Proof.
  intros Hev Hmute.
  pose proof Hev as Hev'. unfold handle_frame_events in Hev'.
  repeat
    match type of Hev' with
    | Forall _ (_ :: _) => apply Forall_cons in Hev' as [? Hev']
    end.
  unfold handle_frame.
  apply preserves_bind_get. intros s0 Hs0.
  apply preserves_bind; [apply keeps_on_device; assumption|].
  intros clk_ok. destruct (negb clk_ok); [apply preserves_ret|].
  destruct (enableSync (m_config s0) && muteNoTimestamps (m_config s0)
            && negb (timestamp_valid (ts frame)));
    [apply keeps_etiLog; assumption|].
  apply preserves_bind.
  { destruct (enableSync (m_config s0) && timestamp_valid (ts frame)) eqn:E;
      [|apply preserves_ret].
    apply andb_true_iff in E as [_ Hvalid].
    apply keeps_handle_frame_sync; assumption. }
  intros go_on. destruct go_on; [|apply preserves_ret].
  destruct (muting (m_config s0)) eqn:Hm.
  - destruct Hmute as [Hk|Hk].
    + apply preserves_bind; [apply keeps_etiLog; assumption|].
      intros _. apply keeps_refresh. assumption.
    + rewrite (Hk s0 Hs0) in Hm. discriminate.
  - apply keeps_on_device. assumption.
Qed.

End Stable.

Lemma count_emit (kind : Event -> bool) (e : Event) (s : t D) :
  count kind (emit e s) = if kind e then S (count kind s) else count kind s.
Proof.
  unfold count. cbn [out emit]. rewrite filter_cons.
  destruct (kind e); destruct (decide _); try discriminate; try congruence;
    reflexivity.
Qed.

(** C8: whatever the frame, the stage and the device's answers, a call of
    [handle_frame] does not put out the line of the inner guard
    ("Throwing sample ... away: incomplete timestamp"): that branch is
    never taken. *)
Theorem incomplete_timestamp_guard_is_dead (frame : FrameData) (s : t D) :
  count incomplete_timestamp_line (snd (handle_frame frame s))
  = count incomplete_timestamp_line s.
Proof.
  apply (keeps_handle_frame incomplete_timestamp_line
           (fun s' => count incomplete_timestamp_line s'
                      = count incomplete_timestamp_line s)).
  - intros s' Hs'. repeat split.
    + intros e He. rewrite count_emit, He. exact Hs'.
    + intros d. exact Hs'.
    + intros a b c. exact Hs'.
  - repeat constructor.
  - left. reflexivity.
  - reflexivity.
Qed.

(** ** The pipeline *)

Lemma never_muted_stable : stable_under muting_line (@never_muted D).
Proof.
  intros s [Hm Hc]. split; [|split].
  - intros e He. split; [exact Hm|]. rewrite count_emit, He. exact Hc.
  - intros d. split; assumption.
  - intros a b c. split; assumption.
Qed.

Lemma pipeline_step_never_muted (o : pipeline_op) :
  preserves (@never_muted D) (pipeline_step dpd_set_tx_frame_throws o).
Proof.
  pose proof never_muted_stable as Hst.
  destruct o as [dataIn|metadataIn|]; cbn [pipeline_step].
  - apply preserves_bind; [|intros; apply preserves_ret].
    unfold process. apply preserves_bind_get. intros s0 _.
    destruct (negb (m_running s0)); [apply preserves_throw|].
    apply preserves_bind; [|intros; apply preserves_ret].
    apply preserves_modify. intros s Hs. exact Hs.
  - unfold process_metadata. apply preserves_bind_get. intros s0 _.
    destruct (has_device s0 && m_running s0); [|apply preserves_ret].
    apply preserves_bind; [apply preserves_modify; intros s Hs; exact Hs|].
    intros _. destruct metadataIn as [|m0 rest].
    { apply (keeps_etiLog _ _ Hst). reflexivity. }
    apply preserves_bind.
    { destruct (_ && _); [|apply preserves_ret].
      apply preserves_bind; [apply (keeps_etiLog _ _ Hst); reflexivity|].
      intros _. apply preserves_modify. intros s Hs. exact Hs. }
    intros _. apply preserves_bind_get. intros s1 _.
    destruct (ThreadsafeQueue.push_overflow _ _ _) as [r q].
    apply preserves_bind; [apply (keeps_etiLog _ _ Hst); reflexivity|].
    intros _. apply preserves_modify. intros s Hs. exact Hs.
  - unfold worker_round. apply preserves_bind_get. intros s0 _.
    destruct (m_running s0); [|apply preserves_ret].
    destruct (m_queue s0) as [|frame rest]; [apply preserves_ret|].
    apply preserves_bind; [apply preserves_modify; intros s Hs; exact Hs|].
    intros _. apply preserves_try_catch.
    + destruct (has_device s0); [|apply preserves_ret].
      apply (keeps_handle_frame _ _ Hst).
      * repeat constructor.
      * right. intros s [Hm _]. exact Hm.
    + intros e. destruct e; try apply preserves_throw.
      apply preserves_bind; [apply (keeps_etiLog _ _ Hst); reflexivity|].
      intros _. apply preserves_modify. intros s Hs. exact Hs.
Qed.

Lemma pipeline_run_preserves (I : t D -> Prop) (schedule : list pipeline_op) :
  (forall o, preserves I (pipeline_step dpd_set_tx_frame_throws o)) ->
  preserves I (pipeline_run dpd_set_tx_frame_throws schedule).
Proof.
  intros Hstep. induction schedule as [|o rest IH]; cbn [pipeline_run].
  - apply preserves_ret.
  - apply preserves_bind; [apply Hstep|]. intros _. exact IH.
Qed.


(** ** The frame queue *)








End WithDevice.

(** ** The stage under remote control *)

Section WithControl.

Context {D : Type} `{SDRDevice D} `{SDRDeviceControl D}.
Variable dpd_set_tx_frame_throws : list Event -> bool.
Variable extract_double : string -> double * bool.
Variable extract_bool : string -> bool * bool.
Variable extract_unsigned : string -> Z * bool.
Variable parse_channel : string -> option double.

(** *** The remote control *)

Section Keeps.

Variable I : t D -> Prop.
Hypothesis I_emit : forall s c, I s -> I (emit (DeviceCall c) s).
Hypothesis I_device : forall s d, I s -> I (set_device (Some d) s).
Hypothesis I_config :
  forall s c, I s -> muting c = muting (m_config s) -> I (set_config c s).

Lemma keeps_device_call {A} (c : DevCall) (m : M D A) :
  preserves I (on_device c m).
Proof.
  intros s Hs. unfold on_device.
  destruct (m_device s) as [d|]; [|exact Hs].
  destruct (m d) as [r d']. cbn [snd]. apply I_device, I_emit, Hs.
Qed.

Lemma keeps_extract_into {A} (r : A * bool)
    (store : A -> SDRDeviceConfig -> SDRDeviceConfig) :
  (forall a c, muting (store a c) = muting c) ->
  preserves I (extract_into r store).
Proof.
  intros Hstore. unfold extract_into.
  apply preserves_bind.
  - apply preserves_modify. intros s Hs. apply I_config; [exact Hs|].
    apply Hstore.
  - intros _. destruct (snd r); [apply preserves_ret|apply preserves_throw].
Qed.

(** Apart from [muting], no parameter of the remote control touches
    anything but the configuration's other fields and the device. *)
Lemma keeps_set_parameter (parameter value : string) :
  String.eqb parameter "muting" = false ->
  preserves I
    (set_parameter extract_double extract_bool extract_unsigned parse_channel
       parameter value).
Proof.
  intros Hmut. unfold set_parameter.
  destruct (String.eqb parameter "txgain").
  { apply preserves_bind; [apply keeps_extract_into; reflexivity|].
    intros _. apply preserves_bind_get. intros s0 _.
    apply preserves_bind; [apply keeps_device_call|].
    intros g. apply preserves_modify. intros s Hs.
    apply I_config; [exact Hs|reflexivity]. }
  destruct (String.eqb parameter "rxgain").
  { apply preserves_bind; [apply keeps_extract_into; reflexivity|].
    intros _. apply preserves_bind_get. intros s0 _.
    apply keeps_device_call. }
  destruct (String.eqb parameter "bandwidth").
  { apply preserves_bind; [apply keeps_extract_into; reflexivity|].
    intros _. apply preserves_bind_get. intros s0 _.
    apply keeps_device_call. }
  destruct (String.eqb parameter "freq").
  { apply preserves_bind; [apply keeps_extract_into; reflexivity|].
    intros _. apply preserves_bind_get. intros s0 _.
    apply keeps_device_call. }
  destruct (String.eqb parameter "channel").
  { destruct (parse_channel value) as [freq|]; [|apply preserves_throw].
    apply preserves_bind.
    { apply preserves_modify. intros s Hs.
      apply I_config; [exact Hs|reflexivity]. }
    intros _. apply preserves_bind_get. intros s0 _.
    apply keeps_device_call. }
  rewrite Hmut.
  destruct (String.eqb parameter "synchronous").
  { destruct (snd (extract_unsigned value)); [|apply preserves_throw].
    apply preserves_modify. intros s Hs.
    apply I_config; [exact Hs|reflexivity]. }
  destruct (String.eqb parameter "max_gps_holdover_time").
  { apply keeps_extract_into. reflexivity. }
  apply preserves_throw.
Qed.

End Keeps.

Lemma stage_run_preserves (I : t D -> Prop) (allowed : stage_op -> bool)
    (schedule : list stage_op) :
  (forall o, allowed o = true ->
     preserves I
       (stage_step dpd_set_tx_frame_throws extract_double extract_bool
          extract_unsigned parse_channel o)) ->
  Forall (fun o => allowed o = true) schedule ->
  preserves I
    (stage_run dpd_set_tx_frame_throws extract_double extract_bool
       extract_unsigned parse_channel schedule).
Proof.
  intros Hstep Hall. induction Hall as [|o rest Ho _ IH]; cbn [stage_run].
  - apply preserves_ret.
  - apply preserves_bind; [apply Hstep, Ho|]. intros _. exact IH.
Qed.

Lemma stage_step_never_muted (o : stage_op) :
  sets_muting o = false ->
  preserves (@never_muted D)
    (stage_step dpd_set_tx_frame_throws extract_double extract_bool
       extract_unsigned parse_channel o).
Proof.
  intros Ho. destruct o as [o|parameter value]; cbn [stage_step].
  - apply pipeline_step_never_muted.
  - apply preserves_try_catch.
    + apply keeps_set_parameter; [| | |exact Ho].
      * intros s c [Hm Hc]. split; [exact Hm|]. exact Hc.
      * intros s d Hs. exact Hs.
      * intros s c [Hm Hc] Hmc. split; [|exact Hc].
        cbn [m_config set_config]. congruence.
    + intros e. destruct e; first [apply preserves_ret|apply preserves_throw].
Qed.

(** *** A frame that nothing but muting could stop *)

Lemma handle_frame_unsync_path_eq (frame : FrameData) (s : t D) (d d1 : D) :
  m_device s = Some d ->
  dev_is_clk_source_ok (m_config s) d = (Val true, d1) ->
  enableSync (m_config s) && timestamp_valid (ts frame) = false ->
  enableSync (m_config s) && muteNoTimestamps (m_config s)
    && negb (timestamp_valid (ts frame)) = false ->
  muting (m_config s) = false ->
  handle_frame frame s
  = on_device (call_transmit_frame frame)
      (dev_transmit_frame (m_config s) frame) (past_clock_gate d1 s).
Proof.
  intros Hdev Hclk Hno Hgate Hmute.
  unfold handle_frame, bind at 1, get.
  unfold bind at 1, on_device at 1. rewrite Hdev, Hclk. cbn [negb].
  fold (past_clock_gate d1 s).
  rewrite Hgate, Hno. unfold bind at 1, ret at 1. rewrite Hmute.
  reflexivity.
Qed.

Lemma worker_round_hands_over (frame : FrameData) (rest : list FrameData)
    (s s1 : t D) :
  m_running s = true ->
  m_queue s = frame :: rest ->
  has_device s = true ->
  handle_frame frame (set_queue rest (num_queue_overflows s) s)
  = on_device (call_transmit_frame frame)
      (dev_transmit_frame (m_config s) frame) s1 ->
  is_Some (m_device s1) ->
  transmit_calls s1 = transmit_calls s ->
  transmit_calls (snd (worker_round s))
  = DeviceCall (call_transmit_frame frame) :: transmit_calls s.
Proof.
  intros Hrun Hq Hdev Hframe [d1 Hd1] Hcalls.
  unfold worker_round, bind at 1, get. rewrite Hrun, Hq.
  unfold bind at 1, modify at 1. rewrite Hdev.
  unfold try_catch. rewrite Hframe. unfold on_device. rewrite Hd1.
  destruct (dev_transmit_frame (m_config s) frame d1) as [[[]|e] d2].
  - cbn [snd]. unfold transmit_calls in *. cbn [out set_device emit].
    rewrite filter_cons. cbn. rewrite Hcalls. reflexivity.
  - assert (transmit_calls
              (set_device (Some d2)
                 (emit (DeviceCall (call_transmit_frame frame)) s1))
            = DeviceCall (call_transmit_frame frame) :: transmit_calls s)
      as Hc.
    { unfold transmit_calls in *. cbn [out set_device emit].
      rewrite filter_cons. cbn. rewrite Hcalls. reflexivity. }
    destruct e; cbn [snd]; exact Hc.
Qed.

(** C9: the constructor clears [muting] whatever the configuration says.
    From there on, through any schedule of [process], [process_metadata],
    rounds of the worker and calls of [set_parameter] on parameters other
    than [muting], [muting] stays clear, no frame is dropped at the muting
    gate, and every frame the worker pops that the other checks let
    through is handed to the device's [transmit_frame]: the clock gate,
    the gate on missing timestamps and, for a frame with a valid timestamp
    in synchronous mode, the time window (the device time being read and
    the regularity check not dividing by zero). *)
Theorem constructor_unmutes (config : SDRDeviceConfig) (device : option D)
    (schedule : list stage_op) :
  Forall (fun o => sets_muting o = false) schedule ->
  muting (m_config (ctor config device)) = false
  /\ m_config (ctor config device) = set_muting false config
  /\ let s := snd (stage_run dpd_set_tx_frame_throws extract_double
                     extract_bool extract_unsigned parse_channel schedule
                     (ctor config device)) in
     muting (m_config s) = false
     /\ count muting_line s = 0%nat
     /\ (forall frame rest d d1,
           m_running s = true ->
           m_queue s = frame :: rest ->
           m_device s = Some d ->
           dev_is_clk_source_ok (m_config s) d = (Val true, d1) ->
           enableSync (m_config s) && timestamp_valid (ts frame) = false ->
           enableSync (m_config s) && muteNoTimestamps (m_config s)
             && negb (timestamp_valid (ts frame)) = false ->
           transmit_calls (snd (worker_round s))
           = DeviceCall (call_transmit_frame frame) :: transmit_calls s)
     /\ (forall frame rest d d1 d2 device_time,
           m_running s = true ->
           m_queue s = frame :: rest ->
           m_device s = Some d ->
           enableSync (m_config s) = true ->
           timestamp_valid (ts frame) = true ->
           dev_is_clk_source_ok (m_config s) d = (Val true, d1) ->
           dev_get_real_secs (m_config s) d1 = (Val device_time, d2) ->
           divides_by_zero s frame = false ->
           in_the_past frame device_time = false ->
           too_far_ahead frame device_time = false ->
           transmit_calls (snd (worker_round s))
           = DeviceCall (call_transmit_frame frame) :: transmit_calls s).
Proof.
  intros Hschedule.
  split; [reflexivity|]. split; [reflexivity|].
  intros s.
  assert (never_muted s) as [Hmute Hcount].
  { apply (stage_run_preserves (@never_muted D)
             (fun o => negb (sets_muting o)) schedule).
    - intros o Ho. apply stage_step_never_muted.
      apply negb_true_iff. exact Ho.
    - eapply Forall_impl; [exact Hschedule|].
      intros o Ho. cbn beta in *. rewrite Ho. reflexivity.
    - split; reflexivity. }
  split; [exact Hmute|]. split; [exact Hcount|]. split.
  - intros frame rest d d1 Hrun Hq Hdev Hclk Hno Hgate.
    apply (worker_round_hands_over frame rest s
             (past_clock_gate d1 (set_queue rest (num_queue_overflows s) s)));
      try assumption.
    + unfold has_device. rewrite Hdev. reflexivity.
    + exact (handle_frame_unsync_path_eq frame
               (set_queue rest (num_queue_overflows s) s) d d1
               Hdev Hclk Hno Hgate Hmute).
    + cbn. eauto.
    + reflexivity.
  - intros frame rest d d1 d2 device_time
      Hrun Hq Hdev Hsync Hvalid Hclk Htime Hdiv Hpast Hfar.
    set (s0 := set_queue rest (num_queue_overflows s) s).
    apply (worker_round_hands_over frame rest s
             (after_regularity_check frame d2 (past_clock_gate d1 s0)));
      try assumption.
    + unfold has_device. rewrite Hdev. reflexivity.
    + rewrite (handle_frame_sync_path_eq frame s0 d d1 d2 device_time)
        by assumption.
      rewrite Hpast, Hfar. change (m_config s0) with (m_config s).
      rewrite Hmute. reflexivity.
    + apply after_regularity_check_fields.
    + rewrite transmit_calls_after_regularity_check. reflexivity.
Qed.

(** *** The frame queue *)




End WithControl.

(** Device time 1000 s, a regular first frame due at 1001 s, not muted:
    the frame goes to [transmit_frame]. *)
Lemma handle_frame_timestamp_window_witness :
  let d := {| Bench.mock_clk_ok := true; Bench.mock_real_secs := 1000 |} in
  let s := ctor Bench.config (Some d) in
  let frame := Bench.small_frame 2048 1001 0 in
  in_the_past frame 1000 = false
  /\ too_far_ahead frame 1000 = false
  /\ out (snd (handle_frame frame s))
     = [ DeviceCall (call_transmit_frame frame);
         Log trace_lvl "SDR,tist %f";
         DeviceCall call_get_real_secs;
         DeviceCall call_is_clk_source_ok ].
Proof.
  intros d s frame.
  assert (in_the_past frame 1000 = false) as Hp by (vm_compute; reflexivity).
  assert (too_far_ahead frame 1000 = false) as Hf by (vm_compute; reflexivity).
  split; [exact Hp|]. split; [exact Hf|].
  destruct (handle_frame_timestamp_window frame s d d d 1000%float)
    as (_ & _ & _ & _ & Ht); [reflexivity ..|].
  rewrite (Ht Hp Hf eq_refl). reflexivity.
Defined.

(** C2 as stated fails at the clock gate: with [is_clk_source_ok]
    answering false, a frame with a valid timestamp one second ahead of
    the device time, in synchronous mode and not muted, is dropped without
    a word and never reaches [transmit_frame]. *)
Lemma handle_frame_clock_gate_drops :
  let d := {| Bench.mock_clk_ok := false; Bench.mock_real_secs := 1000 |} in
  let s := ctor Bench.config (Some d) in
  let frame := Bench.small_frame 2048 1001 0 in
  enableSync (m_config s) = true
  /\ timestamp_valid (ts frame) = true
  /\ muting (m_config s) = false
  /\ in_the_past frame (Bench.mock_real_secs d) = false
  /\ too_far_ahead frame (Bench.mock_real_secs d) = false
  /\ fst (handle_frame frame s) = Val tt
  /\ out (snd (handle_frame frame s)) = [ DeviceCall call_is_clk_source_ok ]
  /\ transmit_calls (snd (handle_frame frame s)) = [].
Proof. vm_compute. repeat split. Qed.





(** A configuration that asks for muting, a schedule in which the remote
    control leaves synchronous mode and sets the gain before the producer
    hands over a frame: the stage is not muted and the worker's next round
    gives the frame to [transmit_frame]. *)
Lemma constructor_unmutes_witness :
  let d := {| Bench.mock_clk_ok := true; Bench.mock_real_secs := 0 |} in
  let m := ts (Bench.small_frame 1 0 0) in
  let config := set_muting true Bench.config in
  let schedule :=
    (op_set_parameter "synchronous" "0" :: op_set_parameter "txgain" "1"
     :: Bench.produce m)%list in
  let s := snd (stage_run (fun _ => false) Bench.extract_double Bench.extract_bool
                  Bench.extract_unsigned Bench.parse_channel schedule
                  (ctor config (Some d))) in
  muting config = true
  /\ muting (m_config s) = false
  /\ count muting_line s = 0%nat
  /\ transmit_calls (snd (worker_round s))
     = [ DeviceCall
           (call_transmit_frame
              {| buf := []; sampleSize := 8; ts := m |}) ].
Proof.
  intros d m config schedule s.
  assert (Forall (fun o => sets_muting o = false) schedule) as Hs
    by (repeat constructor).
  destruct (constructor_unmutes (fun _ => false) Bench.extract_double Bench.extract_bool
              Bench.extract_unsigned Bench.parse_channel config (Some d) schedule Hs)
    as (_ & _ & Hm & Hc & Hunsync & _).
  fold s in Hm, Hc, Hunsync.
  split; [reflexivity|]. split; [exact Hm|]. split; [exact Hc|].
  exact (Hunsync {| buf := []; sampleSize := 8; ts := m |} [] d d
           ltac:(reflexivity) ltac:(reflexivity) ltac:(reflexivity)
           ltac:(reflexivity) ltac:(reflexivity) ltac:(reflexivity)).
Defined.

End StageFacts.

(** * Run statistics *)

Module StatsFacts.
Import Dexter Claims MonadFacts.

Section Stats.

Variable hw : Hardware.

(** What the two alarms of the statistics map hold: [voltage_alarm] only
    looks at the last two rails, and [temp_alarm] only at whether the FPGA
    temperature could be read. *)
Lemma alarms_as_computed (rs : gmap string stat_value) :
  health_statistics hw rs !! "voltage_alarm"
  = Some (v_bool (negb (voltage_ok_as_computed hw)))
  /\ health_statistics hw rs !! "temp_alarm"
     = Some (v_bool (match find_tfpga hw 100 0 with
                     | Some _ => false
                     | None => true
                     end)).
Proof.
  unfold health_statistics, voltage_ok_as_computed.
  match goal with
  | |- context [read_rail hw "in5_input" _ _ _ ?acc] =>
      generalize acc; intros [rs5 ok5]
  end.
  unfold read_rail.
  destruct (hwmon_input hw (hwmon0 ++ "in5_input")) as [v5|];
    destruct (hwmon_input hw (hwmon0 ++ "in6_input")) as [v6|];
    destruct (find_tfpga hw 100 0) as [tf|];
    cbn [keep assign_in_range negb orb].
  all: split;
    [ rewrite lookup_insert_ne by discriminate; rewrite lookup_insert_eq;
      reflexivity
    | rewrite lookup_insert_eq; reflexivity ].
Qed.

Lemma attr_to_stat_returns (cast : Z -> stat_value) (attr_name stat_name : string)
    (rs : gmap string stat_value) (s : St) :
  exists rs' w',
    attr_to_stat hw cast attr_name stat_name rs s
    = (Val rs', {| self := self s; world := w' |}).
Proof.
  unfold attr_to_stat, iio_device_attr_read_longlong, etiLog, on_world, modify,
    bind, get, ret.
  destruct (iio_attr_read hw (world s) dexter_dsp_tx attr_name) as [r v].
  cbn. destruct (r =? 0); cbn; eauto.
Qed.

(** [get_run_statistics] always returns, with the alarms as above, and
    leaves the driver as it was. *)
Lemma get_run_statistics_returns (s : St) :
  exists rs s',
    get_run_statistics hw s = (Val (health_statistics hw rs), s')
    /\ self s' = self s.
Proof.
  unfold get_run_statistics, bind at 1, get.
  repeat
    match goal with
    | |- context [bind (attr_to_stat hw ?c ?a ?n ?rs) _ ?st] =>
        let rs' := fresh "rs" in
        let w' := fresh "w" in
        let E := fresh "E" in
        destruct (attr_to_stat_returns c a n rs st) as (rs' & w' & E);
        rewrite (bind_val _ _ _ _ _ E); clear E
    end.
  eexists; eexists; split; reflexivity.
Qed.

(** [attr_to_stat] writes the one key [stat_name]. *)
Lemma attr_to_stat_other_keys (cast : Z -> stat_value)
    (attr_name stat_name key : string) (rs rs' : gmap string stat_value)
    (s s' : St) :
  key <> stat_name ->
  attr_to_stat hw cast attr_name stat_name rs s = (Val rs', s') ->
  rs' !! key = rs !! key.
Proof.
  intros Hne.
  unfold attr_to_stat, iio_device_attr_read_longlong, etiLog, on_world, modify,
    bind, get, ret.
  destruct (iio_attr_read hw (world s) dexter_dsp_tx attr_name) as [r v].
  cbn. destruct (r =? 0); cbn; intros [= <- _];
    rewrite lookup_insert_ne by congruence; reflexivity.
Qed.

Lemma read_rail_other_keys (file stat key : string) scaled judge
    (acc : gmap string stat_value * bool) :
  key <> stat ->
  fst (read_rail hw file stat scaled judge acc) !! key = fst acc !! key.
Proof.
  intros Hne. destruct acc as [rs ok]. unfold read_rail.
  destruct (hwmon_input hw (hwmon0 ++ file)); cbn [fst];
    rewrite lookup_insert_ne by congruence; reflexivity.
Qed.

(** The sensors and alarms leave the counters of the map alone. *)
Lemma health_statistics_keeps_frames (rs : gmap string stat_value) :
  health_statistics hw rs !! "frames" = rs !! "frames".
Proof.
  unfold health_statistics.
  match goal with
  | |- context [let '(_, _) := ?acc in _] =>
      assert (fst acc !! "frames" = rs !! "frames") as Hacc
        by (repeat (rewrite read_rail_other_keys by discriminate);
            reflexivity);
      destruct acc as [rs7 ok7]
  end.
  cbn [fst] in Hacc.
  destruct (find_tfpga hw 100 0);
    repeat (rewrite lookup_insert_ne by discriminate); exact Hacc.
Qed.

(** The statistic [frames] of [get_run_statistics] is the counter
    [num_frames_modulated]. *)
Lemma frames_statistic (s : St) :
  exists rs s',
    get_run_statistics hw s = (Val rs, s')
    /\ rs !! "frames" = Some (v_size_t (num_frames_modulated (self s))).
Proof.
  unfold get_run_statistics, bind at 1, get.
  match goal with
  | |- context [attr_to_stat hw _ "clks" "clks" ?m] =>
      assert (m !! "frames"
              = Some (v_size_t (num_frames_modulated (self s)))) as H0
        by (rewrite lookup_insert_eq; reflexivity);
      revert H0; generalize m; intros rs0 H0
  end.
  repeat
    match goal with
    | H : ?rs !! "frames" = _
      |- context [bind (attr_to_stat hw ?c ?a ?n ?rs) _ ?st] =>
        let rs' := fresh "rs" in
        let w' := fresh "w" in
        let E := fresh "E" in
        let H' := fresh "H" in
        destruct (attr_to_stat_returns c a n rs st) as (rs' & w' & E);
        rewrite (bind_val _ _ _ _ _ E);
        assert (rs' !! "frames"
                = Some (v_size_t (num_frames_modulated (self s)))) as H'
          by (rewrite (attr_to_stat_other_keys c a n "frames" rs rs' _ _
                         ltac:(discriminate) E); exact H);
        clear E H
    end.
  eexists; eexists; split; [reflexivity|].
  rewrite health_statistics_keeps_frames.
  destruct (m_clock_state (self s));
    repeat (rewrite lookup_insert_ne by discriminate); assumption.
Qed.

End Stats.

(** C7, the code at a failing input: the file of the 3.3 V rail cannot be
    opened and the FPGA is at 90 degrees, yet the statistics map reports
    neither a voltage alarm nor a temperature alarm. *)
Theorem alarms_miss_faults :
  let hw := Bench.hardware Bench.faulty in
  let s := Bench.dexter Normal true 0 in
  some_rail_unreadable hw = true
  /\ find_tfpga hw 100 0 = Some 90%float
  /\ Double.le 90 85 = false
  /\ match fst (get_run_statistics hw s) with
     | Val rs =>
         rs !! "vcc3v3" = Some (v_ssize_t (-1))
         /\ rs !! "tempfpga" = Some (v_double 90)
         /\ rs !! "voltage_alarm" = Some (v_bool false)
         /\ rs !! "temp_alarm" = Some (v_bool false)
     | Exc _ => False
     end.
Proof. vm_compute. repeat split. Qed.

(** On the healthy board of the bench the map is free of alarms too, and
    an out-of-range last rail does raise the voltage alarm: the test of
    [vcc2v5io] is the one that counts. *)
Lemma alarms_follow_last_rail :
  voltage_ok_as_computed (Bench.hardware Bench.locked) = true
  /\ voltage_ok_as_computed
       (Bench.hardware
          (Bench.with_rails
             [ Bench.rail "in5_input" 3%float;
               Bench.rail "in6_input" 5.4%float ] Bench.locked)) = false.
Proof. vm_compute. split; reflexivity. Qed.

End StatsFacts.


(** * Tuning and gain *)

Module ControlFacts.
Import Dexter DexterControl MonadFacts IntFacts.

Lemma to_s64_range (d : double) : - 2 ^ 63 <= Double.to_s64 d < 2 ^ 63.
Proof.
  unfold Double.to_s64, Int.INT64_MIN.
  destruct (Prim2SF d) as [?|?| |s m e]; try lia.
  match goal with
  | |- context [if ?c then _ else _] => destruct c eqn:E
  end; [|lia].
  apply andb_true_iff in E as [E1 E2].
  apply Z.leb_le in E1. apply Z.ltb_lt in E2. lia.
Qed.

Lemma s64_to_s64 (d : double) : Int.s64 (Double.to_s64 d) = Double.to_s64 d.
Proof. apply s64_small, to_s64_range. Qed.

Section Control.

Variable hw : Hardware.

(** [tune] never throws and leaves the driver object alone; it writes the
    truncated frequency to the upconverter and then the truncated offset
    to the DSP, the second also when the first was refused. *)
Theorem tune_writes_both (lo_offset frequency : double) (s : St) :
  exists rc1 rc2 w',
    tune hw lo_offset frequency s = (Val tt, {| self := self s; world := w' |})
    /\ filter is_attr_write (trace w')
       = AttrWrite dexter_dsp_tx "frequency0" (Double.to_s64 lo_offset) rc2
         :: AttrWrite ad9957 "center_frequency" (Double.to_s64 frequency) rc1
         :: filter is_attr_write (trace (world s))
    /\ realtime_ns w' = realtime_ns (world s).
Proof.
  unfold tune, iio_device_attr_write_longlong, etiLog, on_world, modify, bind,
    get, ret.
  cbn [self world fst snd]. rewrite !s64_to_s64.
  set (rc1 := iio_attr_write hw (world s) ad9957 "center_frequency" _).
  destruct (negb (rc1 =? 0)); cbn [self world fst snd];
    match goal with
    | |- context [iio_attr_write hw ?w dexter_dsp_tx "frequency0" ?v] =>
        set (rc2 := iio_attr_write hw w dexter_dsp_tx "frequency0" v)
    end;
    exists rc1, rc2; destruct (negb (rc2 =? 0)); cbn [self world fst snd];
    eexists; (split; [reflexivity|]); split; reflexivity.
Qed.

(** On hardware that keeps what is written, the frequency read back after
    [tune] is the sum of the two truncated arguments: the fractions of a
    hertz are gone. *)
Theorem tune_then_get_tx_freq (lo_offset frequency : double) (s : St) :
  keeps_attributes hw ->
  - 2 ^ 63 <= Double.to_s64 frequency + Double.to_s64 lo_offset < 2 ^ 63 ->
  exists s',
    (tune hw lo_offset frequency ;; get_tx_freq hw) s
    = (Val (of_long_long (Double.to_s64 frequency + Double.to_s64 lo_offset)),
       s')
    /\ self s' = self s.
Proof.
  intros [Hw Hr] Hsum.
  unfold tune, get_tx_freq, iio_device_attr_write_longlong,
    iio_device_attr_read_longlong, etiLog, on_world, modify, bind, get, ret.
  cbn [self world fst snd]. rewrite !s64_to_s64.
  repeat (rewrite Hw; cbn [Z.eqb negb self world fst snd]).
  rewrite (Hr _ dexter_dsp_tx "frequency0" (Double.to_s64 lo_offset))
    by reflexivity.
  cbn [Z.eqb negb self world fst snd]. rewrite s64_to_s64.
  rewrite (Hr _ ad9957 "center_frequency" (Double.to_s64 frequency))
    by reflexivity.
  cbn [Z.eqb negb self world fst snd]. rewrite s64_to_s64.
  assert ((Int.INT64_MIN <=? Double.to_s64 frequency + Double.to_s64 lo_offset)
          && (Double.to_s64 frequency + Double.to_s64 lo_offset <? 2 ^ 63)
          = true) as ->.
  { apply andb_true_iff. unfold Int.INT64_MIN.
    split; [apply Z.leb_le|apply Z.ltb_lt]; lia. }
  eexists; split; reflexivity.
Qed.

(** [get_tx_freq] answers 0 when either attribute cannot be read, and
    nothing else tells the caller. *)
Theorem get_tx_freq_read_failure (s : St) :
  fst (iio_attr_read hw (world s) dexter_dsp_tx "frequency0") <> 0
  \/ (forall w, fst (iio_attr_read hw w ad9957 "center_frequency") <> 0) ->
  exists s',
    get_tx_freq hw s = (Val 0%float, s') /\ self s' = self s.
Proof.
  intros Hfail.
  unfold get_tx_freq, iio_device_attr_read_longlong, etiLog, on_world, modify,
    bind, get, ret.
  cbn [self world fst snd].
  destruct (iio_attr_read hw (world s) dexter_dsp_tx "frequency0")
    as [r1 v1] eqn:E1.
  destruct (Z.eqb_spec r1 0) as [->|Hr1]; cbn [negb self world fst snd].
  - destruct Hfail as [Hfail|Hfail]; [cbn in Hfail; lia|].
    match goal with
    | |- context [iio_attr_read hw ?w ad9957 "center_frequency"] =>
        specialize (Hfail w);
          destruct (iio_attr_read hw w ad9957 "center_frequency") as [r2 v2]
    end.
    cbn in Hfail. apply Z.eqb_neq in Hfail. rewrite Hfail.
    cbn [negb self world fst snd]. eexists; split; reflexivity.
  - eexists; split; reflexivity.
Qed.

Section Gain.

Variable m_conf : SDRDeviceConfig.

(** [set_txgain] never throws, leaves the driver object alone and
    touches nothing of the configuration but [txgain]. *)
Theorem set_txgain_keeps_other_settings (gain : double) (s : St) :
  exists conf' s',
    set_txgain hw m_conf gain s = (Val conf', s')
    /\ self s' = self s
    /\ with_txgain (txgain m_conf) conf' = m_conf.
Proof.
  unfold set_txgain, iio_device_attr_write_longlong,
    iio_device_attr_read_longlong, etiLog, on_world, modify, bind, get, ret.
  cbn [self world fst snd].
  destruct (negb _); cbn [self world fst snd];
    match goal with
    | |- context [iio_attr_read hw ?w dexter_dsp_tx "gain0"] =>
        destruct (iio_attr_read hw w dexter_dsp_tx "gain0") as [r v]
    end;
    destruct (negb (r =? 0)); cbn [self world fst snd];
    eexists; eexists; (split; [reflexivity|]); (split; [reflexivity|]);
    destruct m_conf; reflexivity.
Qed.

(** When [gain0] cannot be read, [set_txgain] leaves the configuration as
    it was, whatever was asked for, and [get_txgain] answers 0. *)
Theorem gain_read_failure (txgain : double) (s : St) :
  (forall w, fst (iio_attr_read hw w dexter_dsp_tx "gain0") <> 0) ->
  (exists s', set_txgain hw m_conf txgain s = (Val m_conf, s'))
  /\ (exists s', get_txgain hw s = (Val 0%float, s')).
Proof.
  intros Hfail.
  unfold set_txgain, get_txgain, iio_device_attr_write_longlong,
    iio_device_attr_read_longlong, etiLog, on_world, modify, bind, get, ret.
  cbn [self world fst snd].
  split.
  - destruct (negb _); cbn [self world fst snd];
      match goal with
      | |- context [iio_attr_read hw ?w dexter_dsp_tx "gain0"] =>
          specialize (Hfail w);
            destruct (iio_attr_read hw w dexter_dsp_tx "gain0") as [r v]
      end;
      cbn in Hfail; apply Z.eqb_neq in Hfail; rewrite Hfail;
      cbn [negb self world fst snd]; eexists; reflexivity.
  - specialize (Hfail (world s)).
    destruct (iio_attr_read hw (world s) dexter_dsp_tx "gain0") as [r v].
    cbn in Hfail. apply Z.eqb_neq in Hfail. rewrite Hfail.
    cbn [negb self world fst snd]. eexists; reflexivity.
Qed.

(** On hardware that keeps what is written, [set_txgain] leaves the
    truncated gain in the configuration, and [get_txgain] returns the
    same value afterwards. *)
Theorem set_txgain_reads_back (txgain : double) (s : St) :
  keeps_attributes hw ->
  exists s1 s2,
    set_txgain hw m_conf txgain s
    = (Val (with_txgain (of_long_long (Double.to_s64 txgain)) m_conf), s1)
    /\ get_txgain hw s1
       = (Val (of_long_long (Double.to_s64 txgain)), s2)
    /\ self s2 = self s.
Proof.
  intros [Hw Hr].
  unfold set_txgain, get_txgain, iio_device_attr_write_longlong,
    iio_device_attr_read_longlong, etiLog, on_world, modify, bind, get, ret.
  cbn [self world fst snd]. rewrite !s64_to_s64.
  repeat (rewrite Hw; cbn [Z.eqb negb self world fst snd]).
  rewrite (Hr _ dexter_dsp_tx "gain0" (Double.to_s64 txgain)) by reflexivity.
  cbn [Z.eqb negb self world fst snd]. rewrite s64_to_s64.
  eexists; eexists; split; [reflexivity|].
  cbn [self world fst snd].
  rewrite (Hr _ dexter_dsp_tx "gain0" (Double.to_s64 txgain)) by reflexivity.
  cbn [Z.eqb negb self world fst snd]. rewrite s64_to_s64.
  split; reflexivity.
Qed.

End Gain.

End Control.

Lemma registers_keep_attributes : keeps_attributes registers.
Proof.
  split; [reflexivity|].
  intros w dev attr v H. cbn. rewrite H. reflexivity.
Qed.

(** 222064000.7 Hz asked for, 222064000 Hz read back. *)
Lemma tune_then_get_tx_freq_witness :
  let s := Bench.dexter Normal true 0 in
  exists s',
    (tune registers 0 222064000.7 ;; get_tx_freq registers) s
    = (Val 222064000%float, s')
    /\ self s' = self s.
Proof.
  intros s.
  assert (- 2 ^ 63
          <= Double.to_s64 222064000.7 + Double.to_s64 0
          < 2 ^ 63) as Hsum by (vm_compute; split; [discriminate|reflexivity]).
  exact (tune_then_get_tx_freq registers 0 222064000.7 s
           registers_keep_attributes Hsum).
Defined.

(** Registers never written cannot be read. *)
Lemma get_tx_freq_read_failure_witness :
  let s := Bench.dexter Normal true 0 in
  exists s', get_tx_freq registers s = (Val 0%float, s') /\ self s' = self s.
Proof.
  intros s.
  assert (fst (iio_attr_read registers (world s) dexter_dsp_tx "frequency0")
          <> 0) as Hfail by (vm_compute; discriminate).
  exact (get_tx_freq_read_failure registers s (or_introl Hfail)).
Defined.

(** A board without [gain0]. *)
Lemma gain_read_failure_witness :
  let hw := Bench.hardware Bench.locked in
  let s := Bench.dexter Normal true 0 in
  (exists s', set_txgain hw Bench.config 12.5 s = (Val Bench.config, s'))
  /\ (exists s', get_txgain hw s = (Val 0%float, s')).
Proof.
  intros hw s.
  assert (forall w, fst (iio_attr_read hw w dexter_dsp_tx "gain0") <> 0)
    as Hfail by (intros w; vm_compute; discriminate).
  exact (gain_read_failure hw Bench.config 12.5 s Hfail).
Defined.

(** A gain of 12.7 is kept as 12. *)
Lemma set_txgain_reads_back_witness :
  let s := Bench.dexter Normal true 0 in
  exists s1 s2,
    set_txgain registers Bench.config 12.7 s
    = (Val (with_txgain 12 Bench.config), s1)
    /\ get_txgain registers s1 = (Val 12%float, s2)
    /\ self s2 = self s.
Proof.
  intros s.
  exact (set_txgain_reads_back registers Bench.config 12.7 s
           registers_keep_attributes).
Defined.

End ControlFacts.


(** * More of the driver *)

Module DriverFacts.
Import Dexter Claims DriverSpec MonadFacts IntFacts.

Section Driver.

Variable hw : Hardware.
Variable m_conf : SDRDeviceConfig.

#[local] Opaque buflen.

Lemma bind_get {S A} (k : S -> M S A) (s : S) : bind get k s = k s s.
Proof. reflexivity. Qed.

Lemma frame_is_two_blocks (frame : FrameData) :
  buf_size frame = frame_len_bytes ->
  (first_block frame ++ second_block frame)%list = buf frame
  /\ length (first_block frame) = Z.to_nat buflen
  /\ length (second_block frame) = Z.to_nat buflen.
Proof.
  unfold buf_size, first_block, second_block. intros Hsize.
  assert (frame_len_bytes = buflen + buflen) as E by reflexivity.
  assert (0 <= buflen) as Hpos by (apply Z.leb_le; reflexivity).
  assert (length (buf frame) = (Z.to_nat buflen + Z.to_nat buflen)%nat) as Hlen
    by lia.
  split; [|split].
  - rewrite <- (take_drop (Z.to_nat buflen) (buf frame)) at 3.
    f_equal. apply take_ge. rewrite length_drop. lia.
  - rewrite length_take. lia.
  - rewrite length_take, length_drop. lia.
Qed.

(** The push block on an open channel when both pushes are accepted: the
    two halves go out in order and both are counted. *)
Lemma transmit_frame_push_both (frame : FrameData) (s : St) :
  m_channel_is_up (self s) = true ->
  0 <= first_push hw s frame ->
  0 <= second_push hw s frame ->
  transmit_frame_push hw frame s
  = (Val tt,
     {| self :=
          set_num_frames_modulated
            (Int.u64 (num_frames_modulated (self s) + 1))
            (set_num_buffers_pushed
               (Int.u64 (Int.u64 (num_buffers_pushed (self s) + 1) + 1))
               (self s));
        world :=
          record_event
            (BufferPush (second_block frame) (second_push hw s frame))
            (world_after_first_push hw s frame) |}).
Proof.
  intros Hup H1 H2.
  unfold transmit_frame_push, bind at 1, get. rewrite Hup.
  change (Z.to_nat IIO_BUFFERS) with 2%nat.
  unfold second_push, world_after_first_push, first_push, first_block,
    second_block in *.
  cbn [push_buffers].
  unfold iio_buffer_push, bind, get, on_world, on_self, etiLog, modify, ret.
  cbn -[channel_down Z.mul Z.add Z.to_nat].
  replace ((0 + 1) * buflen) with buflen by lia.
  replace (Z.to_nat (0 * buflen)) with 0%nat by reflexivity.
  rewrite drop_0.
  destruct (Z.ltb_spec
              (Int.s64 (iio_push hw (world s)
                          (take (Z.to_nat buflen) (buf frame)))) 0);
    [lia|].
  cbn -[channel_down Z.to_nat].
  match goal with
  | |- context [if ?c then _ else _] => destruct (Z.ltb_spec0 _ _ : reflect _ c)
  end; [lia|].
  reflexivity.
Qed.

Lemma channel_down_pushed_blocks (s : St) :
  exists w,
    channel_down hw s
    = (Val tt, {| self := set_channel_is_up false (self s); world := w |})
    /\ pushed_blocks w = pushed_blocks (world s).
Proof.
  unfold channel_down, iio_device_attr_write_longlong, bind, get, etiLog,
    on_world, on_self, modify, ret. cbn.
  repeat destruct (negb _); cbn; eexists; split; reflexivity.
Qed.

Lemma underflows_pushed_blocks (s : St) :
  exists w,
    transmit_frame_underflows hw s
    = (Val tt,
       {| self :=
            set_prev_underflows (Int.u64 (shared_underflows hw (world s)))
              (self s);
          world := w |})
    /\ pushed_blocks w = pushed_blocks (world s).
Proof.
  unfold transmit_frame_underflows, bind, get, etiLog, on_world, on_self,
    modify, ret. cbn.
  destruct (_ && _); cbn; eexists; split; reflexivity.
Qed.

(** A frame of the right length handed over on an open channel with no
    refresh pending, both pushes accepted: the two blocks that go out are
    the two halves of the frame, in order, and nothing else is pushed. *)
Theorem transmit_frame_sends_the_frame (frame : FrameData) (s : St) :
  buf_size frame = frame_len_bytes ->
  m_channel_is_up (self s) = true ->
  m_require_timestamp_refresh (self s) = false ->
  0 <= first_push hw s frame ->
  0 <= second_push hw s frame ->
  exists s' block1 block2,
    transmit_frame hw m_conf frame s = (Val tt, s')
    /\ pushed_blocks (world s') = block2 :: block1 :: pushed_blocks (world s)
    /\ (block1 ++ block2)%list = buf frame
    /\ length block1 = length block2
    /\ m_channel_is_up (self s') = true
    /\ num_buffers_pushed (self s')
       = Int.u64 (Int.u64 (num_buffers_pushed (self s) + 1) + 1)
    /\ num_frames_modulated (self s')
       = Int.u64 (num_frames_modulated (self s) + 1).
Proof.
  intros Hsize Hup Hflag H1 H2.
  destruct (frame_is_two_blocks frame Hsize) as (Hcat & Hl1 & Hl2).
  unfold transmit_frame. rewrite Hsize, Z.eqb_refl. cbn [negb].
  unfold transmit_frame_arm, bind at 1 2, get. rewrite Hup. cbn [negb].
  unfold ret at 1.
  unfold transmit_frame_refresh, bind at 1 2, get. rewrite Hflag.
  unfold ret at 1.
  rewrite (bind_val _ _ _ _ _ (transmit_frame_push_both frame s Hup H1 H2)).
  match goal with
  | |- context [transmit_frame_underflows hw ?x] =>
      destruct (underflows_pushed_blocks x) as (w & -> & Hw)
  end.
  eexists; exists (first_block frame), (second_block frame).
  split; [reflexivity|]. cbn [self world].
  rewrite Hw. repeat split; try assumption; try reflexivity.
  - congruence.
Qed.

(** A frame handed over on an open channel while a refresh is pending is
    lost: the channel is brought down and the request cleared, but the
    frame is neither pushed nor counted (nor counted late). *)
Theorem refresh_pending_loses_the_frame (frame : FrameData) (s : St) :
  buf_size frame = frame_len_bytes ->
  m_channel_is_up (self s) = true ->
  m_require_timestamp_refresh (self s) = true ->
  exists s',
    transmit_frame hw m_conf frame s = (Val tt, s')
    /\ m_channel_is_up (self s') = false
    /\ m_require_timestamp_refresh (self s') = false
    /\ pushed_blocks (world s') = pushed_blocks (world s)
    /\ num_frames_modulated (self s') = num_frames_modulated (self s)
    /\ num_late (self s') = num_late (self s).
Proof.
  intros Hsize Hup Hflag.
  unfold transmit_frame. rewrite Hsize, Z.eqb_refl. cbn [negb].
  unfold transmit_frame_arm, bind at 1 2, get. rewrite Hup. cbn [negb].
  unfold ret at 1.
  unfold transmit_frame_refresh, bind at 1 2, get. rewrite Hflag.
  unfold etiLog at 1, on_world, modify, bind at 1 2.
  match goal with
  | |- context [channel_down hw ?x] =>
      destruct (channel_down_pushed_blocks x) as (w & -> & Hw)
  end.
  unfold on_self, modify. cbn [self world].
  unfold transmit_frame_push, bind at 1 2, get. cbn [self m_channel_is_up
    set_require_timestamp_refresh set_channel_is_up]. unfold ret at 1.
  match goal with
  | |- context [transmit_frame_underflows hw ?x] =>
      destruct (underflows_pushed_blocks x) as (w' & -> & Hw')
  end.
  eexists; split; [reflexivity|]. cbn [self world] in *.
  rewrite Hw', Hw. repeat split.
Qed.

(** ** The clock state machine, all of it *)

Section WorldOnly.

(** A property of the driver object alone survives whatever only touches
    the world. *)
Variable I : St -> Prop.
Hypothesis I_self : forall s w, I s -> I {| self := self s; world := w |}.

Lemma world_only_etiLog (lvl : LogLevel) (text : string) :
  preserves I (etiLog lvl text).
Proof. intros s Hs. apply I_self, Hs. Qed.

Lemma world_only_sleep_for_ms (ms : Z) : preserves I (sleep_for_ms ms).
Proof. intros s Hs. apply I_self, Hs. Qed.

Lemma world_only_fill_time : preserves I (fill_time hw).
Proof.
  intros s Hs. unfold fill_time, bind, get, throw, ret.
  destruct (negb _); exact Hs.
Qed.

Lemma world_only_read_attr_or_throw (attr : string) :
  preserves I (read_attr_or_throw hw attr).
Proof.
  intros s Hs.
  unfold read_attr_or_throw, iio_device_attr_read_longlong, etiLog, on_world,
    modify, bind, get, throw, ret.
  destruct (iio_attr_read hw (world s) dexter_dsp_tx attr) as [r v]. cbn.
  destruct (negb (r =? 0)); cbn; apply I_self, Hs.
Qed.

Lemma world_only_wait_second_change (fuel : nat) (start_sec : Z) :
  preserves I (wait_second_change hw fuel start_sec).
Proof.
  induction fuel as [|fuel IH]; cbn [wait_second_change].
  - apply preserves_bind; [apply world_only_fill_time|intros t].
    apply preserves_bind; [apply world_only_sleep_for_ms|intros _].
    apply preserves_ret.
  - apply preserves_bind; [apply world_only_fill_time|intros t].
    apply preserves_bind; [apply world_only_sleep_for_ms|intros _].
    destruct (start_sec =? tv_sec t); [exact IH|apply preserves_ret].
Qed.

End WorldOnly.

(** What one tick can do to the driver object, whether it returns or
    throws: nothing; or leave Startup for Normal with a new reference and
    the holdover markers reset; or leave Normal for Holdover, the
    reference kept; or leave Holdover for Startup with everything reset.
    There is no other transition, and no other member changes. *)
Theorem tick_transitions (s : St) :
  let d := self s in
  let d' := self (snd (handle_hw_time hw m_conf s)) in
  d' = d
  \/ (m_clock_state d = Startup
      /\ exists utc count, d' = set_clock Normal utc count time_point_min 0 d)
  \/ (m_clock_state d = Normal
      /\ exists since since_t,
           d' = set_clock Holdover (m_utc_seconds_at_startup d)
                  (m_clock_count_at_startup d) since since_t d)
  \/ (m_clock_state d = Holdover
      /\ d' = set_clock Startup 0 0 time_point_min 0 d).
Proof.
  intros d d'. subst d'.
  unfold handle_hw_time. rewrite bind_get.
  destruct (m_clock_state (self s)) eqn:Hst.
  - (* Startup *)
    set (I := fun st : St =>
                self st = d
                \/ exists utc count,
                     self st = set_clock Normal utc count time_point_min 0 d).
    assert (forall st w, I st -> I {| self := self st; world := w |}) as I_self
      by (intros st w Hs; exact Hs).
    assert (I s) as Hs by (left; reflexivity).
    match goal with
    | |- context [snd (?m s)] =>
        assert (preserves I m) as Hm; [|specialize (Hm s Hs)]
    end.
    { apply preserves_bind; [apply world_only_read_attr_or_throw, I_self|intros a].
      apply preserves_bind; [apply world_only_read_attr_or_throw, I_self|intros b].
      destruct (_ && _); [|apply preserves_ret].
      apply preserves_bind; [apply world_only_etiLog, I_self|intros _].
      apply preserves_bind; [apply world_only_fill_time|intros t0].
      apply preserves_bind; [apply world_only_wait_second_change, I_self|intros t1].
      apply preserves_bind; [apply world_only_sleep_for_ms, I_self|intros _].
      apply preserves_bind; [apply world_only_read_attr_or_throw, I_self|intros c1].
      apply preserves_bind; [apply world_only_etiLog, I_self|intros _].
      apply preserves_bind; [apply world_only_wait_second_change, I_self|intros t2].
      apply preserves_bind; [apply world_only_sleep_for_ms, I_self|intros _].
      apply preserves_bind; [apply world_only_read_attr_or_throw, I_self|intros c2].
      apply preserves_bind; [apply world_only_etiLog, I_self|intros _].
      destruct (negb _); [apply preserves_throw|].
      apply preserves_bind; [|intros _; apply world_only_etiLog, I_self].
      intros st [Hd|(utc & count & Hd)]; right; cbn; rewrite Hd;
        eexists; eexists; reflexivity. }
    destruct Hm as [Hd|Hd]; [left; exact Hd|right; left; split; [exact Hst|]].
    exact Hd.
  - (* Normal *)
    unfold read_attr_or_throw, iio_device_attr_read_longlong,
      steady_clock_now, system_clock_now_time_t, etiLog, on_world, on_self,
      modify, gets, bind, get, throw, ret.
    destruct (iio_attr_read hw (world s) dexter_dsp_tx "pps_loss_of_signal")
      as [r v]. cbn.
    destruct (negb (r =? 0)); cbn; [left; reflexivity|].
    destruct (_ =? 1); cbn; [|left; reflexivity].
    right; right; left. split; [exact Hst|]. eexists; eexists; reflexivity.
  - (* Holdover *)
    unfold read_attr_or_throw, iio_device_attr_read_longlong,
      steady_clock_now, etiLog, on_world, on_self, modify, gets, bind, get,
      throw, ret.
    destruct (iio_attr_read hw (world s) dexter_dsp_tx "pps_loss_of_signal")
      as [r v]. cbn.
    destruct (negb (r =? 0)); cbn; [left; reflexivity|].
    destruct (_ || _); cbn; [|left; reflexivity].
    right; right; right. split; [exact Hst|reflexivity].
Qed.

(** A tick in Normal whose read of [pps_loss_of_signal] succeeds: when it
    reads 1 the driver enters Holdover, keeps the reference it aligned on
    and notes the time on both clocks; otherwise nothing changes. *)
Theorem normal_tick (s : St) :
  m_clock_state (self s) = Normal ->
  fst (pps_loss_reply hw s) = 0 ->
  let pps_loss_of_signal := Int.s64 (snd (pps_loss_reply hw s)) in
  let w1 :=
    record_event
      (AttrRead dexter_dsp_tx "pps_loss_of_signal" 0 pps_loss_of_signal)
      (world s) in
  handle_hw_time hw m_conf s =
    if pps_loss_of_signal =? 1 then
      (Val tt,
       {| self :=
            set_clock Holdover (m_utc_seconds_at_startup (self s))
              (m_clock_count_at_startup (self s))
              (steady_ns (world s))
              (Z.quot (realtime_ns (world s)) 1000000000) (self s);
          world :=
            record_event
              (Log debug "Dexter: switch clock state Normal -> Holdover") w1 |})
    else (Val tt, {| self := self s; world := w1 |}).
Proof.
  intros Hst Hrc. unfold pps_loss_reply in *.
  unfold handle_hw_time. rewrite bind_get, Hst.
  unfold read_attr_or_throw, iio_device_attr_read_longlong, steady_clock_now,
    system_clock_now_time_t, etiLog, on_world, on_self, modify, gets, bind,
    get, throw, ret.
  destruct (iio_attr_read hw (world s) dexter_dsp_tx "pps_loss_of_signal")
    as [r v] eqn:E.
  cbn in Hrc. subst r. cbn.
  destruct (Int.s64 v =? 1); reflexivity.
Qed.

(** A tick in Startup without a locked GPSDO or with the PPS lost costs
    two attribute reads and nothing else: no wait, no change. *)
Theorem startup_tick_without_lock (s : St) (gpsdo_locked pps_loss : Z) :
  m_clock_state (self s) = Startup ->
  let w1 :=
    record_event
      (AttrRead dexter_dsp_tx "gpsdo_locked" 0 (Int.s64 gpsdo_locked))
      (world s) in
  iio_attr_read hw (world s) dexter_dsp_tx "gpsdo_locked" = (0, gpsdo_locked) ->
  iio_attr_read hw w1 dexter_dsp_tx "pps_loss_of_signal" = (0, pps_loss) ->
  Int.s64 gpsdo_locked <> 1 \/ Int.s64 pps_loss <> 0 ->
  handle_hw_time hw m_conf s
  = (Val tt,
     {| self := self s;
        world :=
          record_event
            (AttrRead dexter_dsp_tx "pps_loss_of_signal" 0 (Int.s64 pps_loss))
            w1 |}).
Proof.
  intros Hst w1 E1 E2 Hno. subst w1.
  assert ((Int.s64 gpsdo_locked =? 1) && (Int.s64 pps_loss =? 0) = false)
    as Hc.
  { apply andb_false_iff.
    destruct Hno as [H|H]; [left|right]; apply Z.eqb_neq; exact H. }
  unfold handle_hw_time. rewrite bind_get, Hst.
  unfold bind at 1, read_attr_or_throw at 1, iio_device_attr_read_longlong,
    etiLog, on_world, modify, bind at 1 2 3, get, ret at 1 2.
  rewrite E1. cbn [Z.eqb negb fst snd self world].
  unfold bind at 1, read_attr_or_throw at 1, iio_device_attr_read_longlong,
    etiLog, on_world, modify, bind at 1 2 3, get, ret at 1 2.
  cbn [self world]. rewrite E2. cbn [Z.eqb negb fst snd self world].
  rewrite Hc. reflexivity.
Qed.

End Driver.

Section Misaligned.

Variable hw : Hardware.
Variable m_conf : SDRDeviceConfig.
(** The count the PPS edge of each second latches into [pps_clks]. *)
Variable pps_at : Z -> Z.
Hypothesis clock_ok : forall w, clock_gettime_rc hw w = 0.
Hypothesis gpsdo_is_locked :
  forall w, iio_attr_read hw w dexter_dsp_tx "gpsdo_locked" = (0, 1).
Hypothesis pps_present :
  forall w, iio_attr_read hw w dexter_dsp_tx "pps_loss_of_signal" = (0, 0).
Hypothesis pps_latched :
  forall w, iio_attr_read hw w dexter_dsp_tx "pps_clks"
            = (0, pps_at (realtime_ns w / 1000000000)).

(** With the GPSDO locked and the PPS present, a tick in Startup whose
    two readings of [pps_clks], one second apart, do not differ by
    [DSP_CLOCK] (modulo 2^64) throws, and the driver stays in Startup with
    nothing assigned. *)
Theorem startup_tick_wrong_increase (s : St) :
  m_clock_state (self s) = Startup ->
  let sec0 := realtime_ns (world s) / 1000000000 in
  (pps_at (sec0 + 1) + DSP_CLOCK) mod 2 ^ 64 <> pps_at (sec0 + 2) mod 2 ^ 64 ->
  exists s',
    handle_hw_time hw m_conf s
    = (Exc (runtime_error
              "Dexter: Wrong increase of pps_clks, expected 163840000"), s')
    /\ self s' = self s
    /\ realtime_ns (world s') / 1000000000 = sec0 + 2.
Proof.
  intros Hst sec0 Hwrong.
  pose proof (Z.mul_div_le (realtime_ns (world s)) 1000000000 ltac:(lia)) as Hlo.
  pose proof (Z.mul_succ_div_gt (realtime_ns (world s)) 1000000000 ltac:(lia))
    as Hhi.
  fold sec0 in Hlo, Hhi.
  unfold handle_hw_time, bind at 1, get. rewrite Hst.
  rewrite (bind_val _ _ _ _ _
             (ClockFacts.read_attr_returns hw _ _ _ (gpsdo_is_locked _))).
  rewrite (bind_val _ _ _ _ _
             (ClockFacts.read_attr_returns hw _ _ _ (pps_present _))).
  change ((Int.s64 1 =? 1) && (Int.s64 0 =? 0)) with true. cbv iota.
  unfold etiLog at 1, on_world, modify, bind at 1.
  unfold fill_time at 1, bind at 1 2, get. rewrite clock_ok.
  change (negb (0 =? 0)) with false. cbv iota. unfold ret at 1.
  cbn [tv_sec self world record_event realtime_ns].
  fold sec0.
  match goal with
  | |- context [bind (wait_second_change hw second_change_fuel sec0) _ ?st] =>
      destruct (ClockFacts.wait_second_change_reaches hw clock_ok
                  second_change_fuel sec0 st)
        as (t1 & s1 & E1 & Ht1 & Hs1 & Hr1);
        [cbn; lia | cbn; unfold second_change_fuel; lia |];
        rewrite (bind_val _ _ _ _ _ E1); cbn in Hs1, Hr1
  end.
  unfold sleep_for_ms at 1, on_world, modify, bind at 1.
  match goal with
  | |- context [bind (read_attr_or_throw hw "pps_clks") _ ?st] =>
      rewrite (bind_val _ _ _ _ _
                 (ClockFacts.read_attr_returns hw _ _ st (pps_latched _)))
  end.
  cbn [self world advance_ms realtime_ns].
  unfold etiLog at 1, on_world, modify, bind at 1.
  cbn [self world record_event realtime_ns].
  rewrite Ht1.
  match goal with
  | |- context [bind (wait_second_change hw second_change_fuel (sec0 + 1)) _ ?st] =>
      destruct (ClockFacts.wait_second_change_reaches hw clock_ok
                  second_change_fuel (sec0 + 1) st)
        as (t2 & s2 & E2 & Ht2 & Hs2 & Hr2);
        [cbn; lia | cbn; unfold second_change_fuel; lia |];
        rewrite (bind_val _ _ _ _ _ E2); cbn in Hs2, Hr2
  end.
  unfold sleep_for_ms at 1, on_world, modify, bind at 1.
  match goal with
  | |- context [bind (read_attr_or_throw hw "pps_clks") _ ?st] =>
      rewrite (bind_val _ _ _ _ _
                 (ClockFacts.read_attr_returns hw _ _ st (pps_latched _)))
  end.
  cbn [self world advance_ms realtime_ns].
  unfold etiLog at 1, on_world, modify, bind at 1.
  cbn [self world record_event realtime_ns].
  rewrite (ClockFacts.second_of
             (realtime_ns (world s1) + 200 * 1000000) (sec0 + 1)) by lia.
  rewrite (ClockFacts.second_of
             (realtime_ns (world s2) + 200 * 1000000) (sec0 + 2)) by lia.
  assert ((Int.u64 (Int.u64 (Int.s64 (pps_at (sec0 + 1))) + DSP_CLOCK)
           =? Int.u64 (Int.s64 (pps_at (sec0 + 2)))) = false) as Hneq.
  { apply Z.eqb_neq. intros Heq. apply Hwrong.
    transitivity (Int.u64 (Int.u64 (Int.s64 (pps_at (sec0 + 1))) + DSP_CLOCK)).
    - symmetry. apply cong64_eq. rewrite u64_cong, s64_cong. reflexivity.
    - rewrite Heq. apply cong64_eq. rewrite s64_cong. reflexivity. }
  rewrite Hneq. change (negb false) with true. cbv iota.
  unfold throw.
  eexists; split; [reflexivity|].
  cbn [self world record_event advance_ms realtime_ns].
  split; [congruence|]. apply ClockFacts.second_of. lia.
Qed.

End Misaligned.

(** ** The statistics map *)

Section Statistics.

Variable hw : Hardware.

#[local] Set Warnings "-clear-no-such-hyp".

Lemma attr_to_stat_dom (cast : Z -> stat_value) (attr_name stat_name : string)
    (rs : gmap string stat_value) (s : St) :
  exists rs' w',
    attr_to_stat hw cast attr_name stat_name rs s
    = (Val rs', {| self := self s; world := w' |})
    /\ (forall keys, dom rs = list_to_set keys ->
        dom rs' = list_to_set (stat_name :: keys))
    /\ (fst (iio_attr_read hw (world s) dexter_dsp_tx attr_name) <> 0 ->
        rs' !! stat_name = Some (v_ssize_t (-1))).
Proof.
  unfold attr_to_stat, iio_device_attr_read_longlong, etiLog, on_world, modify,
    bind, get, ret.
  destruct (iio_attr_read hw (world s) dexter_dsp_tx attr_name) as [r v].
  cbn. destruct (Z.eqb_spec r 0) as [->|Hr]; cbn;
    eexists; eexists; (split; [reflexivity|]);
    (split; [intros keys Hk; rewrite dom_insert_L, Hk; reflexivity|]);
    intros Hf; [congruence|].
  apply lookup_insert_eq.
Qed.

Lemma dom_insert_keys (k : string) (v : stat_value)
    (rs : gmap string stat_value) (keys : list string) :
  dom rs = list_to_set keys -> dom (<[k := v]> rs) = list_to_set (k :: keys).
Proof. intros Hk. rewrite dom_insert_L, Hk. reflexivity. Qed.

Lemma read_rail_dom (file stat : string) scaled judge
    (acc : gmap string stat_value * bool) (keys : list string) :
  dom (fst acc) = list_to_set keys ->
  dom (fst (read_rail hw file stat scaled judge acc))
  = list_to_set (stat :: keys).
Proof.
  destruct acc as [rs ok]. unfold read_rail. cbn [fst]. intros Hk.
  destruct (hwmon_input hw (hwmon0 ++ file)); cbn [fst];
    rewrite dom_insert_L, Hk; reflexivity.
Qed.

Lemma health_statistics_dom (rs : gmap string stat_value)
    (keys : list string) :
  dom rs = list_to_set keys ->
  dom (health_statistics hw rs)
  = list_to_set
      ("temp_alarm" :: "voltage_alarm" :: "tempfpga" :: "vccocxo"
       :: "vcc2v5io" :: "vcc3v3pll" :: "vcc_main_in" :: "vfan" :: "vcc5v4"
       :: "vcc3v3" :: keys).
Proof.
  intros Hk. unfold health_statistics.
  match goal with
  | |- context [let '(_, _) := ?acc in _] =>
      assert (dom (fst acc)
              = list_to_set
                  ("vccocxo" :: "vcc2v5io" :: "vcc3v3pll" :: "vcc_main_in"
                   :: "vfan" :: "vcc5v4" :: "vcc3v3" :: keys)) as Hacc
        by (repeat apply read_rail_dom; exact Hk);
      destruct acc as [rs7 ok7]
  end.
  cbn [fst] in Hacc.
  destruct (find_tfpga hw 100 0); repeat apply dom_insert_keys; exact Hacc.
Qed.

Lemma health_statistics_other_keys (key : string)
    (rs : gmap string stat_value) :
  key ∉ [ "vcc3v3"; "vcc5v4"; "vfan"; "vcc_main_in"; "vcc3v3pll"; "vcc2v5io";
          "vccocxo"; "tempfpga"; "voltage_alarm"; "temp_alarm" ] ->
  health_statistics hw rs !! key = rs !! key.
Proof.
  intros Hkey. rewrite !not_elem_of_cons in Hkey.
  destruct Hkey as (K1 & K2 & K3 & K4 & K5 & K6 & K7 & K8 & K9 & K10 & _).
  unfold health_statistics.
  match goal with
  | |- context [let '(_, _) := ?acc in _] =>
      assert (fst acc !! key = rs !! key) as Hacc
        by (repeat (rewrite StatsFacts.read_rail_other_keys by assumption);
            reflexivity);
      destruct acc as [rs7 ok7]
  end.
  cbn [fst] in Hacc.
  destruct (find_tfpga hw 100 0);
    repeat (rewrite lookup_insert_ne by congruence); exact Hacc.
Qed.

Lemma same_keys (l1 l2 : list string) :
  forallb (fun k => bool_decide (k ∈ l2)) l1
  && forallb (fun k => bool_decide (k ∈ l1)) l2 = true ->
  list_to_set (C := gset string) l1 = list_to_set l2.
Proof.
  intros H. apply andb_true_iff in H as [H1 H2].
  rewrite forallb_forall in H1, H2.
  apply set_eq. intros k. rewrite !elem_of_list_to_set.
  split; intros Hk; apply list_elem_of_In in Hk;
    [specialize (H1 k Hk)|specialize (H2 k Hk)];
    [apply bool_decide_eq_true in H1|apply bool_decide_eq_true in H2];
    assumption.
Qed.

(** [get_run_statistics] never throws, and the map it returns always has
    the same twenty-two keys, whatever could or could not be read. *)
Theorem run_statistics_keys (s : St) :
  exists rs s',
    get_run_statistics hw s = (Val rs, s')
    /\ self s' = self s
    /\ dom rs = list_to_set statistics_keys.
Proof.
  unfold get_run_statistics. rewrite bind_get.
  match goal with
  | |- context [attr_to_stat hw _ "clks" "clks" ?m] =>
      assert (dom m = list_to_set [ "frames"; "latepackets"; "underruns" ])
        as H0 by (repeat apply dom_insert_keys; apply dom_empty_L);
      revert H0; generalize m; intros rs0 H0
  end.
  repeat
    match goal with
    | H : dom ?rs = _
      |- context [bind (attr_to_stat hw ?c ?a ?n ?rs) _ ?st] =>
        let rs' := fresh "rs" in
        let w' := fresh "w" in
        let E := fresh "E" in
        let Hd := fresh "Hd" in
        destruct (attr_to_stat_dom c a n rs st) as (rs' & w' & E & Hd & _);
        rewrite (bind_val _ _ _ _ _ E); clear E;
        specialize (Hd _ H); clear H
    end.
  eexists; eexists; split; [reflexivity|]. split; [reflexivity|].
  destruct (m_clock_state (self s));
    (erewrite health_statistics_dom
       by (repeat apply dom_insert_keys; exact Hd));
    apply same_keys; vm_compute; reflexivity.
Qed.

(** An attribute that cannot be read shows in the statistics as -1 under
    its name; it is not left out, and nothing is thrown. *)
Theorem unreadable_attribute_is_minus_one (attr stat : string) (s : St) :
  In (attr, stat) copied_attributes ->
  (forall w, fst (iio_attr_read hw w dexter_dsp_tx attr) <> 0) ->
  exists rs s',
    get_run_statistics hw s = (Val rs, s')
    /\ rs !! stat = Some (v_ssize_t (-1)).
Proof.
  intros Hin Hfail.
  unfold get_run_statistics. rewrite bind_get.
  repeat
    match goal with
    | |- context [bind (attr_to_stat hw ?c ?a ?n ?rs) _ ?st] =>
        let rs' := fresh "rs" in
        let w' := fresh "w" in
        let E := fresh "E" in
        let Hm := fresh "Hm" in
        destruct (attr_to_stat_dom c a n rs st) as (rs' & w' & E & _ & Hm);
        rewrite (bind_val _ _ _ _ _ E);
        pose proof (fun key Hne =>
                      StatsFacts.attr_to_stat_other_keys hw c a n key rs rs' _ _
                        Hne E);
        clear E
    end.
  eexists; eexists; split; [reflexivity|].
  unfold copied_attributes in Hin. cbn [In] in Hin.
  repeat (destruct Hin as [[= <- <-]|Hin]; [|]); [..|contradiction];
    rewrite health_statistics_other_keys
      by (rewrite !not_elem_of_cons; repeat split; try discriminate;
          apply not_elem_of_nil);
    (destruct (m_clock_state (self s));
     repeat (rewrite lookup_insert_ne by discriminate);
     repeat first
       [ match goal with
         | Hm : _ -> ?rs !! ?k = _ |- ?rs !! ?k = _ => apply Hm, Hfail
         end
       | match goal with
         | Ho : forall key, _ -> ?rs !! key = _ |- ?rs !! _ = _ =>
             rewrite Ho by discriminate
         end ]).
Qed.

End Statistics.

(** An all-zero frame on an open channel: two blocks of 393216 bytes. *)
Lemma transmit_frame_sends_the_frame_witness :
  let hw := Bench.hardware Bench.locked in
  let s := Bench.dexter Normal true 0 in
  let frame := Bench.frame_at (Bench.t0 + 1) 0 true in
  exists s' block1 block2,
    transmit_frame hw Bench.config frame s = (Val tt, s')
    /\ pushed_blocks (world s') = block2 :: block1 :: pushed_blocks (world s)
    /\ (block1 ++ block2)%list = buf frame
    /\ length block1 = length block2
    /\ m_channel_is_up (self s') = true
    /\ num_buffers_pushed (self s')
       = Int.u64 (Int.u64 (num_buffers_pushed (self s) + 1) + 1)
    /\ num_frames_modulated (self s')
       = Int.u64 (num_frames_modulated (self s) + 1).
Proof.
  intros hw s frame.
  assert (buf_size frame = frame_len_bytes) as Hsize
    by (vm_compute; reflexivity).
  assert (0 <= first_push hw s frame) as H1 by (vm_compute; discriminate).
  assert (0 <= second_push hw s frame) as H2 by (vm_compute; discriminate).
  exact (transmit_frame_sends_the_frame hw Bench.config frame s Hsize
           eq_refl eq_refl H1 H2).
Defined.

(** The same hand-over with a refresh pending: nothing goes out. *)
Lemma refresh_pending_loses_the_frame_witness :
  let hw := Bench.hardware Bench.locked in
  let s := require_timestamp_refresh (Bench.dexter Normal true 0) in
  let frame := Bench.frame_at (Bench.t0 + 1) 0 true in
  exists s',
    transmit_frame hw Bench.config frame s = (Val tt, s')
    /\ m_channel_is_up (self s') = false
    /\ m_require_timestamp_refresh (self s') = false
    /\ pushed_blocks (world s') = pushed_blocks (world s)
    /\ num_frames_modulated (self s') = num_frames_modulated (self s)
    /\ num_late (self s') = num_late (self s).
Proof.
  intros hw s frame.
  assert (buf_size frame = frame_len_bytes) as Hsize
    by (vm_compute; reflexivity).
  exact (refresh_pending_loses_the_frame hw Bench.config frame s Hsize
           eq_refl eq_refl).
Defined.

(** The PPS is lost 0 ms after [t0]: Holdover since then. *)
Lemma normal_tick_witness :
  let s := Bench.dexter Normal true 0 in
  handle_hw_time (Bench.hardware Bench.pps_lost) Bench.config s
  = (Val tt,
     {| self :=
          set_clock Holdover (Bench.t0 - 10) 0 (1000 * 1000000000) Bench.t0
            (self s);
        world :=
          record_event
            (Log debug "Dexter: switch clock state Normal -> Holdover")
            (record_event (AttrRead dexter_dsp_tx "pps_loss_of_signal" 0 1)
               (world s)) |}).
Proof.
  intro s.
  rewrite (normal_tick (Bench.hardware Bench.pps_lost) Bench.config s);
    reflexivity.
Defined.

Lemma startup_tick_without_lock_witness :
  let s := Bench.dexter Startup false 0 in
  handle_hw_time (Bench.hardware unlocked) Bench.config s
  = (Val tt,
     {| self := self s;
        world :=
          record_event (AttrRead dexter_dsp_tx "pps_loss_of_signal" 0 0)
            (record_event (AttrRead dexter_dsp_tx "gpsdo_locked" 0 0)
               (world s)) |}).
Proof.
  intro s.
  apply (startup_tick_without_lock (Bench.hardware unlocked) Bench.config s 0 0);
    [reflexivity .. | left; vm_compute; discriminate].
Defined.

(** A counter one clock per second fast: the alignment is refused. *)
Lemma startup_tick_wrong_increase_witness :
  let s := Bench.dexter Startup false 0 in
  exists s',
    handle_hw_time (ticking (DSP_CLOCK + 1)) Bench.config s
    = (Exc (runtime_error
              "Dexter: Wrong increase of pps_clks, expected 163840000"), s')
    /\ self s' = self s
    /\ realtime_ns (world s') / 1000000000 = Bench.t0 + 2.
Proof.
  intro s.
  assert (((DSP_CLOCK + 1) * (Bench.t0 + 1) + DSP_CLOCK) mod 2 ^ 64
          <> ((DSP_CLOCK + 1) * (Bench.t0 + 2)) mod 2 ^ 64) as Hwrong
    by (vm_compute; discriminate).
  exact (startup_tick_wrong_increase (ticking (DSP_CLOCK + 1)) Bench.config
           (fun k => (DSP_CLOCK + 1) * k)
           (fun _ => eq_refl) (fun _ => eq_refl) (fun _ => eq_refl)
           (fun _ => eq_refl) s eq_refl Hwrong).
Defined.

(** A board that only has [clks]: the FIFO statistic reads -1. *)
Lemma unreadable_attribute_is_minus_one_witness :
  let hw := Bench.hardware (Bench.with_attrs [ ("clks", 5) ] Bench.locked) in
  exists rs s',
    get_run_statistics hw (Bench.dexter Normal true 0) = (Val rs, s')
    /\ rs !! "fifo_not_empty_clks" = Some (v_ssize_t (-1)).
Proof.
  intros hw.
  assert (In ("stream0_fifo_not_empty_clks", "fifo_not_empty_clks")
            copied_attributes) as Hin by (vm_compute; tauto).
  assert (forall w,
            fst (iio_attr_read hw w dexter_dsp_tx
                   "stream0_fifo_not_empty_clks") <> 0) as Hfail
    by (intros w; vm_compute; discriminate).
  exact (unreadable_attribute_is_minus_one hw _ _
           (Bench.dexter Normal true 0) Hin Hfail).
Defined.

End DriverFacts.


(** * More of the output stage *)

Module PipelineFacts.
Import SDR StageClaims StageSpec MonadFacts.

Section WithDevice.

Context {D : Type} `{SDRDevice D}.
Variable dpd_set_tx_frame_throws : list Event -> bool.

(** ** From [process] to the queue *)

(** With a device and a live worker, [process] followed by
    [process_metadata] hands the queue one frame made of the bytes given
    to [process], the sample size last set and the timestamp of the first
    metadata entry; the staging buffer is left empty. *)
Theorem process_then_metadata (dataIn : list Byte.byte) (m0 : frame_timestamp)
    (rest : list frame_timestamp) (s : t D) :
  m_running s = true ->
  has_device s = true ->
  let frame := {| buf := dataIn; sampleSize := m_size s; ts := m0 |} in
  let max_size :=
    if enableSync (m_config s) then FRAMES_MAX_SIZE_SYNC
    else FRAMES_MAX_SIZE_UNSYNC in
  exists s',
    (process dataIn ;; process_metadata dpd_set_tx_frame_throws (m0 :: rest)) s
    = (Val tt, s')
    /\ m_queue s'
       = snd (ThreadsafeQueue.push_overflow (m_queue s) frame max_size)
    /\ m_frame s' = []
    /\ m_running s' = true.
Proof.
  intros Hrun Hdev frame max_size.
  unfold process, bind at 1 2, get. rewrite Hrun. cbn [negb].
  unfold modify at 1, bind at 1, ret at 1.
  unfold process_metadata, bind at 1, get.
  replace (has_device (set_frame dataIn s)) with true by (symmetry; exact Hdev).
  cbn [m_running set_frame]. rewrite Hrun. cbn [andb].
  erewrite bind_val by reflexivity.
  cbn [m_frame m_size m_config m_dpd_feedback_server out set_frame].
  fold frame. fold max_size.
  destruct (m_dpd_feedback_server s && dpd_set_tx_frame_throws (out s)).
  - erewrite bind_val
      by (erewrite bind_val by reflexivity; reflexivity).
    unfold bind at 1, get. cbn [m_queue set_frame set_dpd_feedback_server emit].
    destruct (ThreadsafeQueue.push_overflow (m_queue s) frame max_size)
      as [res q]. cbn.
    eexists. repeat split. exact Hrun.
  - erewrite bind_val by reflexivity.
    unfold bind at 1, get. cbn [m_queue set_frame].
    destruct (ThreadsafeQueue.push_overflow (m_queue s) frame max_size)
      as [res q]. cbn.
    eexists. repeat split. exact Hrun.
Qed.

(** When the metadata is empty the frame given to [process] is lost: the
    staging buffer is emptied, the queue and its overflow counter stay as
    they were, and one line is logged. *)
Theorem process_then_empty_metadata (dataIn : list Byte.byte) (s : t D) :
  m_running s = true ->
  has_device s = true ->
  (process dataIn ;; process_metadata dpd_set_tx_frame_throws []) s
  = (Val tt,
     emit (Log info "SDR output: dropping one frame with invalid FCT")
       (set_frame [] s)).
Proof.
  intros Hrun Hdev.
  unfold process, bind at 1 2, get. rewrite Hrun. cbn [negb].
  unfold modify at 1, bind at 1, ret at 1.
  unfold process_metadata, bind at 1, get.
  replace (has_device (set_frame dataIn s)) with true by (symmetry; exact Hdev).
  cbn [m_running set_frame]. rewrite Hrun. cbn [andb].
  reflexivity.
Qed.

(** ** Frames that carry no usable timestamp *)

(** Past the clock gate, a frame is handled without any look at the time
    when the stage is not synchronous or the frame's timestamp is not
    valid: with [enableSync] and [muteNoTimestamps] it is dropped with one
    line of log, otherwise it goes to the muting gate and on to
    [transmit_frame].  The device time is not read and the record of the
    last timestamp is not touched. *)
Theorem handle_frame_without_timestamp (frame : FrameData) (s : t D)
    (d d1 : D) :
  m_device s = Some d ->
  dev_is_clk_source_ok (m_config s) d = (Val true, d1) ->
  enableSync (m_config s) && timestamp_valid (ts frame) = false ->
  let s1 := past_clock_gate d1 s in
  handle_frame frame s =
    if enableSync (m_config s) && muteNoTimestamps (m_config s) then
      (Val tt, emit (Log info "OutputSDR: Muting sample %d : no timestamp") s1)
    else if muting (m_config s) then
      (Val tt, refreshed (emit (Log info "OutputSDR: Muting FCT=%d requested") s1))
    else
      on_device (call_transmit_frame frame)
        (dev_transmit_frame (m_config s) frame) s1.
Proof.
  intros Hdev Hclk Hno s1.
  unfold handle_frame, bind at 1, get.
  unfold bind at 1, on_device at 1. rewrite Hdev, Hclk. cbn [negb].
  fold (past_clock_gate d1 s). fold s1.
  rewrite Hno.
  destruct (enableSync (m_config s)) eqn:Esync; cbn [andb] in *.
  - rewrite Hno. cbn [negb andb].
    destruct (muteNoTimestamps (m_config s)); [reflexivity|].
    unfold bind at 1, ret at 1.
    destruct (muting (m_config s)); [|reflexivity].
    unfold etiLog, modify, bind at 1.
    apply (StageFacts.require_timestamp_refresh_eq _ d1). reflexivity.
  - unfold bind at 1, ret at 1.
    destruct (muting (m_config s)); [|reflexivity].
    unfold etiLog, modify, bind at 1.
    apply (StageFacts.require_timestamp_refresh_eq _ d1). reflexivity.
Qed.

(** ** The record of the last timestamp *)

(** A frame with a valid timestamp that passes the clock gate in
    synchronous mode becomes the reference of the next regularity check
    whatever happens to it afterwards: dropped as late, refused as too far
    ahead, muted or transmitted. *)
Theorem last_timestamp_is_recorded (frame : FrameData) (s : t D)
    (d d1 d2 : D) (device_time : double) :
  m_device s = Some d ->
  enableSync (m_config s) = true ->
  timestamp_valid (ts frame) = true ->
  dev_is_clk_source_ok (m_config s) d = (Val true, d1) ->
  dev_get_real_secs (m_config s) d1 = (Val device_time, d2) ->
  divides_by_zero s frame = false ->
  let s' := snd (handle_frame frame s) in
  last_tx_time_initialised s' = true
  /\ last_tx_second s' = Int.u32 (timestamp_sec (ts frame))
  /\ last_tx_pps s' = Int.u32 (timestamp_pps (ts frame)).
Proof.
  intros Hdev Hsync Hvalid Hclk Htime Hdiv s'. subst s'.
  rewrite (StageFacts.handle_frame_sync_path_eq frame s d d1 d2 device_time)
    by assumption.
  assert (forall x : t D,
            last_tx_time_initialised (refreshed x) = last_tx_time_initialised x
            /\ last_tx_second (refreshed x) = last_tx_second x
            /\ last_tx_pps (refreshed x) = last_tx_pps x) as Href.
  { intros x. unfold refreshed. destruct (m_device x); repeat split. }
  set (s2 := after_regularity_check frame d2 (past_clock_gate d1 s)).
  assert (last_tx_time_initialised s2 = true
          /\ last_tx_second s2 = Int.u32 (timestamp_sec (ts frame))
          /\ last_tx_pps s2 = Int.u32 (timestamp_pps (ts frame))) as H2
    by (repeat split).
  destruct (in_the_past frame device_time).
  { cbn [snd]. destruct (Href (emit (Log warn
      "OutputSDR: Timestamp in the past at FCT=") s2)) as (-> & -> & ->).
    exact H2. }
  destruct (too_far_ahead frame device_time); [exact H2|].
  destruct (muting (m_config s)).
  { cbn [snd]. destruct (Href (emit (Log info
      "OutputSDR: Muting FCT=%d requested") s2)) as (-> & -> & ->).
    exact H2. }
  unfold on_device.
  destruct (m_device s2); [|exact H2].
  destruct (dev_transmit_frame _ _ _) as [r d']. exact H2.
Qed.

(** ** A muted stage *)

Section Muted.

Variable calls : list Event.

Lemma muted_stable :
  stable_under is_transmit_call
    (fun s : t D => muting (m_config s) = true /\ transmit_calls s = calls).
Proof.
  intros s [Hm Hc]. split; [|split].
  - intros e He. split; [exact Hm|].
    rewrite StageFacts.transmit_calls_emit by exact He. exact Hc.
  - intros d. split; assumption.
  - intros a b c. split; assumption.
Qed.

Lemma muted_handle_frame_sync (frame : FrameData) :
  timestamp_valid (ts frame) = true ->
  preserves (fun s : t D => muting (m_config s) = true
                            /\ transmit_calls s = calls)
    (handle_frame_sync frame).
Proof.
  intros Hvalid. pose proof muted_stable as Hst.
  unfold handle_frame_sync.
  apply preserves_bind_get. intros s0 _.
  apply preserves_bind;
    [apply (StageFacts.keeps_on_device _ _ Hst); reflexivity|].
  intros device_time. rewrite Hvalid. cbn [negb].
  apply preserves_bind.
  { destruct (offset_changed (ts frame)); [|apply preserves_ret].
    apply preserves_bind;
      [apply (StageFacts.keeps_etiLog _ _ Hst); reflexivity|].
    intros _. apply (StageFacts.keeps_refresh _ _ Hst). reflexivity. }
  intros _. apply preserves_bind.
  { apply (StageFacts.keeps_check_timestamp_regular _ _ Hst); reflexivity. }
  intros _. apply preserves_bind.
  { apply preserves_modify. intros s Hs. apply (Hst s Hs). }
  intros _. apply preserves_bind;
    [apply (StageFacts.keeps_etiLog _ _ Hst); reflexivity|].
  intros _. destruct (Double.lt _ _).
  { apply preserves_bind;
      [apply (StageFacts.keeps_etiLog _ _ Hst); reflexivity|].
    intros _. apply preserves_bind;
      [apply (StageFacts.keeps_refresh _ _ Hst); reflexivity|].
    intros _. apply preserves_ret. }
  destruct (Double.gt _ _); [|apply preserves_ret].
  apply preserves_bind;
    [apply (StageFacts.keeps_etiLog _ _ Hst); reflexivity|].
  intros _. apply preserves_throw.
Qed.

Lemma muted_handle_frame (frame : FrameData) :
  preserves (fun s : t D => muting (m_config s) = true
                            /\ transmit_calls s = calls)
    (handle_frame frame).
Proof.
  pose proof muted_stable as Hst.
  unfold handle_frame.
  apply preserves_bind_get. intros s0 [Hm0 _].
  apply preserves_bind;
    [apply (StageFacts.keeps_on_device _ _ Hst); reflexivity|].
  intros clk_ok. destruct (negb clk_ok); [apply preserves_ret|].
  destruct (enableSync (m_config s0) && muteNoTimestamps (m_config s0)
            && negb (timestamp_valid (ts frame)));
    [apply (StageFacts.keeps_etiLog _ _ Hst); reflexivity|].
  apply preserves_bind.
  { destruct (enableSync (m_config s0) && timestamp_valid (ts frame)) eqn:E;
      [|apply preserves_ret].
    apply andb_true_iff in E as [_ Hvalid].
    apply muted_handle_frame_sync. exact Hvalid. }
  intros go_on. destruct go_on; [|apply preserves_ret].
  rewrite Hm0.
  apply preserves_bind;
    [apply (StageFacts.keeps_etiLog _ _ Hst); reflexivity|].
  intros _. apply (StageFacts.keeps_refresh _ _ Hst). reflexivity.
Qed.

Lemma muted_pipeline_step (o : pipeline_op) :
  preserves (fun s : t D => muting (m_config s) = true
                            /\ transmit_calls s = calls)
    (pipeline_step dpd_set_tx_frame_throws o).
Proof.
  pose proof muted_stable as Hst.
  destruct o as [dataIn|metadataIn|]; cbn [pipeline_step].
  - apply preserves_bind; [|intros; apply preserves_ret].
    unfold process. apply preserves_bind_get. intros s0 _.
    destruct (negb (m_running s0)); [apply preserves_throw|].
    apply preserves_bind; [apply preserves_modify; intros s Hs; exact Hs|].
    intros _. apply preserves_ret.
  - unfold process_metadata. apply preserves_bind_get. intros s0 _.
    destruct (has_device s0 && m_running s0); [|apply preserves_ret].
    apply preserves_bind; [apply preserves_modify; intros s Hs; exact Hs|].
    intros _. destruct metadataIn as [|m0 rest].
    { apply (StageFacts.keeps_etiLog _ _ Hst). reflexivity. }
    apply preserves_bind.
    { destruct (_ && _); [|apply preserves_ret].
      apply preserves_bind;
        [apply (StageFacts.keeps_etiLog _ _ Hst); reflexivity|].
      intros _. apply preserves_modify. intros s Hs. exact Hs. }
    intros _. apply preserves_bind_get. intros s1 _.
    destruct (ThreadsafeQueue.push_overflow _ _ _) as [r q].
    apply preserves_bind;
      [apply (StageFacts.keeps_etiLog _ _ Hst); reflexivity|].
    intros _. apply preserves_modify. intros s Hs. exact Hs.
  - unfold worker_round. apply preserves_bind_get. intros s0 _.
    destruct (m_running s0); [|apply preserves_ret].
    destruct (m_queue s0) as [|frame rest]; [apply preserves_ret|].
    apply preserves_bind; [apply preserves_modify; intros s Hs; exact Hs|].
    intros _. apply preserves_try_catch.
    + destruct (has_device s0); [|apply preserves_ret].
      apply muted_handle_frame.
    + intros e. destruct e; try apply preserves_throw.
      apply preserves_bind;
        [apply (StageFacts.keeps_etiLog _ _ Hst); reflexivity|].
      intros _. apply preserves_modify. intros s Hs. exact Hs.
Qed.

End Muted.

(** While [muting] is set nothing reaches the device's [transmit_frame]:
    through any schedule of [process], [process_metadata] and rounds of
    the worker, whatever the frames and the device's answers, the stage
    stays muted and the list of its [transmit_frame] calls does not
    grow. *)
Theorem muted_stage_never_transmits (schedule : list pipeline_op) (s : t D) :
  muting (m_config s) = true ->
  let s' := snd (pipeline_run dpd_set_tx_frame_throws schedule s) in
  muting (m_config s') = true /\ transmit_calls s' = transmit_calls s.
Proof.
  intros Hm.
  apply (StageFacts.pipeline_run_preserves dpd_set_tx_frame_throws
           (fun x : t D => muting (m_config x) = true
                           /\ transmit_calls x = transmit_calls s)
           schedule (muted_pipeline_step (transmit_calls s))).
  split; [exact Hm|reflexivity].
Qed.

End WithDevice.

(** ** The stage on a Dexter *)

Section OnDexter.

Variable hw : Hardware.

(** An unsynchronised, unmuted stage hands every frame to the driver; one
    of the wrong length comes back as a runtime error, and the driver has
    only logged. *)
Lemma handle_frame_wrong_length (frame : FrameData) (s : t Dexter.St)
    (d : Dexter.St) :
  m_device s = Some d ->
  enableSync (m_config s) = false ->
  muting (m_config s) = false ->
  buf_size frame <> Dexter.frame_len_bytes ->
  handle_frame (H := Dexter_SDRDevice hw) frame s
  = (Exc (runtime_error "Dexter: invalid buffer size"),
     set_device
       (Some {| Dexter.self := Dexter.self d;
                Dexter.world :=
                  record_event (Log debug "Dexter::transmit_frame Expected ")
                    (Dexter.world d) |})
       (emit (DeviceCall (call_transmit_frame frame))
          (emit (DeviceCall call_is_clk_source_ok) s))).
Proof.
  intros Hdev Hsync Hmute Hlen.
  unfold handle_frame, bind at 1, get.
  unfold bind at 1, on_device at 1. rewrite Hdev.
  cbn [dev_is_clk_source_ok Dexter_SDRDevice].
  unfold Dexter.is_clk_source_ok. rewrite Hsync. unfold ret at 1.
  cbn [negb andb]. unfold bind at 1, ret at 1. rewrite Hmute.
  unfold on_device. cbn [m_device set_device emit].
  cbn [dev_transmit_frame Dexter_SDRDevice].
  unfold Dexter.transmit_frame.
  apply Z.eqb_neq in Hlen. rewrite Hlen. cbn [negb].
  reflexivity.
Qed.

(** On an unsynchronised, unmuted stage, one frame of the wrong length
    ends the output, wherever it comes in the worker's sequence: the
    worker catches the driver's runtime error, logs it and stops; nothing
    is pushed for that frame, the frames behind it are not handled, and
    every later [process] throws. *)
Theorem wrong_length_frame_stops_the_output (rc : Z) (pre : list FrameData)
    (frame : FrameData) (rest : list FrameData) (s s1 : t Dexter.St)
    (d : Dexter.St) :
  worker_rounds (H := Dexter_SDRDevice hw) pre (worker_start rc s)
  = (Val tt, s1) ->
  m_running s1 = true ->
  m_device s1 = Some d ->
  enableSync (m_config s1) = false ->
  muting (m_config s1) = false ->
  buf_size frame <> Dexter.frame_len_bytes ->
  exists s',
    process_thread_entry (H := Dexter_SDRDevice hw) rc
      (pre ++ frame :: rest) s
    = (Val tt, s')
    /\ m_running s' = false
    /\ count (is_log error "SDR output thread caught runtime error: ") s'
       = S (count (is_log error "SDR output thread caught runtime error: ") s1)
    /\ transmit_calls s'
       = DeviceCall (call_transmit_frame frame) :: transmit_calls s1
    /\ (exists d', m_device s' = Some d'
                   /\ Dexter.self d' = Dexter.self d
                   /\ pushes_so_far (Dexter.world d')
                      = pushes_so_far (Dexter.world d))
    /\ forall dataIn,
         fst (process dataIn s') = Exc (runtime_error "SDR thread failed").
Proof.
  intros Hpre Hrun Hdev Hsync Hmute Hlen.
  pose proof (handle_frame_wrong_length frame
                (at_pop (D := Dexter.St) s1) d Hdev Hsync Hmute Hlen)
    as Hthrow.
  assert (has_device s1 = true) as Hhas
    by (unfold has_device; rewrite Hdev; reflexivity).
  eexists. split.
  { exact (StageFacts.thread_ends_on_runtime_error (H := Dexter_SDRDevice hw)
             rc pre frame rest s s1 _ _ Hpre Hrun Hhas Hthrow). }
  split; [reflexivity|].
  split.
  { unfold count, at_pop. cbn [out emit set_running set_device].
    rewrite !filter_cons. cbn. reflexivity. }
  split.
  { unfold transmit_calls, at_pop. cbn [out emit set_running set_device].
    rewrite !filter_cons. cbn. reflexivity. }
  split; [eexists; split; [reflexivity|]; split; reflexivity|].
  intros dataIn. reflexivity.
Qed.

End OnDexter.

(** ** On the bench *)

Lemma process_then_metadata_witness :
  let s := ctor Bench.config (Some (mock_at 1000)) in
  let m0 := ts (Bench.small_frame 1 9 0) in
  exists s',
    (process [Byte.x01; Byte.x02] ;; process_metadata (fun _ => false) [m0; m0]) s
    = (Val tt, s')
    /\ m_queue s'
       = [ {| buf := [Byte.x01; Byte.x02]; sampleSize := 8; ts := m0 |} ]
    /\ m_frame s' = []
    /\ m_running s' = true.
Proof.
  intros s m0.
  exact (process_then_metadata (fun _ => false) [Byte.x01; Byte.x02] m0 [m0] s
           ltac:(reflexivity) ltac:(reflexivity)).
Defined.

Lemma process_then_empty_metadata_witness :
  let s := ctor Bench.config (Some (mock_at 1000)) in
  (process [Byte.x01; Byte.x02] ;; process_metadata (fun _ => false) []) s
  = (Val tt,
     emit (Log info "SDR output: dropping one frame with invalid FCT") s).
Proof.
  intros s.
  exact (process_then_empty_metadata (fun _ => false) [Byte.x01; Byte.x02] s
           ltac:(reflexivity) ltac:(reflexivity)).
Defined.

(** Synchronous, [muteNoTimestamps] off: the frame without a timestamp
    is transmitted. *)
Lemma handle_frame_without_timestamp_witness :
  let s := ctor Bench.config (Some (mock_at 1000)) in
  out (snd (handle_frame untimed_frame s))
  = [ DeviceCall (call_transmit_frame untimed_frame);
      DeviceCall call_is_clk_source_ok ].
Proof.
  intros s.
  rewrite (handle_frame_without_timestamp untimed_frame s
             (mock_at 1000) (mock_at 1000) ltac:(reflexivity) ltac:(reflexivity) ltac:(reflexivity)).
  reflexivity.
Defined.

(** A frame a thousand seconds late is dropped, and recorded. *)
Lemma last_timestamp_is_recorded_witness :
  let s := ctor Bench.config (Some (mock_at 2000)) in
  let s' := snd (handle_frame (Bench.small_frame 2048 1000 5) s) in
  last_tx_time_initialised s' = true
  /\ last_tx_second s' = 1000
  /\ last_tx_pps s' = 5.
Proof.
  intros s.
  exact (last_timestamp_is_recorded (Bench.small_frame 2048 1000 5) s
           (mock_at 2000) (mock_at 2000) (mock_at 2000) 2000
           ltac:(reflexivity) ltac:(reflexivity) ltac:(reflexivity) ltac:(reflexivity) ltac:(reflexivity) ltac:(reflexivity)).
Defined.

Lemma muted_stage_never_transmits_witness :
  let s := muted (ctor Bench.config (Some (mock_at 1000))) in
  let m0 := ts (Bench.small_frame 1 1001 0) in
  let s' :=
    snd (pipeline_run (fun _ => false)
           [ op_process [Byte.x01]; op_process_metadata [m0]; op_worker ] s) in
  muting (m_config s') = true /\ transmit_calls s' = [].
Proof.
  intros s m0.
  exact (muted_stage_never_transmits (fun _ => false)
           [ op_process [Byte.x01]; op_process_metadata [m0]; op_worker ] s
           ltac:(reflexivity)).
Defined.

(** Four bytes handed to a Dexter, with another frame behind them. *)
Lemma wrong_length_frame_stops_the_output_witness :
  let hw := Bench.hardware Bench.locked in
  let d := Bench.dexter Dexter.Normal true 0 in
  let s := ctor (set_enableSync false Bench.config) (Some d) in
  let frame := Bench.small_frame 1 0 0 in
  let later := Bench.small_frame 1 0 0 in
  exists s',
    process_thread_entry (H := Dexter_SDRDevice hw) 0 [frame; later] s
    = (Val tt, s')
    /\ m_running s' = false
    /\ count (is_log error "SDR output thread caught runtime error: ") s'
       = 1%nat
    /\ transmit_calls s' = [ DeviceCall (call_transmit_frame frame) ]
    /\ (exists d', m_device s' = Some d'
                   /\ Dexter.self d' = Dexter.self d
                   /\ pushes_so_far (Dexter.world d') = 0%nat)
    /\ forall dataIn,
         fst (process dataIn s') = Exc (runtime_error "SDR thread failed").
Proof.
  intros hw d s frame later.
  assert (worker_rounds (H := Dexter_SDRDevice hw) [] (worker_start 0 s)
          = (Val tt, worker_start 0 s)) as Hpre by reflexivity.
  assert (buf_size frame <> Dexter.frame_len_bytes) as Hlen
    by (vm_compute; discriminate).
  exact (wrong_length_frame_stops_the_output hw 0 [] frame [later] s
           (worker_start 0 s) d Hpre
           ltac:(reflexivity) ltac:(reflexivity) ltac:(reflexivity)
           ltac:(reflexivity) Hlen).
Defined.

(** Device time 0: a first frame due at 50 s is transmitted, the next one,
    due at 1000 s, is too far ahead and the worker stops. *)
Lemma worker_dies_on_runtime_error_witness :
  let s := ctor Bench.config (Some (mock_at 0)) in
  let first := Bench.small_frame 2048 50 0 in
  let frame := Bench.small_frame 2048 1000 0 in
  let r := process_thread_entry 0 [first; frame] s in
  fst r = Val tt
  /\ m_running (snd r) = false
  /\ transmit_calls (snd r) = [ DeviceCall (call_transmit_frame first) ]
  /\ forall dataIn,
       fst (process dataIn (snd r)) = Exc (runtime_error "SDR thread failed").
Proof.
  intros s first frame r.
  pose (s1 := snd (worker_rounds [first] (worker_start 0 s))).
  assert (worker_rounds [first] (worker_start 0 s) = (Val tt, s1)) as Hpre
    by (vm_compute; reflexivity).
  assert (m_running s1 = true) as Hrun by (vm_compute; reflexivity).
  assert (has_device s1 = true) as Hdev by (vm_compute; reflexivity).
  assert (handle_frame frame (at_pop s1)
          = (Exc (runtime_error "Timestamp error. Aborted."),
             snd (handle_frame frame (at_pop s1)))) as Hthrow
    by (vm_compute; reflexivity).
  destruct (StageFacts.worker_dies_on_runtime_error 0 [first] frame [] s s1 _ _
              Hpre Hrun Hdev Hthrow) as [E1 E2].
  change ([first] ++ [frame])%list with [first; frame] in E1, E2.
  fold r in E1, E2. rewrite E1.
  split; [reflexivity|]. split; [reflexivity|].
  split; [vm_compute; reflexivity|].
  rewrite <- E1. exact E2.
Defined.

(** ** The expected timestamp *)

(** Counted in ticks, the expected timestamp is the previous one plus the
    duration of the frame, rounded down to a tick, as long as the seconds
    stay within 32 bits; its sub-second part is below one second. *)
Theorem expected_timestamp_adds_the_frame (last_sec last_pps size rate : Z) :
  0 <= last_sec ->
  0 <= last_pps < 16384000 ->
  0 <= size < 2 ^ 40 ->
  0 < rate < 2 ^ 32 ->
  last_sec + size / rate + 1 < 2 ^ 32 ->
  let '(sec, pps) := expected_timestamp last_sec last_pps size rate in
  ticks sec pps = ticks last_sec last_pps + size * 16384000 / rate
  /\ 0 <= pps < 16384000.
Proof.
  intros Hsec Hpps Hsize Hrate Hfit.
  rewrite StageFacts.expected_timestamp_spec by exact Hpps.
  unfold expected_next, ticks.
  rewrite (IntFacts.u64_small (size * 16384000)) by lia.
  rewrite (IntFacts.u64_small rate) by lia.
  set (inc := size * 16384000 / rate).
  assert (0 <= inc) as Hinc by (apply Z.div_pos; lia).
  assert (inc <= (size / rate + 1) * 16384000) as Hup.
  { subst inc.
    pose proof (Z.div_mod size rate ltac:(lia)) as Hdm.
    pose proof (Z.mod_pos_bound size rate ltac:(lia)) as Hmod.
    assert (size * 16384000 <= ((size / rate + 1) * 16384000) * rate) as Hle
      by nia.
    apply Z.div_le_upper_bound; lia. }
  assert ((last_pps + inc) / 16384000 <= size / rate + 1) as Hq.
  { apply Z.lt_succ_r. apply Z.div_lt_upper_bound; lia. }
  assert (0 <= (last_pps + inc) / 16384000) as Hq0
    by (apply Z.div_pos; lia).
  rewrite IntFacts.u32_small by lia.
  pose proof (Z.div_mod (last_pps + inc) 16384000 ltac:(lia)) as Hdm.
  pose proof (Z.mod_pos_bound (last_pps + inc) 16384000 ltac:(lia)) as Hmod.
  split; lia.
Qed.

(** Transmission mode 1 at 2048000 samples per second: 96 ms on. *)
Lemma expected_timestamp_adds_the_frame_witness :
  let '(sec, pps) := expected_timestamp 1700000000 16000000 196608 2048000 in
  ticks sec pps = ticks 1700000000 16000000 + 1572864
  /\ 0 <= pps < 16384000.
Proof.
  exact (expected_timestamp_adds_the_frame 1700000000 16000000 196608 2048000
           ltac:(lia) ltac:(lia) ltac:(lia) ltac:(lia)
           ltac:(vm_compute; reflexivity)).
Defined.

End PipelineFacts.


(** * The frequency interleaver *)

Module InterleaverFacts.
Import FrequencyInterleaver MonadFacts.

(** ** The table *)

Lemma written_fmap_Some (idx : list Z) : written (Some <$> idx) = idx.
Proof.
  unfold written. induction idx as [|k idx IH]; [reflexivity|].
  cbn. rewrite IH. reflexivity.
Qed.

(** What the check computes. *)
Lemma is_permutation_table_sound (carriers : Z) (mem : list (option Z)) :
  is_permutation_table carriers mem = true ->
  exists idx, mem = Some <$> idx /\ idx ≡ₚ seqZ 0 carriers.
Proof.
  unfold is_permutation_table. intros H.
  apply andb_true_iff in H as [H Hnodup].
  apply andb_true_iff in H as [H Hrange].
  apply andb_true_iff in H as [Hmem Hlen].
  apply bool_decide_eq_true in Hmem, Hnodup. apply Z.eqb_eq in Hlen.
  rewrite forallb_forall in Hrange.
  exists (written mem). split; [exact Hmem|].
  apply submseteq_length_Permutation.
  - apply NoDup_submseteq; [exact Hnodup|].
    intros k Hk. apply elem_of_seqZ.
    apply list_elem_of_In in Hk. specialize (Hrange k Hk).
    apply andb_true_iff in Hrange as [H0 H1].
    apply Z.leb_le in H0. apply Z.ltb_lt in H1. lia.
  - rewrite length_seqZ. lia.
Qed.

Lemma table_of_mode (carriers num beta : Z) :
  match fill_indices (Z.to_nat (num - 1)) num carriers beta 0 0
          (replicate (Z.to_nat carriers) None) with
  | Val mem => is_permutation_table carriers mem
  | Exc _ => false
  end = true ->
  exists mem idx,
    fill_indices (Z.to_nat (num - 1)) num carriers beta 0 0
      (replicate (Z.to_nat carriers) None) = Val mem
    /\ mem = Some <$> idx /\ idx ≡ₚ seqZ 0 carriers.
Proof.
  destruct (fill_indices _ _ _ _ _ _ _) as [mem|e]; [|discriminate].
  intros H. destruct (is_permutation_table_sound _ _ H) as (idx & Hm & Hp).
  exists mem, idx. repeat split; assumption.
Qed.

(** The constructor accepts the modes 0 to 4 and no other.  For each of
    them the writes stay within the block, every element of the block is
    written, and the table is a rearrangement of [0 .. m_carriers - 1];
    the number of carriers is a positive multiple of four. *)
Theorem table_is_a_permutation (mode : Z) (fixedPoint : bool) :
  match ctor 0 mode fixedPoint with
  | Val interleaver =>
      (mode ∈ [0; 1; 2; 3; 4])
      /\ m_fixedPoint interleaver = fixedPoint
      /\ 0 < m_carriers interleaver
      /\ m_carriers interleaver mod 4 = 0
      /\ exists idx,
           m_indices interleaver = Some <$> idx
           /\ idx ≡ₚ seqZ 0 (m_carriers interleaver)
  | Exc e =>
      (mode ∉ [0; 1; 2; 3; 4])
      /\ e = runtime_error "FrequencyInterleaver: invalid dab mode"
  end.
Proof.
  unfold ctor.
  destruct (mode_parameters mode) as [[[carriers num] beta]|] eqn:Emode.
  - assert ((mode ∈ [0; 1; 2; 3; 4])
            /\ ((carriers, num, beta) = (1536, 2048, 511)
                \/ (carriers, num, beta) = (384, 512, 127)
                \/ (carriers, num, beta) = (192, 256, 63)
                \/ (carriers, num, beta) = (768, 1024, 255))) as [Hmode Hpar].
    { unfold mode_parameters in Emode.
      destruct mode as [|[[[]|[]|]|[[]|[]|]|]|]; inversion Emode; subst;
        (split; [rewrite !elem_of_cons; tauto|tauto]). }
    cbn [Z.eqb negb].
    assert (exists mem idx,
              fill_indices (Z.to_nat (num - 1)) num carriers beta 0 0
                (replicate (Z.to_nat carriers) None) = Val mem
              /\ mem = Some <$> idx /\ idx ≡ₚ seqZ 0 carriers)
      as (mem & idx & -> & Hmem & Hperm).
    { destruct Hpar as [E|[E|[E|E]]]; inversion E; subst;
        apply table_of_mode; vm_compute; reflexivity. }
    cbn [m_fixedPoint m_carriers m_indices].
    split; [exact Hmode|]. split; [reflexivity|].
    split; [destruct Hpar as [E|[E|[E|E]]]; inversion E; lia|].
    split; [destruct Hpar as [E|[E|[E|E]]]; inversion E; reflexivity|].
    exists idx. split; assumption.
  - split; [|reflexivity].
    unfold mode_parameters in Emode.
    rewrite !not_elem_of_cons.
    destruct mode as [|[[[]|[]|]|[[]|[]|]|]|]; try discriminate;
      repeat split; try discriminate; apply not_elem_of_nil.
Qed.

(** ** The interleaving *)

Section Interleave.

Context {T : Type}.
Variable idx : list Z.
Variable inp : list T.
(** A symbol has [4 * rounds] carriers. *)
Variable rounds : nat.
Hypothesis table : idx ≡ₚ seqZ 0 (Z.of_nat (4 * rounds)).

Lemma table_length : length idx = (4 * rounds)%nat.
Proof. rewrite table, length_seqZ. lia. Qed.

Lemma table_range (j : nat) (k : Z) :
  idx !! j = Some k -> 0 <= k < Z.of_nat (4 * rounds).
Proof.
  intros Hj. apply list_elem_of_lookup_2 in Hj. rewrite table in Hj.
  apply elem_of_seqZ in Hj. lia.
Qed.

Lemma table_injective (j j' : nat) (k : Z) :
  idx !! j = Some k -> idx !! j' = Some k -> j = j'.
Proof.
  assert (NoDup idx) as Hnd by (rewrite table; apply NoDup_seqZ).
  intros Hj Hj'. exact (proj1 (NoDup_alt idx) Hnd j j' k Hj Hj').
Qed.

Lemma table_lookup (j : nat) :
  (j < 4 * rounds)%nat -> exists k, idx !! j = Some k.
Proof.
  intros Hj. apply lookup_lt_is_Some. rewrite table_length. exact Hj.
Qed.

(** One assignment [out[indices[j]] = in[i]] within the bounds. *)
Lemma store_spec (b i j : nat) (k : Z) (sample : T) (out : list T) :
  idx !! j = Some k ->
  inp !! i = Some sample ->
  (b + Z.to_nat k < length out)%nat ->
  store (Some <$> idx) inp (Z.of_nat b) (Z.of_nat i) (Z.of_nat j) out
  = (Val tt, <[(b + Z.to_nat k)%nat := sample]> out).
Proof.
  intros Hj Hi Hlt. unfold store.
  rewrite !Nat2Z.id, list_lookup_fmap, Hj, Hi. cbn [fmap option_fmap option_map].
  pose proof (table_range j k Hj) as Hk.
  replace (Z.to_nat (Z.of_nat b + k)) with (b + Z.to_nat k)%nat by lia.
  destruct (Nat.ltb_spec (b + Z.to_nat k) (length out)); [reflexivity|lia].
Qed.

Section Symbol.

(** The symbol that starts at [b] in the output and at [i0] in the
    input, and the output [out0] before it is written. *)
Variable b i0 : nat.
Variable out0 : list T.
Hypothesis room_out : (b + 4 * rounds <= length out0)%nat.
Hypothesis room_in : (i0 + 4 * rounds <= length inp)%nat.

(** The first [j] carriers of the symbol are in place and nothing
    outside the symbol has moved. *)
Lemma store_step (j : nat) (out : list T) :
  (j < 4 * rounds)%nat ->
  length out = length out0 ->
  (forall j' k, (j' < j)%nat -> idx !! j' = Some k ->
                out !! (b + Z.to_nat k)%nat = inp !! (i0 + j')%nat) ->
  (forall p, (p < b \/ b + 4 * rounds <= p)%nat -> out !! p = out0 !! p) ->
  exists out',
    store (Some <$> idx) inp (Z.of_nat b) (Z.of_nat (i0 + j)) (Z.of_nat j) out
    = (Val tt, out')
    /\ length out' = length out0
    /\ (forall j' k, (j' < S j)%nat -> idx !! j' = Some k ->
                     out' !! (b + Z.to_nat k)%nat = inp !! (i0 + j')%nat)
    /\ (forall p, (p < b \/ b + 4 * rounds <= p)%nat -> out' !! p = out0 !! p).
Proof.
  intros Hj Hlen Hdone Hrest.
  destruct (table_lookup j Hj) as [k Hk].
  pose proof (table_range j k Hk) as Hkr.
  destruct (lookup_lt_is_Some_2 inp (i0 + j)) as [sample Hs]; [lia|].
  exists (<[(b + Z.to_nat k)%nat := sample]> out).
  split; [apply store_spec; [assumption ..|lia]|].
  split; [rewrite length_insert; exact Hlen|].
  split.
  - intros j' k' Hj' Hk'.
    destruct (decide (j' = j)) as [->|Hne].
    + assert (k' = k) as -> by congruence.
      rewrite list_lookup_insert_eq by lia. symmetry. exact Hs.
    + pose proof (table_range j' k' Hk') as Hkr'.
      rewrite list_lookup_insert_ne.
      * apply Hdone; [lia|exact Hk'].
      * intros E. apply Hne.
        assert (k' = k) as -> by lia.
        exact (table_injective _ _ _ Hk' Hk).
  - intros p Hp. rewrite list_lookup_insert_ne by lia. apply Hrest, Hp.
Qed.

Lemma carriers_loop_spec (todo j : nat) (out : list T) :
  (j + 4 * todo = 4 * rounds)%nat ->
  length out = length out0 ->
  (forall j' k, (j' < j)%nat -> idx !! j' = Some k ->
                out !! (b + Z.to_nat k)%nat = inp !! (i0 + j')%nat) ->
  (forall p, (p < b \/ b + 4 * rounds <= p)%nat -> out !! p = out0 !! p) ->
  exists out',
    carriers_loop (Some <$> idx) inp todo (Z.of_nat b) (Z.of_nat (i0 + j))
      (Z.of_nat j) out
    = (Val tt, out')
    /\ length out' = length out0
    /\ (forall j' k, idx !! j' = Some k ->
                     out' !! (b + Z.to_nat k)%nat = inp !! (i0 + j')%nat)
    /\ (forall p, (p < b \/ b + 4 * rounds <= p)%nat -> out' !! p = out0 !! p).
Proof.
  revert j out. induction todo as [|todo IH]; intros j out Hj Hlen Hdone Hrest.
  - exists out. split; [reflexivity|]. split; [exact Hlen|].
    split; [|exact Hrest].
    intros j' k Hk. apply Hdone; [|exact Hk].
    apply lookup_lt_Some in Hk. rewrite table_length in Hk. lia.
  - cbn [carriers_loop].
    destruct (store_step j out) as (o1 & E1 & L1 & D1 & R1);
      [lia|assumption ..|].
    destruct (store_step (S j) o1) as (o2 & E2 & L2 & D2 & R2);
      [lia|assumption ..|].
    destruct (store_step (S (S j)) o2) as (o3 & E3 & L3 & D3 & R3);
      [lia|assumption ..|].
    destruct (store_step (S (S (S j))) o3) as (o4 & E4 & L4 & D4 & R4);
      [lia|assumption ..|].
    destruct (IH (4 + j)%nat o4) as (out' & E & L & D & R);
      [lia|assumption ..|].
    exists out'. split; [|repeat split; assumption].
    rewrite (bind_val _ _ _ _ _ E1).
    replace (Z.of_nat (i0 + j) + 1) with (Z.of_nat (i0 + S j)) by lia.
    replace (Z.of_nat j + 1) with (Z.of_nat (S j)) by lia.
    rewrite (bind_val _ _ _ _ _ E2).
    replace (Z.of_nat (i0 + j) + 2) with (Z.of_nat (i0 + S (S j))) by lia.
    replace (Z.of_nat j + 2) with (Z.of_nat (S (S j))) by lia.
    rewrite (bind_val _ _ _ _ _ E3).
    replace (Z.of_nat (i0 + j) + 3) with (Z.of_nat (i0 + S (S (S j)))) by lia.
    replace (Z.of_nat j + 3) with (Z.of_nat (S (S (S j)))) by lia.
    rewrite (bind_val _ _ _ _ _ E4).
    replace (Z.of_nat (i0 + j) + 4) with (Z.of_nat (i0 + (4 + j))) by lia.
    replace (Z.of_nat j + 4) with (Z.of_nat (4 + j)) by lia.
    exact E.
Qed.

End Symbol.

(** [n] symbols, and an output buffer as long as the input. *)
Variable n : nat.
Hypothesis symbols : length inp = (n * (4 * rounds))%nat.

Lemma symbols_loop_spec (todo sym : nat) (out : list T) :
  (sym + todo = n)%nat ->
  length out = length inp ->
  (forall sym' j k, (sym' < sym)%nat -> idx !! j = Some k ->
     out !! (sym' * (4 * rounds) + Z.to_nat k)%nat
     = inp !! (sym' * (4 * rounds) + j)%nat) ->
  exists out',
    symbols_loop (Some <$> idx) inp todo rounds (Z.of_nat (4 * rounds))
      (Z.of_nat (sym * (4 * rounds))) (Z.of_nat (sym * (4 * rounds))) out
    = (Val tt, out')
    /\ length out' = length inp
    /\ (forall sym' j k, (sym' < n)%nat -> idx !! j = Some k ->
          out' !! (sym' * (4 * rounds) + Z.to_nat k)%nat
          = inp !! (sym' * (4 * rounds) + j)%nat).
Proof.
  revert sym out. induction todo as [|todo IH]; intros sym out Hn Hlen Hdone.
  - exists out. split; [reflexivity|]. split; [exact Hlen|].
    intros sym' j k Hs. apply Hdone. lia.
  - cbn [symbols_loop].
    destruct (carriers_loop_spec (sym * (4 * rounds)) (sym * (4 * rounds)) out
                ltac:(nia) ltac:(nia) rounds 0 out)
      as (o1 & E1 & L1 & D1 & R1);
      [lia|reflexivity|intros; lia|reflexivity|].
    destruct (IH (S sym) o1) as (out' & E & L & D); [lia|congruence| |].
    + intros sym' j k Hs Hk.
      pose proof (table_range j k Hk) as Hkr.
      destruct (decide (sym' = sym)) as [->|Hne]; [apply D1; exact Hk|].
      rewrite R1 by nia. apply Hdone; [lia|exact Hk].
    + exists out'. split; [|split; assumption].
      replace (Z.of_nat (sym * (4 * rounds) + 0))
        with (Z.of_nat (sym * (4 * rounds))) in E1 by lia.
      rewrite (bind_val _ _ _ _ _ E1).
      replace (Z.of_nat (sym * (4 * rounds)) + Z.of_nat (4 * rounds))
        with (Z.of_nat (S sym * (4 * rounds))) by lia.
      replace (Z.of_nat (sym * (4 * rounds)) + 4 * Z.of_nat rounds)
        with (Z.of_nat (S sym * (4 * rounds))) by lia.
      exact E.
Qed.

End Interleave.

(** [do_process] with a table that is a rearrangement of the carriers of
    a symbol, their number a positive multiple of four, on an input of
    whole symbols and an output buffer of the same length: it returns
    without touching anything out of bounds, carrier [j] of every symbol
    ends up at position [indices[j]] of the same symbol, and so the output
    is a rearrangement of the input, whatever the buffer held before. *)
Theorem do_process_interleaves {T : Type} (idx : list Z) (inp out : list T)
    (rounds n : nat) :
  (0 < rounds)%nat ->
  idx ≡ₚ seqZ 0 (Z.of_nat (4 * rounds)) ->
  length inp = (n * (4 * rounds))%nat ->
  length out = length inp ->
  exists out',
    do_process (Some <$> idx) inp (Z.of_nat (4 * rounds)) out = (Val tt, out')
    /\ length out' = length inp
    /\ (forall sym j k, (sym < n)%nat -> idx !! j = Some k ->
          out' !! (sym * (4 * rounds) + Z.to_nat k)%nat
          = inp !! (sym * (4 * rounds) + j)%nat)
    /\ out' ≡ₚ inp.
Proof.
  intros Hrounds Htable Hin Hout.
  destruct (symbols_loop_spec idx inp rounds Htable n Hin n 0 out)
    as (out' & E & L & D); [lia|exact Hout|intros; lia|].
  exists out'. split; [|split; [exact L|split; [exact D|]]].
  - unfold do_process.
    destruct (Z.eqb_spec (Z.of_nat (4 * rounds)) 0) as [H0|_]; [lia|].
    replace (Z.of_nat (length inp) mod Z.of_nat (4 * rounds)) with 0.
    2:{ rewrite Hin, Nat2Z.inj_mul, Z.mod_mul by lia. reflexivity. }
    cbn [Z.eqb negb].
    replace (Z.to_nat ((Z.of_nat (4 * rounds) + 3) / 4)) with rounds.
    2:{ replace (Z.of_nat (4 * rounds) + 3) with (3 + Z.of_nat rounds * 4)
          by lia.
        rewrite Z.div_add by lia. change (3 / 4) with 0. lia. }
    replace (Z.to_nat
               ((Z.of_nat (length inp) + 4 * Z.of_nat rounds - 1)
                / (4 * Z.of_nat rounds))) with n.
    2:{ rewrite Hin.
        replace (Z.of_nat (n * (4 * rounds)) + 4 * Z.of_nat rounds - 1)
          with ((4 * Z.of_nat rounds - 1) + Z.of_nat n * (4 * Z.of_nat rounds))
          by lia.
        rewrite Z.div_add, Z.div_small by lia. lia. }
    exact E.
  - symmetry. apply Permutation_inj. split; [congruence|].
    pose (C := (4 * rounds)%nat).
    exists (fun i : nat =>
              if decide (i < n * C)%nat then
                (i / C * C + Z.to_nat (default 0%Z (idx !! (i mod C)%nat)))%nat
              else i).
    assert (0 < C)%nat as HC by (subst C; lia).
    assert (forall i, (i < n * C)%nat ->
              exists k, idx !! (i mod C)%nat = Some k
                        /\ (Z.to_nat k < C)%nat
                        /\ (i / C < n)%nat) as Hpos.
    { intros i Hi.
      destruct (table_lookup idx rounds Htable (i mod C)) as [k Hk].
      { apply Nat.mod_upper_bound. lia. }
      exists k. split; [exact Hk|].
      pose proof (table_range idx rounds Htable _ _ Hk).
      split; [subst C; lia|].
      apply Nat.Div0.div_lt_upper_bound. lia. }
    split.
    + intros i i'.
      destruct (decide (i < n * C)%nat) as [Hi|Hi];
        destruct (decide (i' < n * C)%nat) as [Hi'|Hi'].
      * destruct (Hpos i Hi) as (k & Hk & Hkc & _).
        destruct (Hpos i' Hi') as (k' & Hk' & Hkc' & _).
        rewrite Hk, Hk'. cbn [default from_option id]. intros Heq.
        assert (i / C = i' / C /\ Z.to_nat k = Z.to_nat k')%nat as [Hq Hkk].
        { revert Heq Hkc Hkc'.
          generalize (i / C)%nat (i' / C)%nat (Z.to_nat k) (Z.to_nat k').
          intros a a' kn kn' Heq Hkn Hkn'.
          destruct (Nat.lt_total a a') as [Hlt|[->|Hlt]]; [|lia|].
          - pose proof (Nat.mul_le_mono_r (S a) a' C ltac:(lia)). lia.
          - pose proof (Nat.mul_le_mono_r (S a') a C ltac:(lia)). lia. }
        pose proof (table_range idx rounds Htable _ _ Hk).
        pose proof (table_range idx rounds Htable _ _ Hk').
        assert (k = k') as -> by lia.
        pose proof (table_injective idx rounds Htable _ _ _ Hk Hk') as Hm.
        rewrite (Nat.div_mod_eq i C), (Nat.div_mod_eq i' C). congruence.
      * destruct (Hpos i Hi) as (k & Hk & Hkc & Hq).
        rewrite Hk. cbn [default from_option id]. intros Heq. exfalso.
        revert Heq Hkc Hq. generalize (i / C)%nat (Z.to_nat k).
        intros a kn Heq Hkn Ha.
        pose proof (Nat.mul_le_mono_r (S a) n C ltac:(lia)). lia.
      * destruct (Hpos i' Hi') as (k & Hk & Hkc & Hq).
        rewrite Hk. cbn [default from_option id]. intros Heq. exfalso.
        revert Heq Hkc Hq. generalize (i' / C)%nat (Z.to_nat k).
        intros a kn Heq Hkn Ha.
        pose proof (Nat.mul_le_mono_r (S a) n C ltac:(lia)). lia.
      * intros Heq. exact Heq.
    + intros i.
      destruct (decide (i < n * C)%nat) as [Hi|Hi].
      * destruct (Hpos i Hi) as (k & Hk & Hkc & Hq).
        rewrite Hk. cbn [default from_option id].
        pose proof (D (i / C)%nat (i mod C)%nat k Hq Hk) as HD.
        pose proof (Nat.div_mod_eq i C) as Hdm.
        subst C. rewrite HD. f_equal. lia.
      * rewrite !lookup_ge_None_2; [reflexivity|subst C; lia ..].
Qed.

Lemma do_process_interleaves_witness :
  exists out',
    do_process (Some <$> [2; 0; 3; 1]) [10; 11; 12; 13; 20; 21; 22; 23]
      (Z.of_nat (4 * 1)) (replicate 8 0) = (Val tt, out')
    /\ length out' = length [10; 11; 12; 13; 20; 21; 22; 23]
    /\ (forall sym j k, (sym < 2)%nat -> [2; 0; 3; 1] !! j = Some k ->
          out' !! (sym * (4 * 1) + Z.to_nat k)%nat
          = [10; 11; 12; 13; 20; 21; 22; 23] !! (sym * (4 * 1) + j)%nat)
    /\ out' ≡ₚ [10; 11; 12; 13; 20; 21; 22; 23].
Proof.
  assert (0 < 1)%nat as H1 by lia.
  assert ([2; 0; 3; 1] ≡ₚ seqZ 0 (Z.of_nat (4 * 1))) as H2.
  { apply (bool_decide_unpack _). vm_compute. exact I. }
  assert (length [10; 11; 12; 13; 20; 21; 22; 23] = (2 * (4 * 1))%nat) as H3
    by reflexivity.
  assert (length (replicate 8 0) = length [10; 11; 12; 13; 20; 21; 22; 23])
    as H4 by reflexivity.
  exact (do_process_interleaves [2; 0; 3; 1] [10; 11; 12; 13; 20; 21; 22; 23]
           (replicate 8 0) 1 2 H1 H2 H3 H4).
Defined.

End InterleaverFacts.


(** * Bringing the Dexter up: constructor, underflow thread *)

Module SetupFacts.
Import Dexter DexterControl DriverSpec DexterSetup MonadFacts IntFacts.


Section Setup.
Variable pf : Platform.
Variable hw : Hardware.
Variable m_conf : SDRDeviceConfig.


(** The constructor needs the handles, the sample rate and the writes of
    zero and of the flush trigger.  What the set_timeout call, the two
    writes of [tune], the push of the cleared block and the write of the
    configured gain answer does not stop it; it has slept 200 ms when it
    returns. *)
Theorem ctor_tolerates_soft_failures (s : St) :
  (forall w, iio_create_local_context pf w = true) ->
  (forall w name, iio_context_find_device pf w name = true) ->
  (forall w, iio_device_get_channel pf w ad9957_tx0 0 = true) ->
  (forall w, iio_device_create_buffer pf w ad9957_tx0 IIO_BUFFER_LEN_SAMPS
             = true) ->
  (forall w attr, iio_attr_write hw w dexter_dsp_tx attr 0 = 0) ->
  (forall w, iio_attr_write hw w dexter_dsp_tx "stream0_flush_fifo_trigger" 1
             = 0) ->
  sampleRate m_conf = 2048000 ->
  exists s',
    ctor pf hw m_conf s = (Val tt, s')
    /\ self s' = self s
    /\ realtime_ns (world s') = realtime_ns (world s) + 200 * 1000000
    /\ pushed_blocks (world s') = zero_block :: pushed_blocks (world s).
Proof.
  intros Hctx Hdev Hchan Hbuf Hzero Hflush Hrate.
  unfold ctor, handle_or_throw, write_or_throw, tune,
    iio_device_attr_write_longlong, iio_buffer_push, etiLog, sleep_for_ms,
    on_world, modify, bind, get, ret, throw.
  cbn [self world fst snd].
  set (gain := Int.s64 (Double.to_s64 (txgain m_conf))).
  set (freq := Int.s64 (Double.to_s64 (frequency m_conf))).
  set (lo_offs := Int.s64 (Double.to_s64 (lo_offset m_conf))).
  clearbody gain freq lo_offs.
  change (Int.s64 0) with 0. change (Int.s64 1) with 1.
  rewrite Hrate.
  change (2048000 =? 2048000) with true.
  repeat first
    [ progress (rewrite ?Hctx, ?Hdev, ?Hchan, ?Hbuf, ?Hzero, ?Hflush;
                change (0 =? 0) with true;
                cbn [self world fst snd negb])
    | match goal with
      | |- context [if negb (?x =? 0) then _ else _] =>
          let r := fresh "r" in
          let Hr := fresh "Hr" in
          remember x as r eqn:Hr; clear Hr; destruct (negb (r =? 0))
      | |- context [if (?x <? 0) then _ else _] =>
          let r := fresh "pushed" in
          let Hr := fresh "Hr" in
          remember x as r eqn:Hr; clear Hr; destruct (r <? 0)
      end; cbn [self world fst snd negb] ].
  all: eexists; split; [reflexivity|].
  all: cbn [self world trace record_event advance_ms realtime_ns].
  all: repeat split; reflexivity.
Qed.

End Setup.

(** ** The underflow thread *)

Section Underflows.
Variable hw : Hardware.

Lemma u64_of_nonzero_s64 (x : Z) : Int.s64 x <> 0 -> Int.u64 (Int.s64 x) <> 0.
Proof.
  unfold Int.u64, Int.s64. intros H E.
  pose proof (Z.mod_pos_bound (x + 2 ^ 63) (2 ^ 64) ltac:(lia)).
  apply Z.mod_divide in E; [|lia]. destruct E as [q E]. lia.
Qed.

Lemma underflow_round_spec (u : Z) (s : St) :
  exists u' s',
    underflow_round hw u s = (Val u', s')
    /\ self s' = self s
    /\ realtime_ns (world s') = realtime_ns (world s) + 1000 * 1000000
    /\ (exists new, trace (world s') = (new ++ trace (world s))%list)
    /\ (u' = u
        \/ exists v,
             v <> 0 /\ u' = Int.u64 v /\ u' <> 0
             /\ In (AttrRead dexter_dsp_tx "buffer_underflows0" 0 v)
                  (trace (world s'))).
Proof.
  unfold underflow_round, iio_device_attr_read_longlong, sleep_for_ms,
    on_world, modify, bind, get, ret.
  cbn [self world].
  destruct (iio_attr_read hw (advance_ms 1000 (world s)) dexter_dsp_tx
              "buffer_underflows0") as [r v].
  cbn [self world fst snd].
  destruct (Z.eqb_spec r 0) as [->|Hr].
  - destruct (negb (Int.u64 (Int.s64 v) =? u) && negb (Int.s64 v =? 0))
      eqn:Hnew.
    + apply andb_true_iff in Hnew as [_ Hnz].
      apply negb_true_iff, Z.eqb_neq in Hnz.
      eexists; eexists; split; [reflexivity|].
      cbn [self world trace record_event advance_ms realtime_ns].
      split; [reflexivity|]. split; [reflexivity|].
      split; [exists [AttrRead dexter_dsp_tx "buffer_underflows0" 0 (Int.s64 v);
                      SleepFor 1000]; reflexivity|].
      right. exists (Int.s64 v).
      split; [exact Hnz|]. split; [reflexivity|].
      split; [apply u64_of_nonzero_s64, Hnz|]. left. reflexivity.
    + eexists; eexists; split; [reflexivity|].
      cbn [self world trace record_event advance_ms realtime_ns].
      split; [reflexivity|]. split; [reflexivity|].
      split; [eexists [_; _]; reflexivity|]. left. reflexivity.
  - eexists; eexists; split; [reflexivity|].
    cbn [self world trace record_event advance_ms realtime_ns].
    split; [reflexivity|]. split; [reflexivity|].
    split; [eexists [_; _]; reflexivity|]. left. reflexivity.
Qed.

(** However long the underflow thread runs and whatever the attribute
    reads, the thread never throws, every round lasts a second, and the
    counter it leaves is the one it found or a non-zero value read from
    [buffer_underflows0]: a counter that is not zero never returns to
    zero. *)
Theorem underflows_never_cleared (todo : nat) (u : Z) (s : St) :
  exists u' s',
    underflow_rounds hw todo u s = (Val u', s')
    /\ self s' = self s
    /\ realtime_ns (world s')
       = realtime_ns (world s) + Z.of_nat todo * (1000 * 1000000)
    /\ (u' = u
        \/ exists v,
             v <> 0 /\ u' = Int.u64 v /\ u' <> 0
             /\ In (AttrRead dexter_dsp_tx "buffer_underflows0" 0 v)
                  (trace (world s'))).
Proof.
  assert (forall todo u s,
            exists u' s',
              underflow_rounds hw todo u s = (Val u', s')
              /\ self s' = self s
              /\ realtime_ns (world s')
                 = realtime_ns (world s) + Z.of_nat todo * (1000 * 1000000)
              /\ (exists new, trace (world s') = (new ++ trace (world s))%list)
              /\ (u' = u
                  \/ exists v,
                       v <> 0 /\ u' = Int.u64 v /\ u' <> 0
                       /\ In (AttrRead dexter_dsp_tx "buffer_underflows0" 0 v)
                            (trace (world s')))) as Hall.
  { clear. intros todo. induction todo as [|todo IH]; intros u s.
    - exists u, s. cbn [underflow_rounds]. unfold ret.
      split; [reflexivity|]. split; [reflexivity|]. split; [lia|].
      split; [exists []; reflexivity|]. left. reflexivity.
    - destruct (underflow_round_spec u s)
        as (u1 & s1 & E1 & Hs1 & Ht1 & _ & Hu1).
      destruct (IH u1 s1) as (u2 & s2 & E2 & Hs2 & Ht2 & [new Hnew] & Hu2).
      exists u2, s2. cbn [underflow_rounds].
      rewrite (bind_val _ _ _ _ _ E1), E2.
      split; [reflexivity|]. split; [congruence|]. split; [lia|].
      split.
      { destruct (underflow_round_spec u s)
          as (u1' & s1' & E1' & _ & _ & [new1 Hnew1] & _).
        rewrite E1 in E1'. injection E1' as <- <-.
        exists (new ++ new1)%list. rewrite Hnew, Hnew1, app_assoc.
        reflexivity. }
      destruct Hu2 as [->|Hu2]; [|right; exact Hu2].
      destruct Hu1 as [->|(v & Hv & Hu & Hnz & Hin)]; [left; reflexivity|].
      right. exists v. repeat split; try assumption.
      rewrite Hnew. apply in_or_app. right. exact Hin. }
  destruct (Hall todo u s) as (u' & s' & E & Hs & Ht & _ & Hu).
  exists u', s'. repeat split; assumption.
Qed.

End Underflows.


Lemma ctor_tolerates_soft_failures_witness :
  let s := Bench.dexter Startup false 0 in
  exists s',
    ctor all_handles stubborn Bench.config s = (Val tt, s')
    /\ self s' = self s
    /\ realtime_ns (world s') = realtime_ns (world s) + 200 * 1000000
    /\ pushed_blocks (world s') = zero_block :: pushed_blocks (world s).
Proof.
  intros s.
  assert (forall w, iio_create_local_context all_handles w = true) as H1
    by reflexivity.
  assert (forall w name, iio_context_find_device all_handles w name = true)
    as H2 by reflexivity.
  assert (forall w, iio_device_get_channel all_handles w ad9957_tx0 0 = true)
    as H3 by reflexivity.
  assert (forall w, iio_device_create_buffer all_handles w ad9957_tx0
                      IIO_BUFFER_LEN_SAMPS = true) as H4 by reflexivity.
  assert (forall w attr, iio_attr_write stubborn w dexter_dsp_tx attr 0 = 0)
    as H5 by reflexivity.
  assert (forall w, iio_attr_write stubborn w dexter_dsp_tx
                      "stream0_flush_fifo_trigger" 1 = 0) as H6
    by reflexivity.
  assert (sampleRate Bench.config = 2048000) as H7 by reflexivity.
  exact (ctor_tolerates_soft_failures all_handles stubborn Bench.config s
           H1 H2 H3 H4 H5 H6 H7).
Defined.

End SetupFacts.
